(** * Voice-dialogue session core: a shallow embedding and its properties

    The Go sources are embedded package by package:

    - [crypto/aes] and [crypto/cipher] (standard library) as far as
      [udp_crypto.go] uses them: the AES block function and CTR mode;
    - [core/transport/mqtt]: [udp_crypto.go], [udp_session.go] and the
      packet path of the UDP server;
    - [core] VAD state ([VADState]) and [processAudioWithVAD];
    - [core/chat]: the dialogue manager and its memory back ends;
    - [core/transport/websocket]: JWT check of [handleWebSocket];
    - [core]: the chat / TTS / audio-send path of [ConnectionHandler].

    Conventions.  A Go [[]byte] is a [list N]; a Go [string] is a
    [string] (its bytes); [int] is [Z]; [uint32] is [N] with the
    wrap-around written where arithmetic happens.  A Go [(T, error)] is
    a [result].  A panic is [None].  Logging is left out; calls of a
    collaborator (transport, recognizer, synthesizer, model, file
    system) are recorded as events. *)

From Stdlib Require Import NArith ZArith Lia List String Ascii Bool.
From stdpp Require Import gmap strings list.

Local Open Scope N_scope.

(** ** Go results *)

Inductive result (E A : Type) : Type :=
| Ok (a : A)
| Err (e : E).
Arguments Ok {E A} a.
Arguments Err {E A} e.

Definition is_ok {E A} (r : result E A) : bool :=
  match r with Ok _ => true | Err _ => false end.

Definition is_err {E A} (r : result E A) : bool := negb (is_ok r).

(** ** Go integers *)

(** [int] and [int64] arithmetic wraps around at 64 bits. *)
Definition int64 (z : Z) : Z := ((z + 2 ^ 63) mod 2 ^ 64 - 2 ^ 63)%Z.

(** ** Bytes *)

Module Bytes.

(** [binary.BigEndian.Uint16]. *)
Definition be_uint16 (b : list N) : N :=
  N.lor (nth 1 b 0) (N.shiftl (nth 0 b 0) 8).

(** [binary.BigEndian.Uint32]. *)
Definition be_uint32 (b : list N) : N :=
  N.lor (N.lor (N.lor (nth 3 b 0) (N.shiftl (nth 2 b 0) 8))
               (N.shiftl (nth 1 b 0) 16))
        (N.shiftl (nth 0 b 0) 24).

(** [binary.BigEndian.PutUint16] of a [uint16(v)] conversion. *)
Definition put_uint16 (v : N) : list N :=
  [N.land (N.shiftr v 8) 255; N.land v 255].

(** [binary.BigEndian.PutUint32]. *)
Definition put_uint32 (v : N) : list N :=
  [N.land (N.shiftr v 24) 255; N.land (N.shiftr v 16) 255;
   N.land (N.shiftr v 8) 255; N.land v 255].

(** Go slice expression [b[lo:hi]] on an in-range slice. *)
Definition slice (lo hi : nat) (b : list N) : list N :=
  take (hi - lo) (drop lo b).

Definition xor_bytes (a b : list N) : list N := zip_with N.lxor a b.

Definition hex_digit (n : N) : ascii :=
  if n <? 10 then ascii_of_N (48 + n) else ascii_of_N (87 + n).

(** [hex.EncodeToString]. *)
Fixpoint hex_encode (b : list N) : string :=
  match b with
  | [] => EmptyString
  | x :: r =>
      String (hex_digit (N.shiftr (N.land x 255) 4))
        (String (hex_digit (N.land x 15)) (hex_encode r))
  end.

End Bytes.

(** ** crypto/aes: the AES block function (FIPS 197) *)

Module AES.

Definition xtime (b : N) : N :=
  let s := N.land (N.shiftl b 1) 255 in
  if N.testbit b 7 then N.lxor s 27 else s.

Fixpoint gmul_aux (n : nat) (a b acc : N) : N :=
  match n with
  | O => acc
  | S n' =>
      gmul_aux n' (xtime a) (N.shiftr b 1)
               (if N.odd b then N.lxor acc a else acc)
  end.

(** Product in GF(2^8) modulo x^8 + x^4 + x^3 + x + 1. *)
Definition gmul (a b : N) : N := gmul_aux 8 (N.land a 255) (N.land b 255) 0.

Fixpoint gpow (n : nat) (x : N) : N :=
  match n with
  | O => 1
  | S n' => gmul x (gpow n' x)
  end.

Definition rotl8 (b : N) (k : N) : N :=
  N.land (N.lor (N.shiftl b k) (N.shiftr b (8 - k))) 255.

(** The S-box entry: the inverse in GF(2^8) followed by the affine map. *)
Definition sbox_calc (x : N) : N :=
  let i := gpow 254 x in
  N.lxor (N.lxor (N.lxor (N.lxor (N.lxor i (rotl8 i 1)) (rotl8 i 2))
                         (rotl8 i 3)) (rotl8 i 4)) 99.

Definition sbox_table : list N :=
  Eval vm_compute in map (fun i => sbox_calc (N.of_nat i)) (seq 0 256).

Definition SubByte (b : N) : N := nth (N.to_nat (N.land b 255)) sbox_table 0.

Definition SubWord (w : list N) : list N := map SubByte w.

Definition RotWord (w : list N) : list N :=
  match w with
  | [] => []
  | b :: r => r ++ [b]
  end.

Definition Rcon (i : nat) : N := nth (i - 1) [1; 2; 4; 8; 16; 32; 64; 128; 27; 54] 0.

Definition key_words (key : list N) : list (list N) :=
  map (fun i => Bytes.slice (4 * i) (4 * i + 4) key)
      (seq 0 (length key / 4)).

Fixpoint expand (fuel : nat) (Nk i : nat) (w : list (list N)) : list (list N) :=
  match fuel with
  | O => w
  | S f =>
      let temp := nth (i - 1) w [] in
      let temp' :=
        if (i mod Nk =? 0)%nat
        then Bytes.xor_bytes (SubWord (RotWord temp)) [Rcon (i / Nk); 0; 0; 0]
        else if (6 <? Nk)%nat && (i mod Nk =? 4)%nat then SubWord temp
        else temp in
      expand f Nk (S i) (w ++ [Bytes.xor_bytes (nth (i - Nk) w []) temp'])
  end.

(** Number of rounds for a key of [Nk] words. *)
Definition rounds (Nk : nat) : nat := (Nk + 6)%nat.

(** The key schedule: [4 * (Nr + 1)] words. *)
Definition key_expansion (key : list N) : list (list N) :=
  let Nk := (length key / 4)%nat in
  expand (4 * (rounds Nk + 1) - Nk) Nk Nk (key_words key).

Definition round_key (w : list (list N)) (r : nat) : list N :=
  concat (take 4 (drop (4 * r) w)).

Definition AddRoundKey (st rk : list N) : list N :=
  map (fun i => N.lxor (nth i st 0) (nth i rk 0)) (seq 0 16).

Definition SubBytes (st : list N) : list N := map SubByte st.

(** The state is kept in input order: byte [i] is row [i mod 4] of
    column [i / 4]. *)
Definition ShiftRows (st : list N) : list N :=
  map (fun i => nth (i mod 4 + 4 * ((i / 4 + i mod 4) mod 4)) st 0) (seq 0 16).

Definition mix_column (c : list N) : list N :=
  let a0 := nth 0 c 0 in let a1 := nth 1 c 0 in
  let a2 := nth 2 c 0 in let a3 := nth 3 c 0 in
  [N.lxor (N.lxor (gmul 2 a0) (gmul 3 a1)) (N.lxor a2 a3);
   N.lxor (N.lxor a0 (gmul 2 a1)) (N.lxor (gmul 3 a2) a3);
   N.lxor (N.lxor a0 a1) (N.lxor (gmul 2 a2) (gmul 3 a3));
   N.lxor (N.lxor (gmul 3 a0) a1) (N.lxor a2 (gmul 2 a3))].

Definition MixColumns (st : list N) : list N :=
  concat (map (fun c => mix_column (Bytes.slice (4 * c) (4 * c + 4) st)) (seq 0 4)).

Fixpoint middle_rounds (w : list (list N)) (n r : nat) (st : list N) : list N :=
  match n with
  | O => st
  | S n' =>
      middle_rounds w n' (S r)
        (AddRoundKey (MixColumns (ShiftRows (SubBytes st))) (round_key w r))
  end.

(** [cipher.Block]: the expanded key. *)
Record Block := { schedule : list (list N); Nr : nat }.

Inductive KeySizeError := KeySizeErr (n : nat).

(** [aes.NewCipher]: the key is 16, 24 or 32 bytes long. *)
Definition NewCipher (key : list N) : result KeySizeError Block :=
  let k := length key in
  if (k =? 16)%nat || (k =? 24)%nat || (k =? 32)%nat
  then Ok {| schedule := key_expansion key; Nr := rounds (k / 4) |}
  else Err (KeySizeErr k).

(** [Block.Encrypt] on one 16-byte block. *)
Definition Encrypt (c : Block) (src : list N) : list N :=
  let st := AddRoundKey src (round_key (schedule c) 0) in
  let st := middle_rounds (schedule c) (Nr c - 1) 1 st in
  AddRoundKey (ShiftRows (SubBytes st)) (round_key (schedule c) (Nr c)).

Definition BlockSize : nat := 16.

End AES.

(** ** crypto/cipher: CTR mode *)

Module CTR.

(** The counter is incremented as one big-endian number, from its last
    byte, each byte wrapping at 256. *)
Fixpoint inc_from_last (rev_ctr : list N) : list N :=
  match rev_ctr with
  | [] => []
  | b :: r =>
      let b' := (b + 1) mod 256 in
      if b' =? 0 then 0 :: inc_from_last r else b' :: r
  end.

Definition ctr_inc (ctr : list N) : list N := rev (inc_from_last (rev ctr)).

Fixpoint keystream (c : AES.Block) (blocks : nat) (ctr : list N) : list N :=
  match blocks with
  | O => []
  | S n => AES.Encrypt c ctr ++ keystream c n (ctr_inc ctr)
  end.

Definition num_blocks (len : nat) : nat := ((len + 15) / 16)%nat.

(** [cipher.NewCTR(block, iv)] followed by [XORKeyStream(dst, src)] with
    [len(dst) = len(src)]: the result is [dst]. *)
Definition XORKeyStream (c : AES.Block) (iv src : list N) : list N :=
  Bytes.xor_bytes src (keystream c (num_blocks (length src)) iv).

End CTR.

(** ** core/transport/mqtt: udp_crypto.go *)

Module UDPCrypto.

Inductive CryptoError :=
| ErrNonceLength              (* nonce must be 16 bytes *)
| ErrKeyLength                (* key must be 16 bytes *)
| ErrNewCipher (e : AES.KeySizeError)
| ErrNonceTooShort.           (* ExtractNonceInfo: fewer than 16 bytes *)

Definition EncryptAESCTR (nonce key plaintext : list N)
  : result CryptoError (list N) :=
  if negb (length nonce =? 16)%nat then Err ErrNonceLength
  else if negb (length key =? 16)%nat then Err ErrKeyLength
  else
    match AES.NewCipher key with
    | Err e => Err (ErrNewCipher e)
    | Ok block => Ok (CTR.XORKeyStream block nonce plaintext)
    end.

(** In CTR mode decryption is the same operation. *)
Definition DecryptAESCTR (nonce key ciphertext : list N)
  : result CryptoError (list N) :=
  EncryptAESCTR nonce key ciphertext.

(** [1 | 0 | len:2 | template:8 | seq:4]; [dataLen] is converted with
    [uint16(dataLen)]. *)
Definition BuildFullNonce (nonceTemplate : list N) (dataLen : N) (seqno : N)
  : list N :=
  [1; 0] ++ Bytes.put_uint16 dataLen
         ++ map (fun i => nth i nonceTemplate 0) (seq 0 8)
         ++ Bytes.put_uint32 seqno.

(** Returns [(connID, seq, dataLen)]. *)
Definition ExtractNonceInfo (nonce : list N)
  : result CryptoError (list N * N * N) :=
  if (length nonce <? 16)%nat then Err ErrNonceTooShort
  else Ok (Bytes.slice 4 8 nonce,
           Bytes.be_uint32 (Bytes.slice 12 16 nonce),
           Bytes.be_uint16 (Bytes.slice 2 4 nonce)).

End UDPCrypto.

(** ** core/transport/mqtt: udp_session.go and the UDP server *)

Module UDP.

Import UDPCrypto.

Record UDPSession := mkUDPSession {
  ID : string;
  ConnID : string;
  DeviceID : string;
  SessionID : string;
  AESKey : list N;               (* [16]byte *)
  Nonce : list N;                (* [8]byte *)
  RemoteAddr : option string;    (* *net.UDPAddr, nil until learnt *)
  LocalSeq : N;                  (* uint32 *)
  RemoteSeq : N;                 (* uint32 *)
  RecvChannel : list (list N);   (* chan []byte, capacity 100 *)
  SendChannel : list (list N);
  CreatedAt : Z;
  LastActive : Z;
  Status : string
}.

Definition chan_cap : nat := 100.

Definition set_RemoteSeq (v : N) (s : UDPSession) : UDPSession :=
  mkUDPSession (ID s) (ConnID s) (DeviceID s) (SessionID s) (AESKey s) (Nonce s)
    (RemoteAddr s) (LocalSeq s) v (RecvChannel s) (SendChannel s)
    (CreatedAt s) (LastActive s) (Status s).

Definition set_LocalSeq (v : N) (s : UDPSession) : UDPSession :=
  mkUDPSession (ID s) (ConnID s) (DeviceID s) (SessionID s) (AESKey s) (Nonce s)
    (RemoteAddr s) v (RemoteSeq s) (RecvChannel s) (SendChannel s)
    (CreatedAt s) (LastActive s) (Status s).

Definition set_LastActive (v : Z) (s : UDPSession) : UDPSession :=
  mkUDPSession (ID s) (ConnID s) (DeviceID s) (SessionID s) (AESKey s) (Nonce s)
    (RemoteAddr s) (LocalSeq s) (RemoteSeq s) (RecvChannel s) (SendChannel s)
    (CreatedAt s) v (Status s).

Definition set_RemoteAddr (v : option string) (s : UDPSession) : UDPSession :=
  mkUDPSession (ID s) (ConnID s) (DeviceID s) (SessionID s) (AESKey s) (Nonce s)
    v (LocalSeq s) (RemoteSeq s) (RecvChannel s) (SendChannel s)
    (CreatedAt s) (LastActive s) (Status s).

Definition set_RecvChannel (v : list (list N)) (s : UDPSession) : UDPSession :=
  mkUDPSession (ID s) (ConnID s) (DeviceID s) (SessionID s) (AESKey s) (Nonce s)
    (RemoteAddr s) (LocalSeq s) (RemoteSeq s) v (SendChannel s)
    (CreatedAt s) (LastActive s) (Status s).

Definition set_Status (v : string) (s : UDPSession) : UDPSession :=
  mkUDPSession (ID s) (ConnID s) (DeviceID s) (SessionID s) (AESKey s) (Nonce s)
    (RemoteAddr s) (LocalSeq s) (RemoteSeq s) (RecvChannel s) (SendChannel s)
    (CreatedAt s) (LastActive s) v.

Inductive SessionError :=
| ErrCreateCipher (e : AES.KeySizeError)
| ErrPacketTooShort                     (* fewer than 16 bytes *)
| ErrSessionClosed
| ErrParseNonce (e : CryptoError)
| ErrLengthMismatch (expected : N) (actual : nat)
| ErrSeqInvalid (expected actual : N)   (* sequence number below the stored one *)
| ErrEncrypt (e : CryptoError)
| ErrDecrypt (e : CryptoError)
| ErrChannelFull.

Definition NewUDPSession (now : Z) (deviceID sessionID : string)
    (aesKey nonce : list N) (connID : string)
  : result SessionError UDPSession :=
  match AES.NewCipher aesKey with
  | Err e => Err (ErrCreateCipher e)
  | Ok _ =>
      Ok (mkUDPSession (deviceID +:+ ":" +:+ sessionID) connID deviceID sessionID
            aesKey nonce None 0 0 [] [] now now "active")
  end.

Definition generateNonce (s : UDPSession) (dataLen : nat) (seqno : N) : list N :=
  BuildFullNonce (Nonce s) (N.of_nat dataLen) seqno.

Definition uint32_succ (n : N) : N := (n + 1) mod 2 ^ 32.

(** [Encrypt]: the packet is [nonce ++ ciphertext]. *)
Definition Encrypt (now : Z) (s : UDPSession) (data : list N)
  : UDPSession * result SessionError (list N) :=
  if negb (String.eqb (Status s) "active") then (s, Err ErrSessionClosed)
  else
    let s1 := set_LocalSeq (uint32_succ (LocalSeq s)) s in
    let fullNonce := generateNonce s1 (length data) (LocalSeq s1) in
    match EncryptAESCTR fullNonce (AESKey s1) data with
    | Err e => (s1, Err (ErrEncrypt e))
    | Ok encrypted => (set_LastActive now s1, Ok (fullNonce ++ encrypted))
    end.

(** [Decrypt]: nonce extraction, length check, sequence check, then
    decryption.  The stored sequence number is written before the
    payload is decrypted. *)
Definition Decrypt (now : Z) (s : UDPSession) (packet : list N)
  : UDPSession * result SessionError (list N) :=
  if (length packet <? 16)%nat then (s, Err ErrPacketTooShort)
  else if negb (String.eqb (Status s) "active") then (s, Err ErrSessionClosed)
  else
    let nonce := Bytes.slice 0 16 packet in
    let encrypted := drop 16 packet in
    match ExtractNonceInfo nonce with
    | Err e => (s, Err (ErrParseNonce e))
    | Ok (_, seqno, dataLen) =>
        if negb (dataLen =? N.of_nat (length encrypted))
        then (s, Err (ErrLengthMismatch dataLen (length encrypted)))
        else if (0 <? RemoteSeq s) && (seqno <? RemoteSeq s)
        then (s, Err (ErrSeqInvalid (RemoteSeq s) seqno))
        else
          let s1 := set_RemoteSeq seqno s in
          match DecryptAESCTR nonce (AESKey s1) encrypted with
          | Err e => (s1, Err (ErrDecrypt e))
          | Ok decrypted => (set_LastActive now s1, Ok decrypted)
          end
    end.

(** [RecvData]: a non-blocking send on [RecvChannel]. *)
Definition RecvData (s : UDPSession) (data : list N)
  : UDPSession * result SessionError unit :=
  if negb (String.eqb (Status s) "active") then (s, Err ErrSessionClosed)
  else if (length (RecvChannel s) <? chan_cap)%nat
  then (set_RecvChannel (RecvChannel s ++ [data]) s, Ok tt)
  else (s, Err ErrChannelFull).

Definition Destroy (s : UDPSession) : UDPSession :=
  if String.eqb (Status s) "closed" then s else set_Status "closed" s.

Definition IsActive (s : UDPSession) : bool := String.eqb (Status s) "active".

(** The UDP server keeps two maps onto the same session objects:
    [nonce2Session] owns them by connection id, [addr2Session] refers to
    them by that id. *)
Record UDPServer := mkUDPServer {
  nonce2Session : gmap string UDPSession;
  addr2Session : gmap string string
}.

Definition printable (b : N) : bool :=
  ((32 <=? b) && (b <=? 126)) || (b =? 9) || (b =? 10) || (b =? 13).

(** [isHealthCheckPacket]: more than 80% of the first 30 bytes are
    printable; the quotient of two integers below 31 is compared exactly. *)
Definition isHealthCheckPacket (data : list N) : bool :=
  if (length data =? 0)%nat || (100 <? length data)%nat then false
  else
    let checkLen := Nat.min (length data) 30 in
    let printableCount := length (filter (fun b => printable b = true) (take checkLen data)) in
    (4 * checkLen <? 5 * printableCount)%nat.

Inductive PacketOutcome :=
| DropTooShort
| DropHealthCheck
| DropNonStandard (first : N)
| DropNonce (e : CryptoError)
| DropNoSession (connID : string)
| DropDecrypt (e : SessionError)
| DropLength
| Delivered (audio : list N)
| DeliverFailed (e : SessionError).

(** The address bookkeeping of [processPacket]: learn or refresh the
    device address before the packet is decrypted. *)
Definition learn_addr (srv : UDPServer) (connID addr : string) (session : UDPSession)
  : UDPServer * UDPSession :=
  match RemoteAddr session with
  | None =>
      (mkUDPServer (nonce2Session srv) (<[addr := connID]> (addr2Session srv)),
       set_RemoteAddr (Some addr) session)
  | Some old =>
      if String.eqb old addr then (srv, session)
      else
        (mkUDPServer (nonce2Session srv)
           (<[addr := connID]> (delete old (addr2Session srv))),
         set_RemoteAddr (Some addr) session)
  end.

Definition store_session (srv : UDPServer) (connID : string) (s : UDPSession)
  : UDPServer :=
  mkUDPServer (<[connID := s]> (nonce2Session srv)) (addr2Session srv).

Definition processPacket (now : Z) (srv : UDPServer) (addr : string) (data : list N)
  : UDPServer * PacketOutcome :=
  if (length data <? 16)%nat then (srv, DropTooShort)
  else
    let nonce := Bytes.slice 0 16 data in
    if negb (nth 0 nonce 0 =? 1) then
      if isHealthCheckPacket data then (srv, DropHealthCheck)
      else (srv, DropNonStandard (nth 0 nonce 0))
    else
      match ExtractNonceInfo nonce with
      | Err e => (srv, DropNonce e)
      | Ok (connIDBytes, seqno, dataLen) =>
          let connID := Bytes.hex_encode connIDBytes in
          match nonce2Session srv !! connID with
          | None => (srv, DropNoSession connID)
          | Some session =>
              let '(srv1, session1) := learn_addr srv connID addr session in
              match Decrypt now session1 data with
              | (session2, Err e) => (store_session srv1 connID session2, DropDecrypt e)
              | (session2, Ok decrypted) =>
                  if negb (N.of_nat (length decrypted) =? dataLen)
                  then (store_session srv1 connID session2, DropLength)
                  else
                    let actualAudioData :=
                      if (16 <=? length decrypted)%nat && (nth 0 decrypted 0 =? 1)
                      then drop 16 decrypted else decrypted in
                    let session3 := set_LastActive now session2 in
                    match RecvData session3 actualAudioData with
                    | (session4, Ok _) =>
                        (store_session srv1 connID session4, Delivered actualAudioData)
                    | (session4, Err e) =>
                        (store_session srv1 connID session4, DeliverFailed e)
                    end
              end
          end
      end.

(** The sequence number a packet carries in bytes 12..15. *)
Definition packet_seq (packet : list N) : N :=
  Bytes.be_uint32 (Bytes.slice 12 16 packet).

(** The highest of a list of sequence numbers. *)
Definition highest (acc : list N) : N := fold_right N.max 0 acc.

(** What the device sends: a packet with the given sequence number. *)
Definition client_packet (key tmpl : list N) (seqno : N) (payload : list N) : list N :=
  let nonce := BuildFullNonce tmpl (N.of_nat (length payload)) seqno in
  match EncryptAESCTR nonce key payload with
  | Ok c => nonce ++ c
  | Err _ => []
  end.

End UDP.

(** ** core: VADState and processAudioWithVAD *)

Module VAD.

Local Open Scope Z_scope.

Record VADState := mkVADState {
  haveVoice : bool;
  haveVoiceLastTime : Z;
  voiceStop : bool;
  idleDuration : Z;
  audioBuffer : list N;
  frameSize : Z;
  maxBufferFrames : Z;
  vadCheckFrames : Z;
  silenceThreshold : Z
}.

Definition NewVADState (frameSize silenceThreshold : Z) : VADState :=
  mkVADState false 0 false 0 [] frameSize 10 3 silenceThreshold.

Definition set_audioBuffer (b : list N) (v : VADState) : VADState :=
  mkVADState (haveVoice v) (haveVoiceLastTime v) (voiceStop v) (idleDuration v)
    b (frameSize v) (maxBufferFrames v) (vadCheckFrames v) (silenceThreshold v).

Definition set_frameSize (n : Z) (v : VADState) : VADState :=
  mkVADState (haveVoice v) (haveVoiceLastTime v) (voiceStop v) (idleDuration v)
    (audioBuffer v) n (maxBufferFrames v) (vadCheckFrames v) (silenceThreshold v).

Definition set_idleDuration (n : Z) (v : VADState) : VADState :=
  mkVADState (haveVoice v) (haveVoiceLastTime v) (voiceStop v) n
    (audioBuffer v) (frameSize v) (maxBufferFrames v) (vadCheckFrames v)
    (silenceThreshold v).

Definition SetHaveVoice (b : bool) (v : VADState) : VADState :=
  mkVADState b (haveVoiceLastTime v) (voiceStop v) (idleDuration v)
    (audioBuffer v) (frameSize v) (maxBufferFrames v) (vadCheckFrames v)
    (silenceThreshold v).

Definition SetHaveVoiceLastTime (t : Z) (v : VADState) : VADState :=
  mkVADState (haveVoice v) t (voiceStop v) (idleDuration v)
    (audioBuffer v) (frameSize v) (maxBufferFrames v) (vadCheckFrames v)
    (silenceThreshold v).

Definition SetVoiceStop (b : bool) (v : VADState) : VADState :=
  mkVADState (haveVoice v) (haveVoiceLastTime v) b (idleDuration v)
    (audioBuffer v) (frameSize v) (maxBufferFrames v) (vadCheckFrames v)
    (silenceThreshold v).

Definition SetVADCheckFrames (n : Z) (v : VADState) : VADState :=
  mkVADState (haveVoice v) (haveVoiceLastTime v) (voiceStop v) (idleDuration v)
    (audioBuffer v) (frameSize v) (maxBufferFrames v) n (silenceThreshold v).

Definition SetMaxBufferFrames (n : Z) (v : VADState) : VADState :=
  mkVADState (haveVoice v) (haveVoiceLastTime v) (voiceStop v) (idleDuration v)
    (audioBuffer v) (frameSize v) n (vadCheckFrames v) (silenceThreshold v).

Definition buffered (v : VADState) : Z := Z.of_nat (length (audioBuffer v)).

Definition AddAudioData (data : list N) (v : VADState) : VADState :=
  set_audioBuffer (audioBuffer v ++ data) v.

Definition GetBufferedFrameCount (v : VADState) : Z :=
  if frameSize v <=? 0 then 0 else Z.quot (buffered v) (frameSize v).

(** [make([]byte, byteCount)] panics on a negative count. *)
Definition GetBufferedData (frameCount : Z) (v : VADState) : option (list N) :=
  let byteCount := frameCount * frameSize v in
  let byteCount := if buffered v <? byteCount then buffered v else byteCount in
  if byteCount <? 0 then None
  else Some (take (Z.to_nat byteCount) (audioBuffer v)).

Definition GetAndClearAllData (v : VADState) : list N * VADState :=
  (audioBuffer v, set_audioBuffer [] v).

(** [RemoveOldFrames]: the integer division panics when [frameSize] is
    zero, the slice expression when [removeBytes] is out of range. *)
Definition RemoveOldFrames (keepFrames : Z) (v : VADState) : option VADState :=
  if frameSize v =? 0 then None
  else
    let currentFrames := Z.quot (buffered v) (frameSize v) in
    if keepFrames <? currentFrames then
      let removeBytes := (currentFrames - keepFrames) * frameSize v in
      if (removeBytes <? 0) || (buffered v <? removeBytes) then None
      else Some (set_audioBuffer (drop (Z.to_nat removeBytes) (audioBuffer v)) v)
    else Some v.

Definition ClearBuffer (v : VADState) : VADState := set_audioBuffer [] v.

Definition HasEnoughDataForVAD (v : VADState) : bool :=
  vadCheckFrames v * frameSize v <=? buffered v.

Definition AddIdleDuration (d : Z) (v : VADState) : VADState :=
  set_idleDuration (int64 (idleDuration v + d)) v.

Definition ResetIdleDuration (v : VADState) : VADState := set_idleDuration 0 v.

Definition IsSilence (v : VADState) (idle : Z) : bool := silenceThreshold v <? idle.

Definition Reset (v : VADState) : VADState :=
  mkVADState false 0 false 0 [] (frameSize v) (maxBufferFrames v)
    (vadCheckFrames v) (silenceThreshold v).

(** The VAD provider's [Process(pcm, sampleRate, frameMs)]. *)
Definition VADProcess := list N -> Z -> Z -> result unit bool.

(** [processAudioWithVAD], on the VAD state; the second component is the
    list of buffers handed to the recognizer ([asr.AddAudio]).  The
    unused local [frameBytes] is left out. *)
Definition processAudioWithVAD (vad : VADProcess) (now : Z)
    (clientAudioSampleRate clientAudioFrameDuration : Z)
    (audioData : list N) (v : VADState)
  : option (VADState * list (list N)) :=
  let sr := if clientAudioSampleRate <=? 0 then 16000 else clientAudioSampleRate in
  let frameMs := if clientAudioFrameDuration <=? 0 then 20 else clientAudioFrameDuration in
  let len := Z.of_nat (length audioData) in
  let v := if (0 <? len) && negb (len =? frameSize v) then set_frameSize len v else v in
  let calculated := Z.quot (len * 1000) (sr * 2) in
  let actualFrameMs :=
    if (0 <? len) && (0 <? calculated) && negb (calculated =? frameMs)
    then calculated else frameMs in
  let actualFrameMs := if actualFrameMs <=? 0 then 20 else actualFrameMs in
  let vadCheck := 1 in
  let v := SetVADCheckFrames vadCheck v in
  let v := AddAudioData audioData v in
  if negb (HasEnoughDataForVAD v) then Some (v, [])
  else
    match GetBufferedData vadCheck v with
    | None => None
    | Some vadData =>
        let have := match vad vadData sr actualFrameMs with
                    | Ok b => b
                    | Err _ => true
                    end in
        let clientHaveVoice := haveVoice v in
        if have && negb clientHaveVoice then
          let '(allData, v) := GetAndClearAllData v in
          Some (ResetIdleDuration (SetHaveVoiceLastTime now (SetHaveVoice true v)),
                [allData])
        else if clientHaveVoice then
          let '(bufferedData, v) := GetAndClearAllData v in
          let sent := if (0 <? length bufferedData)%nat then [bufferedData] else [] in
          let v := if have
                   then ResetIdleDuration (SetHaveVoiceLastTime now v)
                   else AddIdleDuration frameMs v in
          let v := if IsSilence v (idleDuration v) then SetVoiceStop true v else v in
          Some (v, sent)
        else
          let v := AddIdleDuration frameMs v in
          if vadCheck * 3 <? GetBufferedFrameCount v then
            match RemoveOldFrames (maxBufferFrames v) v with
            | None => None
            | Some v' => Some (v', [])
            end
          else Some (v, [])
    end.

(** The property of the specification's data model. *)
Definition aligned (v : VADState) : Prop := (frameSize v | buffered v).

End VAD.

(** ** core/chat: messages, memory back ends, dialogue manager *)

Module Chat.

Record ToolCall := mkToolCall {
  tc_ID : string;
  tc_Type : string;
  tc_Name : string;
  tc_Arguments : string;
  tc_Index : Z
}.

Record Message := mkMessage {
  Role : string;
  Content : string;
  ToolCallID : string;
  ToolCalls : list ToolCall
}.

(** A row of table [dialogue_messages]; the key and the time stamps are
    assigned by the database. *)
Record DialogueMessage := mkRow {
  row_UserID : string;
  row_Index : Z;
  row_Role : string;
  row_Content : string;
  row_ToolCallID : string;
  row_BotID : N
}.

(** The database handle: the table, and whether an insert is refused. *)
Record DB := mkDB { table : list DialogueMessage; refusing : bool }.

Record PostgresMemory := mkPostgresMemory { db : option DB; userID : string }.

(** One value per user in a Redis hash; the value is the JSON of a
    message array, kept here as the array. *)
Record RedisMemory := mkRedisMemory {
  hash : gmap string (list Message);
  field : string;
  unreachable : bool
}.

Inductive Memory :=
| MemPostgres (m : PostgresMemory)
| MemRedis (m : RedisMemory).

Inductive MemoryError := ErrDB | ErrRedis.

Definition row_of (uid : string) (msg : Message) : DialogueMessage :=
  mkRow uid 0 (Role msg) (Content msg) (ToolCallID msg) 0.

(** [db.Create(&rows)]. *)
Definition Create (d : DB) (rows : list DialogueMessage) : DB * option MemoryError :=
  if refusing d then (d, Some ErrDB)
  else (mkDB (table d ++ rows) (refusing d), None).

Definition PostgresSaveMemory (m : PostgresMemory) (dialogue : list Message)
  : PostgresMemory * option MemoryError :=
  match db m with
  | None => (m, None)
  | Some d =>
      if (length dialogue =? 0)%nat then (m, None)
      else
        let '(d', e) := Create d (map (row_of (userID m)) dialogue) in
        (mkPostgresMemory (Some d') (userID m), e)
  end.

Definition RedisSaveMemory (m : RedisMemory) (dialogue : list Message)
  : RedisMemory * option MemoryError :=
  if unreachable m then (m, Some ErrRedis)
  else (mkRedisMemory (<[field m := dialogue]> (hash m)) (field m) (unreachable m), None).

(** [MemoryInterface.SaveMemory]. *)
Definition SaveMemory (m : Memory) (dialogue : list Message)
  : Memory * option MemoryError :=
  match m with
  | MemPostgres pm =>
      let '(pm', e) := PostgresSaveMemory pm dialogue in (MemPostgres pm', e)
  | MemRedis rm =>
      let '(rm', e) := RedisSaveMemory rm dialogue in (MemRedis rm', e)
  end.

(** *** strings.TrimSpace

    White space as Unicode defines it, in UTF-8: a leading (trailing)
    white-space rune is a leading (trailing) occurrence of its encoding. *)

Definition bytes_string (l : list N) : string :=
  fold_right (fun b s => String (ascii_of_N b) s) EmptyString l.

Definition space_runes : list (list N) :=
  [[9]; [10]; [11]; [12]; [13]; [32];
   [194; 133]; [194; 160]; [225; 154; 128];
   [226; 128; 128]; [226; 128; 129]; [226; 128; 130]; [226; 128; 131];
   [226; 128; 132]; [226; 128; 133]; [226; 128; 134]; [226; 128; 135];
   [226; 128; 136]; [226; 128; 137]; [226; 128; 138];
   [226; 128; 168]; [226; 128; 169]; [226; 128; 175];
   [226; 129; 159]; [227; 128; 128]]%N.

Fixpoint strip_prefix (p s : string) : option string :=
  match p, s with
  | EmptyString, _ => Some s
  | String a p', String b s' => if Ascii.eqb a b then strip_prefix p' s' else None
  | String _ _, EmptyString => None
  end.

Fixpoint strip_any (tokens : list string) (s : string) : option string :=
  match tokens with
  | [] => None
  | t :: r =>
      match strip_prefix t s with
      | Some s' => Some s'
      | None => strip_any r s
      end
  end.

Fixpoint trim_with (tokens : list string) (fuel : nat) (s : string) : string :=
  match fuel with
  | O => s
  | S f =>
      match strip_any tokens s with
      | Some s' => trim_with tokens f s'
      | None => s
      end
  end.

Definition string_rev (s : string) : string :=
  string_of_list_ascii (rev (list_ascii_of_string s)).

Definition TrimLeft (s : string) : string :=
  trim_with (map bytes_string space_runes) (String.length s) s.

Definition TrimRight (s : string) : string :=
  string_rev (trim_with (map (fun t => string_rev (bytes_string t)) space_runes)
                        (String.length s) (string_rev s)).

Definition TrimSpace (s : string) : string := TrimRight (TrimLeft s).

(** *** DialogueManager *)

Record DialogueManager := mkDialogueManager {
  dialogue : list Message;
  memory : option Memory
}.

Definition NewDialogueManager (memory : option Memory) : DialogueManager :=
  mkDialogueManager [] memory.

(** The guard of [Put]: role user or assistant, content not blank. *)
Definition persistable (message : Message) : bool :=
  (String.eqb (Role message) "user" || String.eqb (Role message) "assistant")
  && negb (String.eqb (TrimSpace (Content message)) "").

(** [Put]: append in memory; persist through the memory back end when
    the guard holds.  A failed save is only logged. *)
Definition Put (message : Message) (dm : DialogueManager) : DialogueManager :=
  let d := dialogue dm ++ [message] in
  match memory dm with
  | None => mkDialogueManager d None
  | Some m =>
      if persistable message
      then mkDialogueManager d (Some (fst (SaveMemory m [message])))
      else mkDialogueManager d (Some m)
  end.

Definition SetSystemMessage (systemMessage : string) (dm : DialogueManager)
  : DialogueManager :=
  if String.eqb systemMessage "" then dm
  else
    match dialogue dm with
    | m0 :: rest =>
        if String.eqb (Role m0) "system"
        then mkDialogueManager
               (mkMessage (Role m0) systemMessage (ToolCallID m0) (ToolCalls m0) :: rest)
               (memory dm)
        else mkDialogueManager (mkMessage "system" systemMessage "" [] :: dialogue dm)
               (memory dm)
    | [] => mkDialogueManager [mkMessage "system" systemMessage "" []] (memory dm)
    end.

Definition GetLLMDialogue (dm : DialogueManager) : list Message := dialogue dm.

(** The rows of the relational back end, if that is the one attached. *)
Definition rows (dm : DialogueManager) : list DialogueMessage :=
  match memory dm with
  | Some (MemPostgres pm) =>
      match db pm with
      | Some d => table d
      | None => []
      end
  | _ => []
  end.

(** A relational back end with a live handle that accepts inserts. *)
Definition relational (dm : DialogueManager) : Prop :=
  exists uid t, memory dm = Some (MemPostgres (mkPostgresMemory (Some (mkDB t false)) uid)).

End Chat.

(** ** core/auth and core/transport/websocket: the JWT gate *)

Module WS.

Local Open Scope Z_scope.

Inductive JValue :=
| JString (s : string)
| JNumber (n : Z)        (* a JSON number; [uint(float64)] keeps its integer part *)
| JOther.

(** [jwt.Token] as [VerifyToken] reads it. *)
Record Token := mkToken {
  Valid : bool;
  Claims : option (gmap string JValue)   (* [jwt.MapClaims], if of that type *)
}.

(** The JWT library: [parser.Parse(tokenString, keyFunc)] under a secret,
    where [keyFunc] accepts HMAC methods only; the flag says whether the
    parser was built with [WithValidMethods]. *)
Class JWT := { jwt_Parse : bool -> string -> string -> option Token * bool }.

Record AuthToken := mkAuthToken {
  secretKey : option string;
  topicRoot : string
}.

Definition NewAuthToken (secret : string) : AuthToken :=
  mkAuthToken (Some secret) "am_topic".

Inductive VerifyError :=
| ErrNilAuthToken
| ErrNoSecret
| ErrParse
| ErrParseNil
| ErrInvalidToken
| ErrInvalidClaims
| ErrInvalidDeviceID
| ErrInvalidUserID.

Definition uint_of (n : Z) : N := Z.to_N (n mod 2 ^ 64).

(** [VerifyToken(tokenString, ignoreExpiry...)] returning
    [(isValid, deviceID, userID, err)]. *)
Definition VerifyToken `{JWT} (at_ : option AuthToken) (tokenString : string)
    (ignoreExpiry : list bool) : bool * string * N * option VerifyError :=
  match at_ with
  | None => (false, "", 0%N, Some ErrNilAuthToken)
  | Some a =>
      match secretKey a with
      | None => (false, "", 0%N, Some ErrNoSecret)
      | Some secret =>
          let skipExpiry := match ignoreExpiry with b :: _ => b | [] => false end in
          let '(token, err) := jwt_Parse skipExpiry secret tokenString in
          if err && negb skipExpiry then (false, "", 0%N, Some ErrParse)
          else
            match token with
            | None =>
                (* without [skipExpiry] the library returns a token whenever
                   it returns no error *)
                (false, "", 0%N, Some (if skipExpiry then ErrParseNil else ErrInvalidToken))
            | Some tok =>
                if negb skipExpiry && negb (Valid tok)
                then (false, "", 0%N, Some ErrInvalidToken)
                else
                  match Claims tok with
                  | None => (false, "", 0%N, Some ErrInvalidClaims)
                  | Some claims =>
                      match claims !! "device_id" with
                      | Some (JString deviceID) =>
                          match claims !! "user_id" with
                          | Some (JNumber userID) =>
                              (true, deviceID, uint_of userID, None)
                          | _ => (false, "", 0%N, Some ErrInvalidUserID)
                          end
                      | _ => (false, "", 0%N, Some ErrInvalidDeviceID)
                      end
                  end
            end
      end
  end.

(** The request: its header (first value per canonical key) and the URL
    query. *)
Record Request := mkRequest {
  Header : gmap string string;
  Query : gmap string string
}.

Definition Get (m : gmap string string) (k : string) : string :=
  match m !! k with Some v => v | None => "" end.

Definition HeaderSet (k v : string) (r : Request) : Request :=
  mkRequest (<[k := v]> (Header r)) (Query r).

Record WebSocketTransport := mkTransport {
  Browser : bool;                 (* config.Transport.WebSocket.Browser *)
  authToken : option AuthToken;
  connHandler : bool              (* the handler factory is set *)
}.

Inductive AuthError :=
| ErrNoBearer
| ErrJWT (e : option VerifyError)
| ErrDeviceMismatch (request token : string).

Definition verifyJWTAuth `{JWT} (t : WebSocketTransport) (r : Request)
  : result AuthError N :=
  let authHeader := Get (Header r) "Authorization" in
  if negb (String.prefix "Bearer " authHeader) then Err ErrNoBearer
  else
    let token := String.substring 7 (String.length authHeader - 7) authHeader in
    let '(isValid, deviceID, userID, err) := VerifyToken (authToken t) token [] in
    if (match err with Some _ => true | None => false end) || negb isValid
    then Err (ErrJWT err)
    else
      let requestDeviceID := Get (Header r) "Device-Id" in
      if negb (String.eqb requestDeviceID deviceID)
      then Err (ErrDeviceMismatch requestDeviceID deviceID)
      else Ok userID.

Definition copy_query (q h : string) (r : Request) : Request :=
  let v := Get (Query r) q in
  if String.eqb v "" then r else HeaderSet h v r.

(** Browser mode: header values are taken from the URL query. *)
Definition inject_query (t : WebSocketTransport) (r : Request) : Request :=
  if Browser t then
    let r := copy_query "Device-Id" "Device-Id" r in
    let r := copy_query "Client-Id" "Client-Id" r in
    let r := copy_query "Session-Id" "Session-Id" r in
    let r := copy_query "Transport-Type" "Transport-Type" r in
    let tok := Get (Query r) "Token" in
    let r := if String.eqb tok "" then r
             else HeaderSet "Token" tok (HeaderSet "Authorization" ("Bearer " +:+ tok) r) in
    copy_query "Enable-VAD" "Enable-VAD" r
  else r.

(** What [handleWebSocket] does to the world, in order. *)
Inductive WSEvent :=
| HttpError (status : Z) (e : AuthError)      (* [http.Error] *)
| Upgrade (ok : bool)                          (* [upgrader.Upgrade] *)
| ConnClose
| CreateHandler (r : Request) (ok : bool)      (* the factory; borrows providers *)
| SetUserID (uid : N)
| StoreActive (clientID : string)
| SessionOnline (deviceID sessionID : string)
| Handle.                                      (* [go handler.Handle()] *)

Definition StatusUnauthorized : Z := 401.

(** The socket layer and the handler factory: the client id of the
    upgraded connection if the upgrade succeeds, whether the factory
    returns a handler, and whether that handler is a
    [*transport.ConnectionContextAdapter]. *)
Class Server := {
  upgrade : Request -> option string;
  create_handler : Request -> bool;
  is_adapter : Request -> bool
}.

Definition handleWebSocket `{JWT} `{Server} (t : WebSocketTransport) (r : Request)
  : list WSEvent :=
  let r := inject_query t r in
  match verifyJWTAuth t r with
  | Err e => [HttpError StatusUnauthorized e]
  | Ok userID =>
      match upgrade r with
      | None => [Upgrade false]
      | Some clientID =>
          let sessionID0 := Get (Header r) "Session-Id" in
          let sessionID := if String.eqb sessionID0 "" then clientID else sessionID0 in
          let r := if String.eqb sessionID0 "" then HeaderSet "Session-Id" sessionID r
                   else r in
          let deviceID := Get (Header r) "Device-Id" in
          if negb (connHandler t) then [Upgrade true; ConnClose]
          else if negb (create_handler r)
          then [Upgrade true; CreateHandler r false; ConnClose]
          else
            (* the user id is bound only to a [ConnectionContextAdapter];
               another handler type is only logged *)
            [Upgrade true; CreateHandler r true]
            ++ (if is_adapter r then [SetUserID userID] else [])
            ++ [StoreActive clientID; SessionOnline deviceID sessionID; Handle]
      end
  end.

(** The events after which a socket or a handler (and with it a provider
    set) exists. *)
Definition touches_session (e : WSEvent) : bool :=
  match e with
  | HttpError _ _ => false
  | _ => true
  end.

End WS.

(** ** core: the chat, TTS and audio-send path of ConnectionHandler *)

Module Core.

Import Chat.

Local Open Scope Z_scope.

Record Config := mkConfig {
  CMDExit : option (list string);     (* nil when not configured *)
  QuickReply : bool;
  QuickReplyWords : list string;
  DeleteAudio : bool
}.

Record TTSTask := mkTTSTask {
  tts_text : string;
  tts_round : Z;
  tts_textIndex : Z
}.

Record AudioTask := mkAudioTask {
  au_filepath : string;
  au_text : string;
  au_round : Z;
  au_textIndex : Z
}.

(** What the handler does to its collaborators, in order. *)
Inductive Event :=
| EvSTT (text : string)                            (* [sendSTTMessage] *)
| EvTTSState (state text : string) (index : Z)     (* [sendTTSMessage] *)
| EvLLMCall (messages : list Message) (round : Z)  (* [llm.ResponseWithFunctions] *)
| EvToTTS (text : string)                          (* [tts.ToTTS] *)
| EvCacheSave (text filepath : string)             (* [SaveCachedAudio] *)
| EvAudioFrame (frame : list N)                    (* [conn.WriteMessage(binary, _)] *)
| EvRemoveFile (filepath : string)                 (* [os.Remove] *)
| EvStopChan                                       (* [close(h.stopChan)] *)
| EvSetVoice
| EvASRResetSilence
| EvASRReset
| EvASRClose.

Record Handler := mkHandler {
  config : Config;
  talkRound : Z;
  roundStartTime : Z;
  serverVoiceStop : Z;            (* int32, written 0 or 1 *)
  tts_last_text_index : Z;
  closed : bool;                  (* [closeOnce] has run *)
  dialogueManager : DialogueManager;
  ttsQueue : list TTSTask;
  audioMessagesQueue : list AudioTask;
  trace : list Event
}.

Definition set_talkRound (r t : Z) (h : Handler) : Handler :=
  mkHandler (config h) r t (serverVoiceStop h) (tts_last_text_index h) (closed h)
    (dialogueManager h) (ttsQueue h) (audioMessagesQueue h) (trace h).

Definition set_serverVoiceStop (v : Z) (h : Handler) : Handler :=
  mkHandler (config h) (talkRound h) (roundStartTime h) v (tts_last_text_index h)
    (closed h) (dialogueManager h) (ttsQueue h) (audioMessagesQueue h) (trace h).

Definition set_tts_last_text_index (v : Z) (h : Handler) : Handler :=
  mkHandler (config h) (talkRound h) (roundStartTime h) (serverVoiceStop h) v
    (closed h) (dialogueManager h) (ttsQueue h) (audioMessagesQueue h) (trace h).

Definition set_closed (v : bool) (h : Handler) : Handler :=
  mkHandler (config h) (talkRound h) (roundStartTime h) (serverVoiceStop h)
    (tts_last_text_index h) v (dialogueManager h) (ttsQueue h)
    (audioMessagesQueue h) (trace h).

Definition set_dialogueManager (v : DialogueManager) (h : Handler) : Handler :=
  mkHandler (config h) (talkRound h) (roundStartTime h) (serverVoiceStop h)
    (tts_last_text_index h) (closed h) v (ttsQueue h) (audioMessagesQueue h)
    (trace h).

Definition set_ttsQueue (v : list TTSTask) (h : Handler) : Handler :=
  mkHandler (config h) (talkRound h) (roundStartTime h) (serverVoiceStop h)
    (tts_last_text_index h) (closed h) (dialogueManager h) v
    (audioMessagesQueue h) (trace h).

Definition set_audioMessagesQueue (v : list AudioTask) (h : Handler) : Handler :=
  mkHandler (config h) (talkRound h) (roundStartTime h) (serverVoiceStop h)
    (tts_last_text_index h) (closed h) (dialogueManager h) (ttsQueue h) v (trace h).

Definition emit (e : Event) (h : Handler) : Handler :=
  mkHandler (config h) (talkRound h) (roundStartTime h) (serverVoiceStop h)
    (tts_last_text_index h) (closed h) (dialogueManager h) (ttsQueue h)
    (audioMessagesQueue h) (trace h ++ [e]).

Inductive ChatError :=
| ErrEmptyChat          (* empty chat message *)
| ErrQuit               (* the user asked to leave *)
| ErrSendSTT
| ErrSendTTSStart
| ErrEmptyText          (* nothing left to synthesize *)
| ErrVoiceStopped       (* server speech is stopped *)
| ErrLLM.

(** Package [utils]: text helpers the handler calls. *)
Class Utils := {
  RemoveAllPunctuation : string -> string;
  IsWakeUpWord : string -> bool;
  RemoveAllEmoji : string -> string;
  RemoveMarkdownSyntax : string -> string;
  IsQuickReplyHit : string -> list string -> bool;
  IsMusicFile : string -> bool
}.

(** Modelled from the spec: [utils.RandomSelectFromArray] is not among
    the sources; the specification has the quick reply "randomly chosen"
    from the configured words.  [draw] is the random number of the call. *)
Definition RandomSelectFromArray (draw : nat) (words : list string) : string :=
  nth (draw mod length words) words "".

(** The collaborators of a session: synthesizer, quick-reply cache, the
    transport (whether a control frame is written), the audio file
    reader, and the stream loop of [genResponseByLLM] once the model has
    been called. *)
Class Providers := {
  ToTTS : string -> string * bool;          (* file path, and whether it failed *)
  FindCachedAudio : string -> string;
  IsCachedFile : string -> bool;
  conn_write : Event -> bool;
  audio_frames : string -> list (list N);
  llm_stream : Handler -> list Message -> Z -> Handler * option ChatError
}.

Section Handler.

Context {U : Utils} {P : Providers}.

Definition deleteAudioFileIfNeeded (filepath : string) (h : Handler) : Handler :=
  if negb (DeleteAudio (config h)) || String.eqb filepath "" then h
  else if IsCachedFile filepath then h
  else if IsMusicFile filepath then h
  else emit (EvRemoveFile filepath) h.

(** [cleanTTSAndAudioQueue]: both queues are drained; the audio files of
    dropped audio tasks are removed as configured. *)
Definition cleanTTSAndAudioQueue (h : Handler) : Handler :=
  let dropped := audioMessagesQueue h in
  fold_left (fun h t => deleteAudioFileIfNeeded (au_filepath t) h) dropped
            (set_audioMessagesQueue [] (set_ttsQueue [] h)).

Definition stopServerSpeak (h : Handler) : Handler :=
  cleanTTSAndAudioQueue (set_serverVoiceStop 1 h).

Definition clearSpeakStatus (h : Handler) : Handler :=
  emit EvASRReset (set_tts_last_text_index (-1) h).

(** Modelled from the spec: [sendSTTMessage] and [sendTTSMessage] are
    not among the sources; they write the [stt] and [tts] control events
    of the client protocol and fail when the transport write fails. *)
Definition send (e : Event) (h : Handler) : Handler * bool :=
  if conn_write e then (emit e h, true) else (h, false).

Definition sendSTTMessage (text : string) (h : Handler) : Handler * bool :=
  send (EvSTT text) h.

Definition sendTTSMessage (state text : string) (index : Z) (h : Handler)
  : Handler * bool :=
  send (EvTTSState state text index) h.

Definition clientAbortChat (h : Handler) : Handler :=
  let h := stopServerSpeak h in
  let h := fst (sendTTSMessage "stop" "" 0 h) in
  clearSpeakStatus h.

(** [Close]: guarded by [closeOnce].  The session has a synthesizer and
    a recognizer; its Opus decoder is not part of this state. *)
Definition Close (h : Handler) : Handler :=
  if closed h then h
  else
    let h := emit EvStopChan (set_closed true h) in
    let h := emit EvSetVoice h in
    let h := emit EvASRClose (emit EvASRReset (emit EvASRResetSilence h)) in
    cleanTTSAndAudioQueue h.

Fixpoint quit_loop (cleand_text : string) (cmds : list string) (h : Handler)
  : Handler * bool :=
  match cmds with
  | [] => (h, false)
  | cmd :: rest =>
      if String.eqb cleand_text cmd then (Close h, true)
      else quit_loop cleand_text rest h
  end.

Definition QuitIntent (text : string) (h : Handler) : Handler * bool :=
  match CMDExit (config h) with
  | None => (h, false)
  | Some exitCommands => quit_loop (RemoveAllPunctuation text) exitCommands h
  end.

(** The text [SpeakAndPlay] leaves in its variable [text] when it
    returns, which is what the deferred send puts on the queue. *)
Definition spoken_text (h : Handler) (text : string) : string * option ChatError :=
  let text := RemoveMarkdownSyntax (RemoveAllEmoji text) in
  if String.eqb text "" then (text, Some ErrEmptyText)
  else if serverVoiceStop h =? 1 then ("", Some ErrVoiceStopped)
  else if (255 <? String.length text)%nat then (String.substring 0 255 text, None)
  else (text, None).

Definition SpeakAndPlay (text : string) (textIndex round : Z) (h : Handler)
  : Handler * option ChatError :=
  let '(text, err) := spoken_text h text in
  (set_ttsQueue (ttsQueue h ++ [mkTTSTask text round textIndex]) h, err).

Definition quickReplyWakeUpWords (draw : nat) (text : string) (h : Handler)
  : Handler * bool :=
  if negb (QuickReply (config h)) || negb (talkRound h =? 1) then (h, false)
  else if negb (IsWakeUpWord text) then (h, false)
  else
    let reply_text := RandomSelectFromArray draw (QuickReplyWords (config h)) in
    let h := set_tts_last_text_index 1 h in
    (fst (SpeakAndPlay reply_text 1 (talkRound h) h), true).

(** [genResponseByLLM]: the call of the model, then the loop over its
    stream. *)
Definition genResponseByLLM (messages : list Message) (round : Z) (h : Handler)
  : Handler * option ChatError :=
  llm_stream (emit (EvLLMCall messages round) h) messages round.

Definition handleChatMessage (now : Z) (draw : nat) (text : string) (h : Handler)
  : Handler * option ChatError :=
  if String.eqb text "" then (clientAbortChat h, Some ErrEmptyChat)
  else
    let '(h, quit) := QuitIntent text h in
    if quit then (h, Some ErrQuit)
    else
      let h := set_talkRound (int64 (talkRound h + 1)) now h in
      let currentRound := talkRound h in
      let '(h, ok) := sendSTTMessage text h in
      if negb ok then (h, Some ErrSendSTT)
      else
        let '(h, ok) := sendTTSMessage "start" "" 0 h in
        if negb ok then (h, Some ErrSendTTSStart)
        else
          let '(h, quick) := quickReplyWakeUpWords draw text h in
          if quick then (h, None)
          else
            let h := set_dialogueManager
                       (Put (mkMessage "user" text "" []) (dialogueManager h)) h in
            genResponseByLLM (GetLLMDialogue (dialogueManager h)) currentRound h.

(** [processTTSTask]: every path ends in the deferred send of one audio
    task carrying the final [filepath] and [text]. *)
Definition processTTSTask (text : string) (textIndex round : Z) (h : Handler)
  : Handler :=
  let enqueue filepath text h :=
    set_audioMessagesQueue
      (audioMessagesQueue h ++ [mkAudioTask filepath text round textIndex]) h in
  let cachedFile :=
    if IsQuickReplyHit text (QuickReplyWords (config h))
    then FindCachedAudio text else "" in
  if negb (String.eqb cachedFile "") then enqueue cachedFile text h
  else
    let text := RemoveAllEmoji text in
    if String.eqb text "" then enqueue "" text h
    else
      let '(filepath, failed) := ToTTS text in
      let h := emit (EvToTTS text) h in
      if failed then enqueue filepath text h
      else
        let h := if IsQuickReplyHit text (QuickReplyWords (config h))
                 then emit (EvCacheSave text filepath) h else h in
        let h := if serverVoiceStop h =? 1
                 then deleteAudioFileIfNeeded filepath h else h in
        enqueue filepath text h.

(** Modelled from the spec: [sendAudioMessage] is not among the sources.
    Section 4.5 of the specification: a task whose round is not the
    current one is silently discarded; otherwise the audio file is
    framed and written, between a [sentence_start] and a [sentence_end]
    event, and [stop] follows the last segment of the round. *)
Definition sendAudioMessage (filepath text : string) (textIndex round : Z)
    (h : Handler) : Handler :=
  if negb (round =? talkRound h) then h
  else
    let h := fst (sendTTSMessage "sentence_start" text textIndex h) in
    let h := fold_left (fun h f => emit (EvAudioFrame f) h) (audio_frames filepath) h in
    let h := fst (sendTTSMessage "sentence_end" text textIndex h) in
    if textIndex =? tts_last_text_index h
    then fst (sendTTSMessage "stop" "" textIndex h)
    else h.

(** One turn of [processTTSQueueCoroutine]: take a task, process it. *)
Definition tts_worker (h : Handler) : Handler :=
  match ttsQueue h with
  | [] => h
  | task :: rest =>
      processTTSTask (tts_text task) (tts_textIndex task) (tts_round task)
                     (set_ttsQueue rest h)
  end.

(** One turn of [sendAudioMessageCoroutine]. *)
Definition audio_worker (h : Handler) : Handler :=
  match audioMessagesQueue h with
  | [] => h
  | task :: rest =>
      sendAudioMessage (au_filepath task) (au_text task) (au_textIndex task)
                       (au_round task) (set_audioMessagesQueue rest h)
  end.

End Handler.

(** Events of closing and cleaning up. *)
Definition housekeeping (e : Event) : bool :=
  match e with
  | EvRemoveFile _ | EvStopChan | EvSetVoice
  | EvASRResetSilence | EvASRReset | EvASRClose => true
  | _ => false
  end.

(** [h'] has the trace of [h] and then some events, all satisfying [p]. *)
Definition adds (p : Event -> bool) (h h' : Handler) : Prop :=
  exists evs, trace h' = trace h ++ evs /\ Forall (fun e => p e = true) evs.

(** Two handler states that agree on configuration, round, stop flag and
    dialogue. *)
Definition same_session (h h' : Handler) : Prop :=
  config h' = config h /\ talkRound h' = talkRound h /\
  serverVoiceStop h' = serverVoiceStop h /\
  dialogueManager h' = dialogueManager h.

Definition is_audio (e : Event) : bool :=
  match e with EvAudioFrame _ => true | _ => false end.


Definition is_synthesis (e : Event) : bool :=
  match e with EvToTTS _ => true | _ => false end.

(** UTF-8: the characters of a text are its bytes that are not
    continuation bytes ([utf8.RuneCountInString] on valid text). *)
Definition continuation (a : ascii) : bool :=
  N.eqb (N.land (N_of_ascii a) 192) 128.

Definition rune_count (s : string) : nat :=
  length (filter (fun a => continuation a = false) (list_ascii_of_string s)).

Definition not_audio (e : Event) : bool := negb (is_audio e).

End Core.

(** ** Sample sessions

    Concrete keys, packets, requests and collaborators on which the
    embedding is run. *)

Module Samples.

Import UDP VAD WS Chat Core.

Definition fips_plain : list N :=
  [0x00; 0x11; 0x22; 0x33; 0x44; 0x55; 0x66; 0x77;
   0x88; 0x99; 0xaa; 0xbb; 0xcc; 0xdd; 0xee; 0xff].

Definition fips_key (n : nat) : list N := map N.of_nat (seq 0 n).

Definition encrypt_with (key src : list N) : list N :=
  match AES.NewCipher key with
  | Ok c => AES.Encrypt c src
  | Err _ => []
  end.

(** NIST SP 800-38A, F.5.1 (CTR-AES128.Encrypt), first two blocks. *)
Definition sp800_key : list N :=
  [0x2b; 0x7e; 0x15; 0x16; 0x28; 0xae; 0xd2; 0xa6;
   0xab; 0xf7; 0x15; 0x88; 0x09; 0xcf; 0x4f; 0x3c].

Definition sp800_counter : list N :=
  [0xf0; 0xf1; 0xf2; 0xf3; 0xf4; 0xf5; 0xf6; 0xf7;
   0xf8; 0xf9; 0xfa; 0xfb; 0xfc; 0xfd; 0xfe; 0xff].

Definition sp800_plain : list N :=
  [0x6b; 0xc1; 0xbe; 0xe2; 0x2e; 0x40; 0x9f; 0x96;
   0xe9; 0x3d; 0x7e; 0x11; 0x73; 0x93; 0x17; 0x2a;
   0xae; 0x2d; 0x8a; 0x57; 0x1e; 0x03; 0xac; 0x9c;
   0x9e; 0xb7; 0x6f; 0xac; 0x45; 0xaf; 0x8e; 0x51].

Definition sp800_cipher : list N :=
  [0x87; 0x4d; 0x61; 0x91; 0xb6; 0x20; 0xe3; 0x26;
   0x1b; 0xef; 0x68; 0x64; 0x99; 0x0d; 0xb6; 0xce;
   0x98; 0x06; 0xf6; 0x6b; 0x79; 0x70; 0xfd; 0xff;
   0x86; 0x17; 0x18; 0x7b; 0xb9; 0xff; 0xfd; 0xff].

(** A UDP session of device "glasses". *)
Definition key : list N := fips_key 16.
Definition tmpl : list N := [0xde; 0xad; 0xbe; 0xef; 0x65; 0x43; 0x21; 0x00].
Definition connID : string := "deadbeef".
Definition payload : list N := [10; 20; 30; 40].

Definition session0 : UDPSession :=
  mkUDPSession "glasses:s1" connID "glasses" "s1" key tmpl None 0 0 [] [] 0 0 "active".

Definition packet (seqno : N) : list N := client_packet key tmpl seqno payload.

Definition server0 : UDPServer := mkUDPServer {[ connID := session0 ]} ∅.

(** A VAD provider that never hears a voice. *)
Definition silent : VADProcess := fun _ _ _ => Ok false.

(** A JWT library that knows one token, signed under "s3cret" for device
    "dev-A" and user 7. *)
Definition claimsA : gmap string JValue :=
  {[ "device_id" := JString "dev-A"; "user_id" := JNumber 7 ]}.

Definition toy_jwt : JWT :=
  {| jwt_Parse := fun _ secret tok =>
       if String.eqb secret "s3cret" && String.eqb tok "tokenA"
       then (Some (mkToken true (Some claimsA)), false)
       else (None, true) |}.

Definition toy_server : Server :=
  {| upgrade := fun _ => Some "0xc000123"; create_handler := fun _ => true;
     is_adapter := fun _ => true |}.

Definition transport : WebSocketTransport :=
  mkTransport false (Some (NewAuthToken "s3cret")) true.

Definition request (dev : string) : Request :=
  mkRequest {[ "Authorization" := "Bearer tokenA"; "Device-Id" := dev ]} ∅.

(** Text helpers and collaborators of a handler. *)
Definition strip (chars : list ascii) (s : string) : string :=
  string_of_list_ascii (filter (fun a => a ∉ chars) (list_ascii_of_string s)).

Definition utils : Utils :=
  {| RemoveAllPunctuation := strip ["."; ","; "!"; "?"]%char;
     IsWakeUpWord := fun s => String.eqb s "hey miao";
     RemoveAllEmoji := fun s => s;
     RemoveMarkdownSyntax := strip ["*"; "#"]%char;
     IsQuickReplyHit := fun s words => existsb (String.eqb s) words;
     IsMusicFile := fun _ => false |}.

Definition providers : Providers :=
  {| ToTTS := fun text => ("tmp/" +:+ text +:+ ".wav", false);
     FindCachedAudio := fun _ => "";
     IsCachedFile := fun _ => false;
     conn_write := fun _ => true;
     audio_frames := fun _ => [[1; 2; 3]];
     llm_stream := fun h _ _ => (h, None) |}.

Definition cfg : Config :=
  mkConfig (Some ["goodbye"; "exit"]) true ["I am here"; "yes?"] true.

(** A handler as [NewConnectionHandler] leaves it. *)
Definition fresh : Handler :=
  mkHandler cfg 0 0 0 (-1) false (NewDialogueManager None) [] [] [].

(** Round 2 is running; a TTS task of round 1 is still queued. *)
Definition stale : Handler :=
  mkHandler cfg 2 0 0 1 false (NewDialogueManager None) [mkTTSTask "hello" 1 1] [] [].

(** U+4E2D in UTF-8. *)
Definition zhong : string := bytes_string [228; 184; 173].

Fixpoint repeat_string (n : nat) (s : string) : string :=
  match n with
  | O => EmptyString
  | S n' => s +:+ repeat_string n' s
  end.

(** 86 characters in 256 bytes. *)
Definition long_text : string := "a" +:+ repeat_string 85 zhong.

Definition user_hello : Message := mkMessage "user" "hello" "" [].

Definition dm0 : DialogueManager :=
  NewDialogueManager (Some (MemPostgres (mkPostgresMemory (Some (mkDB [] false)) "u42"))).

End Samples.

(** * More of the code *)

(** ** core/transport/mqtt: session management of the UDP server, and
    the MQTT connection that carries a UDP session *)

Module UDPMore.

Import UDPCrypto UDP.

(** [GenerateNonceTemplate]: the connection id, then the low 32 bits of
    the Unix time, big-endian. *)
Definition GenerateNonceTemplate (connID : list N) (unix : Z) : list N :=
  map (fun i => nth i connID 0) (seq 0 4)
  ++ Bytes.put_uint32 (Z.to_N (unix mod 2 ^ 32)).

Definition set_SendChannel (v : list (list N)) (s : UDPSession) : UDPSession :=
  mkUDPSession (ID s) (ConnID s) (DeviceID s) (SessionID s) (AESKey s) (Nonce s)
    (RemoteAddr s) (LocalSeq s) (RemoteSeq s) (RecvChannel s) v
    (CreatedAt s) (LastActive s) (Status s).

(** [SendAudioData]: a non-blocking send on [SendChannel]. *)
Definition SendAudioData (s : UDPSession) (data : list N)
  : UDPSession * result SessionError unit :=
  if negb (String.eqb (Status s) "active") then (s, Err ErrSessionClosed)
  else if (length (SendChannel s) <? chan_cap)%nat
  then (set_SendChannel (SendChannel s ++ [data]) s, Ok tt)
  else (s, Err ErrChannelFull).

(** [CreateSession]; the key and the connection id come from
    [crypto/rand] and are arguments here, as are the time [now] and its
    Unix seconds [unix]. *)
Definition CreateSession (now unix : Z) (aesKey connIDBytes : list N)
    (deviceID sessionID : string) (srv : UDPServer)
  : UDPServer * result SessionError UDPSession :=
  let aesKey := map (fun i => nth i aesKey 0) (seq 0 16) in      (* [16]byte *)
  let connIDBytes := map (fun i => nth i connIDBytes 0) (seq 0 4) in  (* [4]byte *)
  let nonceTemplate := GenerateNonceTemplate connIDBytes unix in
  let connIDHex := Bytes.hex_encode connIDBytes in
  match NewUDPSession now deviceID sessionID aesKey nonceTemplate connIDHex with
  | Err e => (srv, Err e)
  | Ok session => (store_session srv connIDHex session, Ok session)
  end.

(** [CloseSession]: the session object is destroyed and both maps forget
    it.  The destroyed session is returned: connections may still hold
    a reference to it. *)
Definition CloseSession (connID : string) (srv : UDPServer)
  : UDPServer * option UDPSession :=
  match nonce2Session srv !! connID with
  | None => (srv, None)
  | Some session =>
      let addrs := match RemoteAddr session with
                   | Some a => delete a (addr2Session srv)
                   | None => addr2Session srv
                   end in
      (mkUDPServer (delete connID (nonce2Session srv)) addrs, Some (Destroy session))
  end.

(** [handlePackets]: every datagram read from the socket goes through
    [processPacket]; a datagram is [(time, source address, bytes)]. *)
Definition handlePackets (srv : UDPServer) (pkts : list (Z * string * list N))
  : UDPServer :=
  fold_left (fun srv p => fst (processPacket (fst (fst p)) srv (snd (fst p)) (snd p)))
            pkts srv.

Definition is_drop_length (o : PacketOutcome) : bool :=
  match o with DropLength => true | _ => false end.

(** No receive channel holds more than its capacity. *)
Definition channels_bounded (srv : UDPServer) : Prop :=
  map_Forall (fun _ s => (length (RecvChannel s) <= chan_cap)%nat) (nonce2Session srv).

(** One datum of [handleSend]: nothing is sent before the address of the
    device is known; otherwise the datum is encrypted and written, with
    up to three attempts.  [write] gives the result of each attempt;
    [WriteClosed] stands for a closed socket or a stopping server. *)
Inductive WriteResult := WriteOk | WriteClosed | WriteErr.

Inductive SendOutcome :=
| NoAddress
| EncryptFailed (e : SessionError)
| Written (packet : list N) (attempts : nat)
| Stopped (packet : list N)
| WriteFailed (packet : list N).

Inductive RetryResult := Sent (attempts : nat) | Halt | GaveUp.

Fixpoint write_retry (write : nat -> WriteResult) (retry left : nat) : RetryResult :=
  match left with
  | O => GaveUp
  | S left' =>
      match write retry with
      | WriteOk => Sent (S retry)
      | WriteClosed => Halt
      | WriteErr => write_retry write (S retry) left'
      end
  end.

Definition handleSend_step (write : nat -> WriteResult) (now : Z) (session : UDPSession)
    (data : list N) : UDPSession * SendOutcome :=
  match RemoteAddr session with
  | None => (session, NoAddress)
  | Some _ =>
      match Encrypt now session data with
      | (session', Err e) => (session', EncryptFailed e)
      | (session', Ok encrypted) =>
          match write_retry write 0 3 with
          | Sent n => (session', Written encrypted n)
          | Halt => (session', Stopped encrypted)
          | GaveUp => (session', WriteFailed encrypted)
          end
      end
  end.

(** *** MQTTConnection *)

Record MQTTConnection := mkMQTTConnection {
  conn_closed : bool;
  udpSession : option UDPSession;       (* shared with the UDP server *)
  incoming : list (Z * list N);         (* channel of capacity 1024 *)
  published : list (list N)             (* payloads published on [outTopic] *)
}.

Definition incoming_cap : nat := 1024.

Inductive ConnError := ErrConnClosed | ErrPublish.

(** [WriteMessage]: audio goes to the UDP session when one is active and
    its send channel has room; everything else is published over MQTT.
    [publish_ok] tells whether the broker takes the message in time. *)
Definition WriteMessage (publish_ok : bool) (messageType : Z) (data : list N)
    (c : MQTTConnection) : MQTTConnection * option ConnError :=
  if conn_closed c then (c, Some ErrConnClosed)
  else
    let via_udp :=
      if (messageType =? 2)%Z then
        match udpSession c with
        | Some s =>
            if IsActive s then
              match SendAudioData s data with
              | (s', Ok _) => Some s'
              | (_, Err _) => None
              end
            else None
        | None => None
        end
      else None in
    match via_udp with
    | Some s' => (mkMQTTConnection (conn_closed c) (Some s') (incoming c) (published c), None)
    | None =>
        if publish_ok
        then (mkMQTTConnection (conn_closed c) (udpSession c) (incoming c)
                (published c ++ [data]), None)
        else (c, Some ErrPublish)
    end.

(** [handleIncomingUDPPacket]: returns the connection (its session may
    have advanced), whether the packet was consumed by the UDP channel,
    and otherwise the payload that continues on the MQTT path. *)
Definition handleIncomingUDPPacket (now : Z) (payload : list N) (c : MQTTConnection)
  : MQTTConnection * bool * list N :=
  if (length payload <? 16)%nat || negb (nth 0 payload 0 =? 1) then (c, false, payload)
  else
    match udpSession c with
    | None => (c, false, drop 16 payload)
    | Some s =>
        if negb (IsActive s) then (c, false, drop 16 payload)
        else
          match Decrypt now s payload with
          | (s', Err _) =>
              (mkMQTTConnection (conn_closed c) (Some s') (incoming c) (published c),
               false,
               if (16 <? length payload)%nat then drop 16 payload else payload)
          | (s', Ok decrypted) =>
              match RecvData s' decrypted with
              | (s'', Ok _) =>
                  (mkMQTTConnection (conn_closed c) (Some s'') (incoming c) (published c),
                   true, [])
              | (s'', Err _) =>
                  (mkMQTTConnection (conn_closed c) (Some s'') (incoming c) (published c),
                   false, decrypted)
              end
          end
    end.

(** [PushIncoming]: binary messages pass through
    [handleIncomingUDPPacket] first; what is left is queued unless the
    queue is full. *)
Definition PushIncoming (now : Z) (messageType : Z) (data : list N) (c : MQTTConnection)
  : MQTTConnection :=
  if conn_closed c then c
  else
    let '(c, handled, data) :=
      if (messageType =? 2)%Z then handleIncomingUDPPacket now data c
      else (c, false, data) in
    if handled then c
    else if (length (incoming c) <? incoming_cap)%nat
    then mkMQTTConnection (conn_closed c) (udpSession c)
           (incoming c ++ [(messageType, data)]) (published c)
    else c.

(** *** The session shared by the UDP server and its MQTT connection

    The connection opened for a device holds the very session the
    server registered under its connection id.  Packets reach that
    session as datagrams, through [processPacket], or as binary MQTT
    messages, through [PushIncoming]. *)
Inductive Arrival :=
| ByUDP (now : Z) (addr : string) (data : list N)
| ByMQTT (now : Z) (data : list N).

(** [processPacket] got a payload out of [Decrypt]. *)
Definition decrypted_ok (o : PacketOutcome) : bool :=
  match o with
  | DropLength | Delivered _ | DeliverFailed _ => true
  | _ => false
  end.

(** [handleIncomingUDPPacket] gets a payload out of [Decrypt]. *)
Definition mqtt_decrypted (now : Z) (s : UDPSession) (data : list N) : bool :=
  (16 <=? length data)%nat && (nth 0 data 0 =? 1) && IsActive s
  && is_ok (snd (Decrypt now s data)).

(** The server, the incoming queue of the connection that holds the
    session [cid], and the sequence numbers of the packets [Decrypt]
    has accepted for that session, oldest first. *)
Record Link := mkLink {
  link_server : UDPServer;
  link_incoming : list (Z * list N);
  link_accepted : list N
}.

Definition arrive (cid : string) (l : Link) (a : Arrival) : Link :=
  match a with
  | ByUDP now addr data =>
      let '(srv', out) := processPacket now (link_server l) addr data in
      mkLink srv' (link_incoming l)
        (if decrypted_ok out
            && String.eqb (Bytes.hex_encode (Bytes.slice 4 8 data)) cid
         then link_accepted l ++ [packet_seq data] else link_accepted l)
  | ByMQTT now data =>
      let session := nonce2Session (link_server l) !! cid in
      let c := PushIncoming now 2 data
                 (mkMQTTConnection false session (link_incoming l) []) in
      mkLink (match udpSession c with
              | Some s' => store_session (link_server l) cid s'
              | None => link_server l
              end)
             (incoming c)
             (match session with
              | Some s =>
                  if mqtt_decrypted now s data
                  then link_accepted l ++ [packet_seq data] else link_accepted l
              | None => link_accepted l
              end)
  end.

Definition arrivals (cid : string) (l : Link) (h : list Arrival) : Link :=
  fold_left (arrive cid) h l.

End UDPMore.

(** ** core: the audio loop in front of the recognizer *)

Module VADMore.

Import VAD.
Local Open Scope Z_scope.

(** The arguments [processAudioWithVAD] hands to [vad.Process]: the
    first frame of the buffer, the sample rate and the frame duration
    derived from the length of the chunk. *)
Definition check_window (audioData : list N) (v : VADState) : list N :=
  take (length audioData) (audioBuffer v ++ audioData).

Definition sample_rate (clientAudioSampleRate : Z) : Z :=
  if clientAudioSampleRate <=? 0 then 16000 else clientAudioSampleRate.

Definition frame_ms (clientAudioFrameDuration : Z) : Z :=
  if clientAudioFrameDuration <=? 0 then 20 else clientAudioFrameDuration.

Definition actual_frame_ms (clientAudioSampleRate clientAudioFrameDuration : Z)
    (audioData : list N) : Z :=
  let len := Z.of_nat (length audioData) in
  let calculated := Z.quot (len * 1000) (sample_rate clientAudioSampleRate * 2) in
  let actualFrameMs :=
    if (0 <? len) && (0 <? calculated)
       && negb (calculated =? frame_ms clientAudioFrameDuration)
    then calculated else frame_ms clientAudioFrameDuration in
  if actualFrameMs <=? 0 then 20 else actualFrameMs.

(** What the detector says of the window; a failing detector counts as
    a voice. *)
Definition heard (vad : VADProcess) (clientAudioSampleRate clientAudioFrameDuration : Z)
    (audioData : list N) (v : VADState) : bool :=
  match vad (check_window audioData v) (sample_rate clientAudioSampleRate)
            (actual_frame_ms clientAudioSampleRate clientAudioFrameDuration audioData) with
  | Ok b => b
  | Err _ => true
  end.

(** [processClientAudioMessagesCoroutine] with VAD enabled and
    [closeAfterChat] unset: the chunks of the client audio queue, each
    with the time of its processing, go through [processAudioWithVAD]
    one after the other; the result lists what the recognizer was
    given. *)
Fixpoint processClientAudioMessages (vad : VADProcess)
    (clientAudioSampleRate clientAudioFrameDuration : Z)
    (queue : list (Z * list N)) (v : VADState)
  : option (VADState * list (list N)) :=
  match queue with
  | [] => Some (v, [])
  | (now, audioData) :: rest =>
      match processAudioWithVAD vad now clientAudioSampleRate
              clientAudioFrameDuration audioData v with
      | None => None
      | Some (v', sent) =>
          match processClientAudioMessages vad clientAudioSampleRate
                  clientAudioFrameDuration rest v' with
          | None => None
          | Some (v'', sent') => Some (v'', sent ++ sent')
          end
      end
  end.

End VADMore.

(** ** core/chat: trimming and reading the dialogue *)

Module ChatMore.

Import Chat.

Definition is_system_head (d : list Message) : bool :=
  match d with
  | m0 :: _ => String.eqb (Role m0) "system"
  | [] => false
  end.

(** [RemoveSecondMessageForToolType]. *)
Definition RemoveSecondMessageForToolType (dm : DialogueManager) : DialogueManager :=
  match dialogue dm with
  | m0 :: m1 :: rest =>
      if String.eqb (Role m1) "tool"
      then mkDialogueManager (m0 :: rest) (memory dm)
      else dm
  | _ => dm
  end.

(** [dm.dialogue[len(dm.dialogue)-maxMessages:]]. *)
Definition recent (maxMessages : Z) (d : list Message) : list Message :=
  drop (Z.to_nat (Z.of_nat (length d) - maxMessages)) d.

(** [KeepRecentMessages]: the system message at the head survives, then
    the last [maxMessages] messages. *)
Definition KeepRecentMessages (maxMessages : Z) (dm : DialogueManager)
  : DialogueManager :=
  let d := dialogue dm in
  if ((maxMessages <=? 0) || (Z.of_nat (length d) <=? maxMessages))%Z then dm
  else
    match d with
    | m0 :: _ =>
        if String.eqb (Role m0) "system"
        then RemoveSecondMessageForToolType
               (mkDialogueManager (m0 :: recent maxMessages d) (memory dm))
        else mkDialogueManager (recent maxMessages d) (memory dm)
    | [] => dm
    end.

(** [GetRecentMessages]. *)
Definition GetRecentMessages (maxMessages : Z) (dm : DialogueManager) : list Message :=
  let d := dialogue dm in
  if ((maxMessages <=? 0) || (Z.of_nat (length d) <=? maxMessages))%Z then d
  else
    match d with
    | m0 :: _ =>
        if String.eqb (Role m0) "system" then m0 :: recent maxMessages d else d
    | [] => d
    end.

(** What the Redis back end of a dialogue manager holds for its user. *)
Definition stored (dm : DialogueManager) : option (list Message) :=
  match memory dm with
  | Some (MemRedis rm) => hash rm !! field rm
  | _ => None
  end.

Definition on_redis (dm : DialogueManager) : Prop :=
  exists rm, memory dm = Some (MemRedis rm) /\ unreachable rm = false.

End ChatMore.

(** ** core: what the clean-up deletes, and the TTS stage run to the end *)

Module CoreMore.

Import Chat Core.

Section Handler.

Context {U : Utils} {P : Providers}.

(** The files [deleteAudioFileIfNeeded] hands to [os.Remove]. *)
Definition removable (c : Config) (filepath : string) : bool :=
  DeleteAudio c && negb (String.eqb filepath "")
  && negb (IsCachedFile filepath) && negb (IsMusicFile filepath).

(** Whether [processTTSTask] calls the synthesizer: no cached quick
    reply serves the text, and the text is not empty once its emoji are
    removed. *)
Definition synthesized (c : Config) (text : string) : bool :=
  String.eqb (if IsQuickReplyHit text (QuickReplyWords c)
              then FindCachedAudio text else "") ""
  && negb (String.eqb (RemoveAllEmoji text) "").

(** [processTTSQueueCoroutine] for [n] tasks. *)
Definition processTTSQueue (n : nat) (h : Handler) : Handler :=
  Nat.iter n tts_worker h.

End Handler.

Definition is_stop (e : Event) : bool :=
  match e with EvStopChan => true | _ => false end.

End CoreMore.

(** * Properties *)

(** ** Known answers of the cipher *)

Module KnownAnswers.

Import Samples.

Example sbox_samples :
  AES.SubByte 0 = 0x63 /\ AES.SubByte 1 = 0x7c /\ AES.SubByte 0x53 = 0xed.
Proof. vm_compute. auto. Qed.

(** FIPS 197, appendix C.1. *)
Example aes128_fips197 :
  encrypt_with (fips_key 16) fips_plain =
  [0x69; 0xc4; 0xe0; 0xd8; 0x6a; 0x7b; 0x04; 0x30;
   0xd8; 0xcd; 0xb7; 0x80; 0x70; 0xb4; 0xc5; 0x5a].
Proof. vm_compute. reflexivity. Qed.

(** FIPS 197, appendix C.2. *)
Example aes192_fips197 :
  encrypt_with (fips_key 24) fips_plain =
  [0xdd; 0xa9; 0x7c; 0xa4; 0x86; 0x4c; 0xdf; 0xe0;
   0x6e; 0xaf; 0x70; 0xa0; 0xec; 0x0d; 0x71; 0x91].
Proof. vm_compute. reflexivity. Qed.

(** FIPS 197, appendix C.3. *)
Example aes256_fips197 :
  encrypt_with (fips_key 32) fips_plain =
  [0x8e; 0xa2; 0xb7; 0xca; 0x51; 0x67; 0x45; 0xbf;
   0xea; 0xfc; 0x49; 0x90; 0x4b; 0x49; 0x60; 0x89].
Proof. vm_compute. reflexivity. Qed.

(** The counter carries from its last byte into the one before. *)
Example ctr_aes128_sp800_38a :
  UDPCrypto.EncryptAESCTR sp800_counter sp800_key sp800_plain = Ok sp800_cipher.
Proof. vm_compute. reflexivity. Qed.

Example ctr_inc_carries :
  CTR.ctr_inc [0; 0; 255; 255] = [0; 1; 0; 0] /\
  CTR.ctr_inc [255; 255] = [0; 0].
Proof. vm_compute. auto. Qed.

Example BuildFullNonce_layout :
  UDPCrypto.BuildFullNonce tmpl 4 0x01020304 =
  [1; 0; 0; 4; 0xde; 0xad; 0xbe; 0xef; 0x65; 0x43; 0x21; 0x00; 1; 2; 3; 4].
Proof. vm_compute. reflexivity. Qed.

Example ExtractNonceInfo_of_packet :
  UDPCrypto.ExtractNonceInfo (take 16 (packet 7)) = Ok ([0xde; 0xad; 0xbe; 0xef], 7, 4).
Proof. vm_compute. reflexivity. Qed.

Example TrimSpace_samples :
  Chat.TrimSpace "  hi there  " = "hi there"%string /\
  Chat.TrimSpace (Chat.bytes_string [227; 128; 128; 32; 194; 160; 9]) = ""%string /\
  Chat.TrimSpace (Chat.bytes_string [194; 133] +:+ "x" +:+ Chat.bytes_string [226; 128; 175])
    = "x"%string.
Proof. vm_compute. auto. Qed.

End KnownAnswers.

(** ** udp_crypto.go *)

Module CryptoFacts.

Import UDPCrypto.

Lemma xor_bytes_length (p ks : list N) :
  (length p <= length ks)%nat -> length (Bytes.xor_bytes p ks) = length p.
Proof.
  unfold Bytes.xor_bytes. revert ks.
  induction p as [|x p IH]; intros [|k ks] Hlen; simpl in *; try lia.
  rewrite IH; [reflexivity | lia].
Qed.

Lemma xor_bytes_involutive (p ks : list N) :
  (length p <= length ks)%nat ->
  Bytes.xor_bytes (Bytes.xor_bytes p ks) ks = p.
Proof.
  unfold Bytes.xor_bytes. revert ks.
  induction p as [|x p IH]; intros [|k ks] Hlen; simpl in *; try lia; try reflexivity.
  rewrite IH by lia.
  now rewrite N.lxor_assoc, N.lxor_nilpotent, N.lxor_0_r.
Qed.

Lemma Encrypt_block_length (c : AES.Block) (src : list N) :
  length (AES.Encrypt c src) = 16%nat.
Proof.
  unfold AES.Encrypt, AES.AddRoundKey.
  now rewrite length_map, length_seq.
Qed.

Lemma keystream_length (c : AES.Block) (n : nat) (ctr : list N) :
  length (CTR.keystream c n ctr) = (16 * n)%nat.
Proof.
  revert ctr. induction n as [|n IH]; intros ctr; cbn [CTR.keystream]; [reflexivity|].
  rewrite length_app, Encrypt_block_length, IH. lia.
Qed.

Lemma num_blocks_covers (len : nat) : (len <= 16 * CTR.num_blocks len)%nat.
Proof.
  unfold CTR.num_blocks.
  pose proof (Nat.div_mod_eq (len + 15) 16) as E.
  pose proof (Nat.mod_upper_bound (len + 15) 16). lia.
Qed.

Lemma XORKeyStream_length c iv src :
  length (CTR.XORKeyStream c iv src) = length src.
Proof.
  unfold CTR.XORKeyStream. apply xor_bytes_length.
  rewrite keystream_length. apply num_blocks_covers.
Qed.

Lemma XORKeyStream_involutive c iv src :
  CTR.XORKeyStream c iv (CTR.XORKeyStream c iv src) = src.
Proof.
  unfold CTR.XORKeyStream at 1. rewrite XORKeyStream_length.
  unfold CTR.XORKeyStream. apply xor_bytes_involutive.
  rewrite keystream_length. apply num_blocks_covers.
Qed.

Lemma NewCipher_16 key :
  length key = 16%nat -> exists c, AES.NewCipher key = Ok c.
Proof. intros H. unfold AES.NewCipher. rewrite H. simpl. eauto. Qed.

Lemma EncryptAESCTR_ok nonce key src :
  length nonce = 16%nat -> length key = 16%nat ->
  exists c, AES.NewCipher key = Ok c /\
            EncryptAESCTR nonce key src = Ok (CTR.XORKeyStream c nonce src).
Proof.
  intros Hn Hk. destruct (NewCipher_16 key Hk) as [c Hc].
  exists c. split; [exact Hc|].
  unfold EncryptAESCTR. rewrite Hn, Hk, Hc. reflexivity.
Qed.

Lemma EncryptAESCTR_err nonce key src :
  is_err (EncryptAESCTR nonce key src) = true <->
  (length nonce <> 16 \/ length key <> 16)%nat.
Proof.
  unfold EncryptAESCTR.
  destruct (Nat.eqb_spec (length nonce) 16) as [Hn|Hn]; simpl.
  - destruct (Nat.eqb_spec (length key) 16) as [Hk|Hk]; simpl.
    + destruct (NewCipher_16 key Hk) as [c ->]. simpl. split; [discriminate | tauto].
    + split; auto.
  - split; auto.
Qed.

(** Claim C10.  Under a 16-byte nonce and a 16-byte key [EncryptAESCTR]
    returns a ciphertext as long as the plaintext and [DecryptAESCTR]
    of it returns the plaintext; each of the two functions returns an
    error exactly when the nonce or the key is not 16 bytes long. *)
Theorem EncryptAESCTR_roundtrip (nonce key plaintext : list N) :
  (length nonce = 16%nat -> length key = 16%nat ->
   exists c, EncryptAESCTR nonce key plaintext = Ok c /\
             length c = length plaintext /\
             DecryptAESCTR nonce key c = Ok plaintext) /\
  (is_err (EncryptAESCTR nonce key plaintext) = true <->
   (length nonce <> 16 \/ length key <> 16)%nat) /\
  (is_err (DecryptAESCTR nonce key plaintext) = true <->
   (length nonce <> 16 \/ length key <> 16)%nat).
Proof.
  split; [|split; apply EncryptAESCTR_err].
  intros Hn Hk.
  destruct (EncryptAESCTR_ok nonce key plaintext Hn Hk) as (c & Hc & E).
  exists (CTR.XORKeyStream c nonce plaintext). split; [exact E|].
  split; [apply XORKeyStream_length|].
  unfold DecryptAESCTR.
  destruct (EncryptAESCTR_ok nonce key (CTR.XORKeyStream c nonce plaintext) Hn Hk)
    as (c' & Hc' & E').
  rewrite Hc in Hc'. injection Hc' as <-.
  now rewrite E', XORKeyStream_involutive.
Qed.

Lemma EncryptAESCTR_witness :
  exists c,
    EncryptAESCTR Samples.sp800_counter Samples.sp800_key Samples.sp800_plain = Ok c /\
    length c = length Samples.sp800_plain /\
    DecryptAESCTR Samples.sp800_counter Samples.sp800_key c = Ok Samples.sp800_plain.
Proof.
  apply (proj1 (EncryptAESCTR_roundtrip Samples.sp800_counter Samples.sp800_key
                  Samples.sp800_plain)); reflexivity.
Defined.

End CryptoFacts.

(** ** udp_session.go and the packet path of the UDP server *)

Module UDPFacts.
Import UDPCrypto UDP CryptoFacts.

Lemma slice_of_nonce (lo hi : nat) (packet : list N) :
  (hi <= 16)%nat ->
  Bytes.slice lo hi (Bytes.slice 0 16 packet) = Bytes.slice lo hi packet.
Proof.
  intros H. unfold Bytes.slice. rewrite drop_0. simpl.
  rewrite skipn_firstn_comm, take_take. f_equal. lia.
Qed.

Lemma nonce_length (packet : list N) :
  (16 <= length packet)%nat -> length (Bytes.slice 0 16 packet) = 16%nat.
Proof. intros H. unfold Bytes.slice. rewrite drop_0, length_take. lia. Qed.

Lemma ExtractNonceInfo_packet (packet : list N) :
  (16 <= length packet)%nat ->
  ExtractNonceInfo (Bytes.slice 0 16 packet) =
  Ok (Bytes.slice 4 8 packet, packet_seq packet,
      Bytes.be_uint16 (Bytes.slice 2 4 packet)).
Proof.
  intros H. unfold ExtractNonceInfo.
  rewrite nonce_length by exact H. simpl (_ <? _)%nat. cbv iota.
  unfold packet_seq. now rewrite !slice_of_nonce by lia.
Qed.

(** A packet below the stored sequence number is refused and the session
    is left as it was. *)
Lemma Decrypt_stale (now : Z) (s : UDPSession) (packet : list N) :
  (16 <= length packet)%nat ->
  0 < RemoteSeq s ->
  packet_seq packet < RemoteSeq s ->
  exists e, Decrypt now s packet = (s, Err e).
Proof.
  intros Hlen Hpos Hlt. unfold Decrypt.
  destruct (Nat.ltb_spec (length packet) 16); [lia|].
  destruct (negb (Status s =? "active")%string); [eauto|].
  rewrite ExtractNonceInfo_packet by exact Hlen.
  destruct (negb _); [eauto|].
  destruct (N.ltb_spec 0 (RemoteSeq s)); [|lia].
  destruct (N.ltb_spec (packet_seq packet) (RemoteSeq s)); [|lia].
  simpl. eauto.
Qed.

(** Whatever the packet, the stored sequence number does not decrease. *)
Lemma Decrypt_monotone (now : Z) (s : UDPSession) (packet : list N) :
  RemoteSeq s <= RemoteSeq (fst (Decrypt now s packet)).
Proof.
  unfold Decrypt.
  destruct (length packet <? 16)%nat; [simpl; lia|].
  destruct (negb (Status s =? "active")%string); [simpl; lia|].
  destruct (ExtractNonceInfo _) as [[[c sq] dl]|e]; [|simpl; lia].
  destruct (negb _); [simpl; lia|].
  destruct (N.ltb_spec 0 (RemoteSeq s)); simpl.
  - destruct (N.ltb_spec sq (RemoteSeq s)); simpl; [lia|].
    destruct (DecryptAESCTR _ _ _); simpl; lia.
  - destruct (DecryptAESCTR _ _ _); simpl; lia.
Qed.

(** An accepted packet: its sequence number becomes the stored one. *)
Lemma Decrypt_accepts (now : Z) (s s' : UDPSession) (packet d : list N) :
  Decrypt now s packet = (s', Ok d) ->
  RemoteSeq s' = packet_seq packet /\ RemoteSeq s <= packet_seq packet /\
  AESKey s' = AESKey s /\ Status s' = Status s /\
  RecvChannel s' = RecvChannel s.
Proof.
  unfold Decrypt.
  destruct (Nat.ltb_spec (length packet) 16) as [|Hlen]; [discriminate|].
  destruct (negb (Status s =? "active")%string); [discriminate|].
  rewrite ExtractNonceInfo_packet by exact Hlen.
  destruct (negb _); [discriminate|].
  destruct (N.ltb_spec 0 (RemoteSeq s)); simpl.
  - destruct (N.ltb_spec (packet_seq packet) (RemoteSeq s)); simpl; [discriminate|].
    destruct (DecryptAESCTR _ _ _); [|discriminate].
    intros [= <- <-]. simpl. repeat split; lia.
  - destruct (DecryptAESCTR _ _ _); [|discriminate].
    intros [= <- <-]. simpl. repeat split; lia.
Qed.

(** A refused packet of a session with a 16-byte key: nothing changes. *)
Lemma Decrypt_refuses (now : Z) (s s' : UDPSession) (packet : list N) e :
  length (AESKey s) = 16%nat ->
  Decrypt now s packet = (s', Err e) -> s' = s.
Proof.
  intros Hk. unfold Decrypt.
  destruct (Nat.ltb_spec (length packet) 16) as [|Hlen]; [congruence|].
  destruct (negb (Status s =? "active")%string); [congruence|].
  rewrite ExtractNonceInfo_packet by exact Hlen.
  destruct (negb _); [congruence|].
  destruct (_ && _); [congruence|].
  destruct (EncryptAESCTR_ok (Bytes.slice 0 16 packet) (AESKey s) (drop 16 packet))
    as (c & _ & E); [now apply nonce_length | exact Hk |].
  unfold DecryptAESCTR. simpl. rewrite E. discriminate.
Qed.

Lemma highest_snoc (acc : list N) (a : N) :
  highest acc <= a -> highest (acc ++ [a]) = a.
Proof.
  unfold highest. induction acc as [|x acc IH]; simpl; intros H; [lia|].
  rewrite IH by lia. lia.
Qed.

(** Feeding a packet keeps the invariant. *)
Lemma NewUDPSession_fresh now dev sess key tmpl cid s0 :
  NewUDPSession now dev sess key tmpl cid = Ok s0 ->
  AESKey s0 = key /\ RemoteSeq s0 = 0 /\ Status s0 = "active"%string /\ RecvChannel s0 = [].
Proof.
  unfold NewUDPSession. destruct (AES.NewCipher key); [|discriminate].
  intros [= <-]. simpl. auto.
Qed.

Lemma learn_addr_session srv cid addr s :
  let s1 := snd (learn_addr srv cid addr s) in
  RemoteSeq s1 = RemoteSeq s /\ RecvChannel s1 = RecvChannel s /\
  AESKey s1 = AESKey s /\ Status s1 = Status s /\
  set_RemoteAddr (RemoteAddr s) s1 = s.
Proof.
  unfold learn_addr. destruct s; simpl.
  destruct RemoteAddr0 as [old|]; simpl.
  - destruct (old =? addr)%string; simpl; auto.
  - auto.
Qed.

(** On the packet path of the server a stale packet is dropped and the
    receive channel of its session is not written. *)
Lemma processPacket_stale now srv addr packet s :
  (16 <= length packet)%nat ->
  nth 0 packet 0 = 1 ->
  nonce2Session srv !! Bytes.hex_encode (Bytes.slice 4 8 packet) = Some s ->
  0 < RemoteSeq s ->
  packet_seq packet < RemoteSeq s ->
  exists e s',
    snd (processPacket now srv addr packet) = DropDecrypt e /\
    nonce2Session (fst (processPacket now srv addr packet))
      !! Bytes.hex_encode (Bytes.slice 4 8 packet) = Some s' /\
    RecvChannel s' = RecvChannel s /\ RemoteSeq s' = RemoteSeq s.
Proof.
  intros Hlen H1 Hs Hpos Hlt. unfold processPacket.
  destruct (Nat.ltb_spec (length packet) 16); [lia|].
  assert (nth 0 (Bytes.slice 0 16 packet) 0 = 1) as ->.
  { destruct packet; simpl in *; [lia | exact H1]. }
  simpl (negb _). cbv iota.
  rewrite ExtractNonceInfo_packet by exact Hlen. rewrite Hs.
  destruct (learn_addr srv _ addr s) as [srv1 s1] eqn:El.
  pose proof (learn_addr_session srv (Bytes.hex_encode (Bytes.slice 4 8 packet)) addr s) as Hl.
  rewrite El in Hl. simpl in Hl. destruct Hl as (Hr & Hc & _).
  destruct (Decrypt_stale now s1 packet Hlen) as [e He]; [lia | lia |].
  rewrite He. simpl. exists e, s1.
  split; [reflexivity|]. split; [apply lookup_insert_eq | auto].
Qed.


Lemma set_RemoteSeq_same s : set_RemoteSeq (RemoteSeq s) s = s.
Proof. now destruct s. Qed.

(** A well-formed packet carrying the stored sequence number again. *)
Lemma Decrypt_same_seq (now : Z) (s : UDPSession) (packet : list N) :
  Status s = "active"%string ->
  length (AESKey s) = 16%nat ->
  (16 <= length packet)%nat ->
  Bytes.be_uint16 (Bytes.slice 2 4 packet) = N.of_nat (length packet - 16) ->
  packet_seq packet = RemoteSeq s ->
  exists d,
    Decrypt now s packet = (set_LastActive now s, Ok d) /\
    DecryptAESCTR (Bytes.slice 0 16 packet) (AESKey s) (drop 16 packet) = Ok d /\
    length d = (length packet - 16)%nat.
Proof.
  intros Hst Hk Hlen Hdl Hseq.
  destruct (EncryptAESCTR_ok (Bytes.slice 0 16 packet) (AESKey s) (drop 16 packet))
    as (c & _ & E); [now apply nonce_length | exact Hk |].
  exists (CTR.XORKeyStream c (Bytes.slice 0 16 packet) (drop 16 packet)).
  split; [|split; [exact E | now rewrite XORKeyStream_length, length_drop]].
  unfold Decrypt.
  destruct (Nat.ltb_spec (length packet) 16); [lia|].
  rewrite Hst. simpl (negb _). cbv iota.
  rewrite ExtractNonceInfo_packet by exact Hlen.
  rewrite Hdl, length_drop, N.eqb_refl. simpl (negb _). cbv iota.
  rewrite Hseq, N.ltb_irrefl, andb_false_r, set_RemoteSeq_same.
  unfold DecryptAESCTR. now rewrite E.
Qed.

(** Claim C4, as amended.  After a packet with sequence number [n] (1 in
    the scenario) has been accepted, a well-formed packet carrying the
    same sequence number again is not dropped: the check is
    [seq < RemoteSeq], so [Decrypt] accepts it, returns its decrypted
    payload and leaves the stored sequence number at [n]; the server
    forwards the payload to the receive channel when there is room. *)
Theorem duplicate_seq_accepted (now : Z) (s : UDPSession) (packet : list N) :
  Status s = "active"%string ->
  length (AESKey s) = 16%nat ->
  (16 <= length packet)%nat ->
  Bytes.be_uint16 (Bytes.slice 2 4 packet) = N.of_nat (length packet - 16) ->
  packet_seq packet = RemoteSeq s ->
  exists d,
    Decrypt now s packet = (set_LastActive now s, Ok d) /\
    DecryptAESCTR (Bytes.slice 0 16 packet) (AESKey s) (drop 16 packet) = Ok d /\
    forall srv addr,
      nth 0 packet 0 = 1 ->
      nonce2Session srv !! Bytes.hex_encode (Bytes.slice 4 8 packet) = Some s ->
      (length (RecvChannel s) < chan_cap)%nat ->
      snd (processPacket now srv addr packet) =
      Delivered (if (16 <=? length d)%nat && (nth 0 d 0 =? 1) then drop 16 d else d).
Proof.
  intros Hst Hk Hlen Hdl Hseq.
  destruct (Decrypt_same_seq now s packet Hst Hk Hlen Hdl Hseq) as (d & Hd & Hc & Hl).
  exists d. split; [exact Hd|]. split; [exact Hc|].
  intros srv addr H1 Hs Hroom. unfold processPacket.
  destruct (Nat.ltb_spec (length packet) 16); [lia|].
  assert (nth 0 (Bytes.slice 0 16 packet) 0 = 1) as ->.
  { destruct packet; simpl in *; [lia | exact H1]. }
  simpl (negb _). cbv iota.
  rewrite ExtractNonceInfo_packet by exact Hlen. rewrite Hs.
  destruct (learn_addr srv _ addr s) as [srv1 s1] eqn:El.
  pose proof (learn_addr_session srv (Bytes.hex_encode (Bytes.slice 4 8 packet)) addr s) as Hl1.
  rewrite El in Hl1. simpl in Hl1. destruct Hl1 as (Hr & Hch & Hkey & Hstat & _).
  destruct (Decrypt_same_seq now s1 packet) as (d1 & Hd1 & Hc1 & _);
    [congruence | congruence | exact Hlen | exact Hdl | congruence |].
  rewrite Hkey, Hc in Hc1. injection Hc1 as <-.
  rewrite Hd1, Hl, Hdl, N.eqb_refl. simpl (negb _). cbv iota.
  unfold RecvData. simpl. rewrite Hstat, Hst, Hch. simpl.
  destruct (Nat.ltb_spec (length (RecvChannel s)) chan_cap); [reflexivity | lia].
Qed.

Lemma duplicate_seq_witness :
  exists d,
    Decrypt 2 (fst (Decrypt 1 Samples.session0 (Samples.packet 1))) (Samples.packet 1)
    = (set_LastActive 2 (fst (Decrypt 1 Samples.session0 (Samples.packet 1))), Ok d).
Proof.
  destruct (duplicate_seq_accepted 2
              (fst (Decrypt 1 Samples.session0 (Samples.packet 1)))
              (Samples.packet 1)) as (d & Hd & _).
  - reflexivity.
  - reflexivity.
  - vm_compute. lia.
  - reflexivity.
  - reflexivity.
  - exists d. exact Hd.
Defined.

(** Claim C4 as stated fails: the session has accepted a packet with
    sequence number 1; the same packet arrives again, [Decrypt] accepts
    it again and the server delivers its payload a second time. *)
Lemma duplicate_seq1_not_dropped :
  let s1 := fst (Decrypt 1 Samples.session0 (Samples.packet 1)) in
  let srv1 := fst (processPacket 1 Samples.server0 "10.0.0.7:4000" (Samples.packet 1)) in
  packet_seq (Samples.packet 1) = 1 /\
  snd (Decrypt 1 Samples.session0 (Samples.packet 1)) = Ok Samples.payload /\
  RemoteSeq s1 = 1 /\
  ~ (exists e, snd (Decrypt 2 s1 (Samples.packet 1)) = Err e) /\
  snd (Decrypt 2 s1 (Samples.packet 1)) = Ok Samples.payload /\
  snd (processPacket 2 srv1 "10.0.0.7:4000" (Samples.packet 1)) = Delivered Samples.payload /\
  (RecvChannel <$> nonce2Session (fst (processPacket 2 srv1 "10.0.0.7:4000" (Samples.packet 1)))
     !! Samples.connID) = Some [Samples.payload; Samples.payload].
Proof.
  vm_compute. repeat split; try reflexivity.
  intros [e He]. discriminate He.
Qed.

End UDPFacts.

(** ** VAD buffer *)

Module VADFacts.
Import VAD.
Local Open Scope Z_scope.

Lemma buffered_set_audioBuffer b v :
  buffered (set_audioBuffer b v) = Z.of_nat (length b).
Proof. reflexivity. Qed.

Lemma aligned_empty v : aligned (set_audioBuffer [] v).
Proof. unfold aligned. simpl. apply Z.divide_0_r. Qed.

Lemma AddAudioData_buffered data v :
  buffered (AddAudioData data v) = buffered v + Z.of_nat (length data).
Proof. unfold AddAudioData, buffered. simpl. rewrite length_app. lia. Qed.

Lemma AddAudioData_aligned data v :
  aligned v ->
  aligned (AddAudioData data v) <-> (frameSize v | Z.of_nat (length data)).
Proof.
  unfold aligned. intros Hv. rewrite AddAudioData_buffered.
  change (frameSize (AddAudioData data v)) with (frameSize v). split; intros H.
  - replace (Z.of_nat (length data))
      with (buffered v + Z.of_nat (length data) - buffered v) by lia.
    now apply Z.divide_sub_r.
  - now apply Z.divide_add_r.
Qed.

(** Dropping whole frames keeps the remainder of the length. *)
Lemma RemoveOldFrames_spec keep v :
  0 < frameSize v -> 0 <= keep ->
  exists v', RemoveOldFrames keep v = Some v' /\
             frameSize v' = frameSize v /\
             buffered v' mod frameSize v = buffered v mod frameSize v /\
             buffered v' <= buffered v.
Proof.
  intros Hfs Hk. unfold RemoveOldFrames.
  destruct (Z.eqb_spec (frameSize v) 0); [lia|].
  assert (0 <= buffered v) as Hb by (unfold buffered; lia).
  pose proof (Z.quot_rem' (buffered v) (frameSize v)) as E.
  pose proof (Z.rem_bound_pos (buffered v) (frameSize v) Hb Hfs) as Hr.
  set (q := Z.quot (buffered v) (frameSize v)) in *.
  destruct (Z.ltb_spec keep q); [|exists v; auto with zarith].
  assert (0 <= (q - keep) * frameSize v <= buffered v) as Hrm by nia.
  destruct (Z.ltb_spec ((q - keep) * frameSize v) 0); [lia|].
  destruct (Z.ltb_spec (buffered v) ((q - keep) * frameSize v)); [lia|].
  simpl. eexists. split; [reflexivity|]. split; [reflexivity|].
  rewrite buffered_set_audioBuffer, length_drop.
  replace (Z.of_nat (length (audioBuffer v) - Z.to_nat ((q - keep) * frameSize v)))
    with (buffered v - (q - keep) * frameSize v) by (unfold buffered in *; lia).
  split; [|lia].
  replace (buffered v - (q - keep) * frameSize v)
    with (buffered v + (- (q - keep)) * frameSize v) by lia.
  apply Z.mod_add. lia.
Qed.

Lemma aligned_mod v : 0 < frameSize v -> aligned v <-> buffered v mod frameSize v = 0.
Proof.
  intros H. unfold aligned. rewrite Z.mod_divide by lia. reflexivity.
Qed.

(** Claim C9, as amended.  For a VAD state with a positive [frameSize]
    whose buffer holds whole frames: appending data leaves whole frames
    exactly when the length of the data is a multiple of [frameSize];
    removing old frames (keeping a non-negative number) and clearing the
    buffer leave whole frames. *)
Theorem vad_buffer_alignment (v : VADState) (data : list N) (keep : Z) :
  0 < frameSize v ->
  aligned v ->
  (aligned (AddAudioData data v) <-> (frameSize v | Z.of_nat (length data))) /\
  (0 <= keep -> exists v', RemoveOldFrames keep v = Some v' /\ aligned v') /\
  aligned (ClearBuffer v) /\
  aligned (snd (GetAndClearAllData v)) /\
  aligned (Reset v).
Proof.
  intros Hfs Hv. split; [now apply AddAudioData_aligned|].
  split; [|repeat split; apply Z.divide_0_r].
  intros Hk. destruct (RemoveOldFrames_spec keep v Hfs Hk) as (v' & E & Hf & Hm & _).
  exists v'. split; [exact E|].
  apply aligned_mod; [lia|]. rewrite Hf, Hm. now apply aligned_mod.
Qed.

Lemma vad_buffer_alignment_witness :
  aligned (AddAudioData (repeat 0%N 1280) (NewVADState 640 200)).
Proof.
  apply (proj1 (vad_buffer_alignment (NewVADState 640 200) (repeat 0%N 1280) 3
                  ltac:(reflexivity) ltac:(exists 0; reflexivity))).
  exists 2. reflexivity.
Defined.

(** Claim C9 as stated fails: [AddAudioData] appends whatever it is
    given, and [processAudioWithVAD] sets [frameSize] to the length of
    each chunk while older chunks are still buffered. *)
Lemma vad_buffer_misaligned :
  let v := AddAudioData (repeat 0%N 100) (NewVADState 640 200) in
  (frameSize v = 640 /\ buffered v = 100 /\ ~ aligned v) /\
  (exists v1 v2,
     processAudioWithVAD Samples.silent 0 16000 20 (repeat 0%N 640) (NewVADState 640 200)
       = Some (v1, []) /\
     processAudioWithVAD Samples.silent 20 16000 20 (repeat 0%N 500) v1 = Some (v2, []) /\
     frameSize v2 = 500 /\ buffered v2 = 1140 /\ ~ aligned v2).
Proof.
  split.
  - repeat split. intros [k Hk]. change (100 = k * 640) in Hk. lia.
  - eexists. eexists. split; [vm_compute; reflexivity|].
    split; [vm_compute; reflexivity|].
    repeat split. intros [k Hk]. change (1140 = k * 500) in Hk. lia.
Qed.

(** Chunks of one length: after every call of [processAudioWithVAD] the
    frame size is that length and the buffer holds whole frames. *)
Lemma processAudioWithVAD_aligned vad now sr fd audioData v :
  (0 < length audioData)%nat ->
  (Z.of_nat (length audioData) | buffered v) ->
  0 <= maxBufferFrames v ->
  exists v' sent,
    processAudioWithVAD vad now sr fd audioData v = Some (v', sent) /\
    frameSize v' = Z.of_nat (length audioData) /\ aligned v' /\
    maxBufferFrames v' = maxBufferFrames v.
Proof.
  intros Hpos Hdiv Hmax. unfold processAudioWithVAD.
  set (len := Z.of_nat (length audioData)) in *.
  assert (0 < len) as Hlen by (unfold len; lia).
  set (v0 := if (0 <? len) && negb (len =? frameSize v) then set_frameSize len v else v).
  assert (frameSize v0 = len /\ buffered v0 = buffered v /\
          maxBufferFrames v0 = maxBufferFrames v) as (Hf0 & Hb0 & Hm0).
  { unfold v0. destruct (Z.ltb_spec 0 len); [|lia].
    destruct (Z.eqb_spec len (frameSize v)); simpl; auto. }
  set (v1 := AddAudioData audioData (SetVADCheckFrames 1 v0)).
  assert (frameSize v1 = len /\ buffered v1 = buffered v + len /\
          maxBufferFrames v1 = maxBufferFrames v /\ vadCheckFrames v1 = 1)
    as (Hf1 & Hb1 & Hm1 & Hc1).
  { unfold v1. rewrite AddAudioData_buffered. simpl. fold len.
    change (buffered (SetVADCheckFrames 1 v0)) with (buffered v0). auto with zarith. }
  assert (0 <= buffered v) as Hbv by (unfold buffered; lia).
  assert (aligned v1) as Ha1.
  { unfold aligned. rewrite Hf1, Hb1. apply Z.divide_add_r; [exact Hdiv | reflexivity]. }
  unfold HasEnoughDataForVAD. rewrite Hc1, Hf1, Hb1.
  destruct (Z.leb_spec (1 * len) (buffered v + len)); [|lia]. simpl negb. cbv iota.
  unfold GetBufferedData. rewrite Hf1, Hb1.
  destruct (Z.ltb_spec (buffered v + len) (1 * len)); [lia|].
  destruct (Z.ltb_spec (1 * len) 0); [lia|].
  match goal with
  | |- context [vad ?x ?y ?z] =>
      set (have := match vad x y z with Ok voiced => voiced | Err _ => true end)
  end.
  change (haveVoice v1) with (haveVoice v0).
  destruct have, (haveVoice v0); cbn [andb negb];
    try (do 2 eexists; split; [reflexivity|];
         cbn [GetAndClearAllData fst snd];
         try destruct (IsSilence _ _);
         (split; [exact Hf1|]; split; [apply Z.divide_0_r | exact Hm1])).
  set (fm := if fd <=? 0 then 20 else fd).
  set (v2 := AddIdleDuration fm v1).
  assert (frameSize v2 = len /\ buffered v2 = buffered v1 /\ aligned v2 /\
          maxBufferFrames v2 = maxBufferFrames v) as (Hf2 & Hb2 & Ha2 & Hm2).
  { unfold v2. simpl. repeat split; try assumption. }
  destruct (1 * 3 <? GetBufferedFrameCount v2).
  - destruct (RemoveOldFrames_spec (maxBufferFrames v2) v2) as (v' & E & Hf & Hmo & _);
      [lia | lia |].
    rewrite E. exists v', []. split; [reflexivity|]. split; [lia|].
    split.
    + apply aligned_mod; [lia|]. rewrite Hf, Hmo. apply aligned_mod; [lia | exact Ha2].
    + revert E. unfold RemoveOldFrames.
      repeat match goal with |- context [if ?b then _ else _] => destruct b end;
        try discriminate; intros [= <-]; simpl; exact Hm2.
  - exists v2, []. auto.
Qed.

End VADFacts.

(** ** Dialogue manager *)

Module ChatFacts.
Import Chat.


Lemma persistable_spec (msg : Message) :
  persistable msg = true <->
  (Role msg = "user" \/ Role msg = "assistant") /\ TrimSpace (Content msg) <> "".
Proof.
  unfold persistable. rewrite andb_true_iff, orb_true_iff, negb_true_iff.
  rewrite !String.eqb_eq, String.eqb_neq. reflexivity.
Qed.

Lemma Put_dialogue msg dm : dialogue (Put msg dm) = dialogue dm ++ [msg].
Proof.
  unfold Put. destruct (memory dm); [destruct (persistable msg)|]; reflexivity.
Qed.

Lemma Put_relational (msg : Message) (dm : DialogueManager) uid t :
  memory dm = Some (MemPostgres (mkPostgresMemory (Some (mkDB t false)) uid)) ->
  memory (Put msg dm) =
  Some (MemPostgres (mkPostgresMemory
     (Some (mkDB (if persistable msg then t ++ [row_of uid msg] else t) false)) uid)).
Proof.
  intros Hm. unfold Put. rewrite Hm.
  destruct (persistable msg); reflexivity.
Qed.

Lemma Put_rows (msg : Message) (dm : DialogueManager) uid t :
  memory dm = Some (MemPostgres (mkPostgresMemory (Some (mkDB t false)) uid)) ->
  rows (Put msg dm) =
  if persistable msg then rows dm ++ [row_of uid msg] else rows dm.
Proof.
  intros Hm. unfold rows. rewrite (Put_relational msg dm uid t Hm), Hm. simpl.
  destruct (persistable msg); reflexivity.
Qed.

(** Claim C2.  With the relational back end attached, [Put] appends
    exactly one row if and only if the role is "user" or "assistant"
    and the content is not blank after [TrimSpace]; otherwise it leaves
    the rows as they are, in particular for "system" and "tool"
    messages; storage is append-only: the same message put twice gives
    two rows. *)
Theorem Put_persists_iff (msg : Message) (dm : DialogueManager) :
  relational dm ->
  ((exists r, rows (Put msg dm) = rows dm ++ [r]) <->
   (Role msg = "user" \/ Role msg = "assistant") /\ TrimSpace (Content msg) <> "") /\
  (rows (Put msg dm) = rows dm \/ exists r, rows (Put msg dm) = rows dm ++ [r]) /\
  (Role msg = "system" \/ Role msg = "tool" -> rows (Put msg dm) = rows dm) /\
  (persistable msg = true ->
   exists r, rows (Put msg (Put msg dm)) = rows dm ++ [r; r]) /\
  relational (Put msg dm).
Proof.
  intros (uid & t & Hm).
  pose proof (Put_rows msg dm uid t Hm) as Hr.
  pose proof (Put_relational msg dm uid t Hm) as Hrel.
  split; [|split; [|split; [|split]]].
  - rewrite <- persistable_spec. destruct (persistable msg); split; intros H.
    + reflexivity.
    + eauto.
    + destruct H as [r H]. rewrite Hr in H.
      apply (f_equal length) in H. rewrite length_app in H. simpl in H. lia.
    + discriminate.
  - destruct (persistable msg); eauto.
  - intros Hrole. rewrite Hr.
    destruct (persistable msg) eqn:E; [|reflexivity].
    apply persistable_spec in E. destruct E as [[E|E] _], Hrole as [R|R];
      rewrite R in E; discriminate.
  - intros Hp. exists (row_of uid msg).
    rewrite (Put_rows msg (Put msg dm) uid _ Hrel), Hr, Hp.
    now rewrite <- app_assoc.
  - eexists _, _. exact Hrel.
Qed.

Lemma Put_persists_witness :
  (exists r, rows (Put Samples.user_hello Samples.dm0) = rows Samples.dm0 ++ [r]) /\
  (exists r, rows (Put Samples.user_hello (Put Samples.user_hello Samples.dm0)) = rows Samples.dm0 ++ [r; r]).
Proof.
  destruct (Put_persists_iff Samples.user_hello Samples.dm0) as (H1 & _ & _ & H4 & _).
  - exists "u42"%string, []. reflexivity.
  - split.
    + apply H1. split; [left; reflexivity | vm_compute; discriminate].
    + apply H4. reflexivity.
Defined.

End ChatFacts.

(** ** The JWT gate of the WebSocket transport *)

Module WSFacts.
Import WS.

Section Gate.
Context {J : JWT} {S : Server}.

Lemma verifyJWTAuth_mismatch (t : WebSocketTransport) (r : Request) (d : string) (u : N) :
  String.prefix "Bearer " (Get (Header r) "Authorization") = true ->
  VerifyToken (authToken t)
    (String.substring 7 (String.length (Get (Header r) "Authorization") - 7)
       (Get (Header r) "Authorization")) [] = (true, d, u, None) ->
  Get (Header r) "Device-Id" <> d ->
  verifyJWTAuth t r = Err (ErrDeviceMismatch (Get (Header r) "Device-Id") d).
Proof.
  intros Hp Hv Hd. unfold verifyJWTAuth. rewrite Hp, Hv. simpl.
  apply String.eqb_neq in Hd. now rewrite Hd.
Qed.

(** Claim C6.  A request whose bearer token verifies under the shared
    secret with device id [d], while the Device-Id header the handler
    reads (in browser mode after the URL query has been copied into the
    header) is not [d], is answered with status 401 and nothing else:
    the socket is not upgraded and no connection handler is created. *)
Theorem jwt_device_mismatch_rejected
    (t : WebSocketTransport) (r : Request) (d : string) (u : N) :
  let r' := inject_query t r in
  let authHeader := Get (Header r') "Authorization" in
  String.prefix "Bearer " authHeader = true ->
  VerifyToken (authToken t)
    (String.substring 7 (String.length authHeader - 7) authHeader) [] = (true, d, u, None) ->
  Get (Header r') "Device-Id" <> d ->
  handleWebSocket t r =
    [HttpError 401 (ErrDeviceMismatch (Get (Header r') "Device-Id") d)] /\
  Forall (fun e => touches_session e = false) (handleWebSocket t r) /\
  (Browser t = false -> r' = r).
Proof.
  intros r' authHeader Hp Hv Hd.
  assert (handleWebSocket t r =
          [HttpError 401 (ErrDeviceMismatch (Get (Header r') "Device-Id") d)]) as E.
  { unfold handleWebSocket. fold r'.
    now rewrite (verifyJWTAuth_mismatch t r' d u Hp Hv Hd). }
  split; [exact E|]. split.
  - rewrite E. repeat constructor.
  - intros Hb. unfold r', inject_query. now rewrite Hb.
Qed.

End Gate.

Lemma jwt_device_mismatch_witness :
  @handleWebSocket Samples.toy_jwt Samples.toy_server
    Samples.transport (Samples.request "dev-B") =
  [HttpError 401 (ErrDeviceMismatch "dev-B" "dev-A")].
Proof.
  apply (@jwt_device_mismatch_rejected Samples.toy_jwt Samples.toy_server
           Samples.transport (Samples.request "dev-B") "dev-A" 7).
  - reflexivity.
  - vm_compute. reflexivity.
  - vm_compute. discriminate.
Defined.

Example matching_device_is_served :
  @handleWebSocket Samples.toy_jwt Samples.toy_server
    Samples.transport (Samples.request "dev-A") =
  [Upgrade true;
   CreateHandler (HeaderSet "Session-Id" "0xc000123" (Samples.request "dev-A")) true;
   SetUserID 7; StoreActive "0xc000123"; SessionOnline "dev-A" "0xc000123"; Handle].
Proof. vm_compute. reflexivity. Qed.

End WSFacts.

(** ** The chat, TTS and audio-send path *)

Module CoreFacts.
Import Chat Core CoreMore.
Local Open Scope Z_scope.

Lemma adds_refl p h : adds p h h.
Proof. exists []. split; [now rewrite app_nil_r | constructor]. Qed.

Lemma adds_same p h h' : trace h' = trace h -> adds p h h'.
Proof. intros E. exists []. split; [now rewrite app_nil_r | constructor]. Qed.

Lemma adds_trans p h1 h2 h3 : adds p h1 h2 -> adds p h2 h3 -> adds p h1 h3.
Proof.
  intros (e1 & E1 & F1) (e2 & E2 & F2). exists (e1 ++ e2).
  split; [now rewrite E2, E1, app_assoc | now apply Forall_app].
Qed.

Lemma adds_emit p e h : p e = true -> adds p h (emit e h).
Proof. intros H. exists [e]. split; [reflexivity | now repeat constructor]. Qed.

Lemma adds_weaken (p q : Event -> bool) h h' :
  (forall e, p e = true -> q e = true) -> adds p h h' -> adds q h h'.
Proof.
  intros Hpq (evs & E & F). exists evs. split; [exact E|].
  eapply Forall_impl; [exact F | exact Hpq].
Qed.

Section Facts.
Context {U : Utils} {P : Providers}.

Lemma deleteAudioFileIfNeeded_spec fp h :
  let h' := deleteAudioFileIfNeeded fp h in
  adds housekeeping h h' /\ same_session h h' /\ closed h' = closed h /\
  ttsQueue h' = ttsQueue h /\ audioMessagesQueue h' = audioMessagesQueue h /\
  tts_last_text_index h' = tts_last_text_index h.
Proof.
  unfold deleteAudioFileIfNeeded, same_session.
  destruct (_ || _); [split; [apply adds_refl | auto 10]|].
  destruct (IsCachedFile fp); [split; [apply adds_refl | auto 10]|].
  destruct (IsMusicFile fp); [split; [apply adds_refl | auto 10]|].
  split; [now apply adds_emit | simpl; auto 10].
Qed.

Lemma drop_files_spec (tasks : list AudioTask) h :
  let h' := fold_left (fun h t => deleteAudioFileIfNeeded (au_filepath t) h) tasks h in
  adds housekeeping h h' /\ same_session h h' /\ closed h' = closed h /\
  ttsQueue h' = ttsQueue h /\ audioMessagesQueue h' = audioMessagesQueue h /\
  tts_last_text_index h' = tts_last_text_index h.
Proof.
  revert h. induction tasks as [|t tasks IH]; intros h; simpl.
  - split; [apply adds_refl | unfold same_session; auto 10].
  - destruct (deleteAudioFileIfNeeded_spec (au_filepath t) h)
      as (A1 & (S1 & S2 & S3 & S4) & C1 & Q1 & Q2 & I1).
    destruct (IH (deleteAudioFileIfNeeded (au_filepath t) h))
      as (A2 & (T1 & T2 & T3 & T4) & C2 & R1 & R2 & I2).
    split; [eapply adds_trans; eassumption|].
    unfold same_session. repeat split; congruence.
Qed.

Lemma cleanTTSAndAudioQueue_spec h :
  let h' := cleanTTSAndAudioQueue h in
  adds housekeeping h h' /\ same_session h h' /\ closed h' = closed h /\
  ttsQueue h' = [] /\ audioMessagesQueue h' = [] /\
  tts_last_text_index h' = tts_last_text_index h.
Proof.
  unfold cleanTTSAndAudioQueue.
  destruct (drop_files_spec (audioMessagesQueue h)
              (set_audioMessagesQueue [] (set_ttsQueue [] h)))
    as (A & S & C & Q1 & Q2 & I).
  split; [exact A|]. split; [exact S|]. auto.
Qed.

Lemma Close_spec h :
  adds housekeeping h (Close h) /\ same_session h (Close h) /\
  closed (Close h) = true /\
  (forall t, In t (ttsQueue (Close h)) -> In t (ttsQueue h)).
Proof.
  unfold Close. destruct (closed h) eqn:Hc.
  - split; [apply adds_refl|]. unfold same_session. auto 10.
  - match goal with |- context [cleanTTSAndAudioQueue ?x] =>
      destruct (cleanTTSAndAudioQueue_spec x) as (A & S & C & Q1 & Q2 & I);
      set (h1 := x) in *
    end.
    split.
    + eapply adds_trans; [|exact A].
      exists [EvStopChan; EvSetVoice; EvASRResetSilence; EvASRReset; EvASRClose].
      split; [unfold h1; simpl; now rewrite <- !app_assoc | repeat constructor].
    + split; [exact S|]. split; [rewrite C; reflexivity|].
      rewrite Q1. intros t [].
Qed.

Lemma deleteAudioFileIfNeeded_trace fp h :
  deleteAudioFileIfNeeded fp h =
  if removable (config h) fp then emit (EvRemoveFile fp) h else h.
Proof.
  unfold deleteAudioFileIfNeeded, removable.
  destruct (DeleteAudio (config h)); simpl; [|reflexivity].
  destruct (String.eqb fp ""); simpl; [reflexivity|].
  destruct (IsCachedFile fp); simpl; [reflexivity|].
  now destruct (IsMusicFile fp).
Qed.

Lemma drop_files_trace (tasks : list AudioTask) h :
  let h' := fold_left (fun h t => deleteAudioFileIfNeeded (au_filepath t) h) tasks h in
  trace h' = trace h ++ map EvRemoveFile
                          (List.filter (removable (config h)) (map au_filepath tasks)).
Proof.
  revert h. induction tasks as [|t tasks IH]; intros h; simpl.
  - now rewrite app_nil_r.
  - rewrite IH, deleteAudioFileIfNeeded_trace.
    destruct (removable (config h) (au_filepath t)); simpl; [|reflexivity].
    now rewrite <- app_assoc.
Qed.

Lemma cleanTTSAndAudioQueue_trace (h : Handler) :
  trace (cleanTTSAndAudioQueue h) =
  trace h ++ map EvRemoveFile
               (List.filter (removable (config h)) (map au_filepath (audioMessagesQueue h))).
Proof. unfold cleanTTSAndAudioQueue. now rewrite drop_files_trace. Qed.


(** The events of [processTTSTask]: the synthesizer is called exactly
    when [synthesized] says so, first of all, and no audio is written. *)
Lemma processTTSTask_trace (text : string) (idx round : Z) (h : Handler) :
  exists evs,
    trace (processTTSTask text idx round h) =
      trace h ++ (if synthesized (config h) text
                  then EvToTTS (RemoveAllEmoji text) :: evs else []) /\
    Forall (fun e => is_synthesis e = false /\ is_audio e = false) evs.
Proof.
  unfold processTTSTask, synthesized.
  destruct (String.eqb (if IsQuickReplyHit text (QuickReplyWords (config h))
                        then FindCachedAudio text else "") ""); simpl negb; cbv iota.
  2: { exists []. simpl. rewrite app_nil_r. auto. }
  destruct (String.eqb (RemoveAllEmoji text) ""); simpl negb; simpl andb; cbv iota.
  { exists []. simpl. rewrite app_nil_r. auto. }
  destruct (ToTTS (RemoveAllEmoji text)) as [fp failed].
  destruct failed.
  { exists []. simpl. auto. }
  change (config (emit (EvToTTS (RemoveAllEmoji text)) h)) with (config h).
  destruct (IsQuickReplyHit (RemoveAllEmoji text) (QuickReplyWords (config h)));
    cbn [serverVoiceStop emit];
    destruct (serverVoiceStop h =? 1); try rewrite deleteAudioFileIfNeeded_trace;
    cbn [config emit];
    try destruct (removable (config h) fp);
    cbn [trace set_audioMessagesQueue emit]; rewrite <- ?app_assoc; simpl app;
    eexists; (split; [reflexivity|]); repeat constructor.
Qed.

Lemma quit_loop_hit cleaned cmds h :
  In cleaned cmds -> quit_loop cleaned cmds h = (Close h, true).
Proof.
  induction cmds as [|cmd rest IH]; intros Hin; [destruct Hin|].
  simpl. destruct (String.eqb_spec cleaned cmd) as [|Hne]; [reflexivity|].
  apply IH. destruct Hin as [->|Hin]; [congruence | exact Hin].
Qed.

Lemma quit_loop_miss cleaned cmds h :
  ~ In cleaned cmds -> quit_loop cleaned cmds h = (h, false).
Proof.
  induction cmds as [|cmd rest IH]; intros Hin; [reflexivity|].
  simpl. destruct (String.eqb_spec cleaned cmd) as [->|Hne].
  - exfalso. apply Hin. now left.
  - apply IH. intros H. apply Hin. now right.
Qed.



Lemma QuitIntent_miss text h :
  snd (QuitIntent text h) = false -> QuitIntent text h = (h, false).
Proof.
  unfold QuitIntent. destruct (CMDExit (config h)) as [cmds|]; [|reflexivity].
  destruct (in_dec String.string_dec (RemoveAllPunctuation text) cmds) as [Hin|Hin].
  - rewrite (quit_loop_hit _ _ _ Hin). discriminate.
  - now rewrite (quit_loop_miss _ _ _ Hin).
Qed.

(** The quick-reply path of [handleChatMessage], whatever the state of
    [serverVoiceStop]. *)
Lemma quick_reply_path (now : Z) (draw : nat) (text : string) (h : Handler) :
  text <> ""%string ->
  snd (QuitIntent text h) = false ->
  conn_write (EvSTT text) = true ->
  conn_write (EvTTSState "start" "" 0) = true ->
  QuickReply (config h) = true ->
  int64 (talkRound h + 1) = 1 ->
  IsWakeUpWord text = true ->
  let reply := RandomSelectFromArray draw (QuickReplyWords (config h)) in
  let h' := fst (handleChatMessage now draw text h) in
  snd (handleChatMessage now draw text h) = None /\
  ttsQueue h' = ttsQueue h ++ [mkTTSTask (fst (spoken_text h reply)) 1 1] /\
  dialogueManager h' = dialogueManager h /\
  trace h' = trace h ++ [EvSTT text; EvTTSState "start" "" 0] /\
  talkRound h' = 1.
Proof.
  intros Hne Hq Hs1 Hs2 Hqr Hr Hw. unfold handleChatMessage.
  apply String.eqb_neq in Hne. rewrite Hne, (QuitIntent_miss _ _ Hq).
  unfold sendSTTMessage, sendTTSMessage, send. rewrite Hs1. simpl negb. cbv iota.
  rewrite Hs2. simpl negb. cbv iota.
  unfold quickReplyWakeUpWords. simpl config. simpl talkRound.
  rewrite Hqr, Hr, Hw. simpl negb. cbv iota. simpl orb. cbv iota.
  unfold SpeakAndPlay, spoken_text. simpl serverVoiceStop. simpl config.
  repeat match goal with |- context [if ?b then _ else _] => destruct b end;
    simpl; rewrite <- ?app_assoc; auto.
Qed.

Lemma RandomSelectFromArray_In (draw : nat) (words : list string) :
  words <> [] -> In (RandomSelectFromArray draw words) words.
Proof.
  intros Hw. unfold RandomSelectFromArray. apply nth_In.
  apply Nat.mod_upper_bound. destruct words; [congruence | simpl; lia].
Qed.

Lemma length_substring_0 (n : nat) (s : string) :
  String.length (String.substring 0 n s) = Nat.min n (String.length s).
Proof.
  revert s. induction n as [|n IH]; intros [|a s]; simpl; try reflexivity.
  now rewrite IH.
Qed.

(** What [SpeakAndPlay] puts on the queue, measured in bytes. *)
Lemma spoken_text_bytes (h : Handler) (text : string) :
  let s := RemoveMarkdownSyntax (RemoveAllEmoji text) in
  let t := fst (spoken_text h text) in
  (String.length t <= 255)%nat /\
  (serverVoiceStop h <> 1 ->
   ((255 < String.length s)%nat -> t = String.substring 0 255 s) /\
   ((String.length s <= 255)%nat -> t = s)).
Proof.
  unfold spoken_text.
  destruct (String.eqb_spec (RemoveMarkdownSyntax (RemoveAllEmoji text)) "") as [E|E].
  - rewrite E. simpl. split; [lia|]. intros _. split; [lia | reflexivity].
  - destruct (Z.eqb_spec (serverVoiceStop h) 1).
    + simpl. split; [lia | congruence].
    + destruct (Nat.ltb_spec 255 (String.length (RemoveMarkdownSyntax (RemoveAllEmoji text)))); simpl.
      * rewrite length_substring_0. split; [lia|]. intros _. split; [reflexivity | lia].
      * split; [lia|]. intros _. split; [lia | reflexivity].
Qed.

Lemma SpeakAndPlay_queue text idx round h :
  ttsQueue (fst (SpeakAndPlay text idx round h)) =
  ttsQueue h ++ [mkTTSTask (fst (spoken_text h text)) round idx].
Proof. unfold SpeakAndPlay. now destruct (spoken_text h text). Qed.

Lemma processTTSTask_spec (text : string) (idx round : Z) (h : Handler) :
  let h' := processTTSTask text idx round h in
  exists fp text',
    audioMessagesQueue h' = audioMessagesQueue h ++ [mkAudioTask fp text' round idx] /\
    talkRound h' = talkRound h /\
    ttsQueue h' = ttsQueue h /\
    adds not_audio h h'.
Proof.
  unfold processTTSTask.
  destruct (negb _).
  { do 2 eexists. simpl. repeat split. now apply adds_same. }
  destruct (String.eqb (RemoveAllEmoji text) "").
  { do 2 eexists. simpl. repeat split. now apply adds_same. }
  destruct (ToTTS (RemoveAllEmoji text)) as [fp failed].
  destruct failed.
  { do 2 eexists. simpl. repeat split.
    exists [EvToTTS (RemoveAllEmoji text)]. split; [reflexivity | now repeat constructor]. }
  set (h1 := emit (EvToTTS (RemoveAllEmoji text)) h).
  assert (adds not_audio h h1) as A1 by now apply adds_emit.
  set (h2 := if IsQuickReplyHit _ _ then emit (EvCacheSave (RemoveAllEmoji text) fp) h1 else h1).
  assert (adds not_audio h1 h2 /\ talkRound h2 = talkRound h /\
          ttsQueue h2 = ttsQueue h /\ audioMessagesQueue h2 = audioMessagesQueue h)
    as (A2 & T2 & Q2 & R2).
  { unfold h2. destruct (IsQuickReplyHit _ _); simpl;
      (split; [try apply adds_refl; now apply adds_emit | auto]). }
  set (h3 := if serverVoiceStop h2 =? 1 then deleteAudioFileIfNeeded fp h2 else h2).
  assert (adds not_audio h2 h3 /\ talkRound h3 = talkRound h /\
          ttsQueue h3 = ttsQueue h /\ audioMessagesQueue h3 = audioMessagesQueue h)
    as (A3 & T3 & Q3 & R3).
  { unfold h3. destruct (serverVoiceStop h2 =? 1).
    - destruct (deleteAudioFileIfNeeded_spec fp h2) as (A & (_ & S2 & _) & _ & Q1 & Q2' & _).
      split; [|repeat split; congruence].
      eapply adds_weaken; [|exact A]. intros []; simpl; auto; discriminate.
    - split; [apply adds_refl | auto]. }
  exists fp, (RemoveAllEmoji text). simpl. rewrite R3.
  repeat split; auto.
  destruct A3 as (e3 & E3 & F3), A2 as (e2 & E2 & F2), A1 as (e1 & E1 & F1).
  exists (e1 ++ e2 ++ e3). simpl. split.
  - now rewrite E3, E2, E1, <- !app_assoc.
  - now repeat apply Forall_app_2.
Qed.

Lemma sendAudioMessage_stale fp text idx round h :
  round <> talkRound h -> sendAudioMessage fp text idx round h = h.
Proof.
  intros Hne. unfold sendAudioMessage.
  destruct (Z.eqb_spec round (talkRound h)); [contradiction | reflexivity].
Qed.

(** One turn of the audio-send worker on a stale task: the task is taken
    from the queue and nothing else happens. *)
Lemma audio_worker_discards_stale (h : Handler) (task : AudioTask) (rest : list AudioTask) :
  audioMessagesQueue h = task :: rest ->
  au_round task <> talkRound h ->
  audio_worker h = set_audioMessagesQueue rest h.
Proof.
  intros Hq Hne. unfold audio_worker. rewrite Hq.
  now apply sendAudioMessage_stale.
Qed.

(** One turn of the TTS worker: whatever the round of the task, one
    audio task with that round and index is forwarded. *)
Lemma tts_worker_forwards (h : Handler) (task : TTSTask) (rest : list TTSTask) :
  ttsQueue h = task :: rest ->
  exists fp text',
    ttsQueue (tts_worker h) = rest /\
    audioMessagesQueue (tts_worker h) =
      audioMessagesQueue h ++ [mkAudioTask fp text' (tts_round task) (tts_textIndex task)].
Proof.
  intros Hq. unfold tts_worker. rewrite Hq.
  destruct (processTTSTask_spec (tts_text task) (tts_textIndex task) (tts_round task)
              (set_ttsQueue rest h)) as (fp & text' & Q & _ & R & _).
  exists fp, text'. split; [exact R | exact Q].
Qed.

(** Claim C1, as amended.  A task whose round is not the current one is
    discarded by the audio-send stage, which writes nothing.  The TTS
    stage does not look at the round: whatever the round of its task,
    [processTTSTask] calls the synthesizer, unless a cached quick reply
    serves the text or the text is empty once its emoji are removed,
    writes no audio itself, and forwards exactly one audio task carrying
    the round and index of its TTS task; that audio task is then
    discarded. *)
Theorem stale_round_discarded_at_audio_send (text : string) (idx round : Z) (h : Handler) :
  round <> talkRound h ->
  let h' := processTTSTask text idx round h in
  (forall fp text', sendAudioMessage fp text' idx round h = h) /\
  (exists fp text',
     audioMessagesQueue h' = audioMessagesQueue h ++ [mkAudioTask fp text' round idx] /\
     sendAudioMessage fp text' idx round h' = h') /\
  talkRound h' = talkRound h /\
  (exists evs,
     trace h' = trace h ++ (if synthesized (config h) text
                            then EvToTTS (RemoveAllEmoji text) :: evs else []) /\
     Forall (fun e => is_synthesis e = false /\ is_audio e = false) evs).
Proof.
  intros Hne h'. split; [intros; now apply sendAudioMessage_stale|].
  destruct (processTTSTask_spec text idx round h) as (fp & text' & Q & T & _ & _).
  fold h' in Q, T. split.
  - exists fp, text'. split; [exact Q|]. apply sendAudioMessage_stale. congruence.
  - split; [exact T|]. apply processTTSTask_trace.
Qed.

End Facts.

Import Samples.



(** Claim C1 as stated fails for TTS tasks: a task of round 1 taken from
    the queue while round 2 is current is synthesized all the same. *)
Lemma stale_tts_task_is_synthesized :
  talkRound stale = 2 /\
  ttsQueue stale = [mkTTSTask "hello" 1 1] /\
  trace (@tts_worker utils providers stale) = [EvToTTS "hello"] /\
  audioMessagesQueue (@tts_worker utils providers stale)
    = [mkAudioTask "tmp/hello.wav" "hello" 1 1].
Proof. vm_compute. repeat split; reflexivity. Qed.

Lemma stale_round_witness :
  let h' := @processTTSTask utils providers "hello" 1 1 stale in
  (forall fp text', @sendAudioMessage providers fp text' 1 1 stale = stale) /\
  (exists fp text',
     audioMessagesQueue h' = audioMessagesQueue stale ++ [mkAudioTask fp text' 1 1] /\
     @sendAudioMessage providers fp text' 1 1 h' = h') /\
  talkRound h' = talkRound stale /\
  (exists evs,
     trace h' = trace stale ++ (if @synthesized utils providers (config stale) "hello"
                                then EvToTTS (@RemoveAllEmoji utils "hello") :: evs else []) /\
     Forall (fun e => is_synthesis e = false /\ is_audio e = false) evs).
Proof.
  apply (@stale_round_discarded_at_audio_send utils providers "hello" 1 1 stale).
  discriminate.
Defined.

(** Claim C7 at the failing input.  The client aborts before its first
    utterance (in realtime mode [stopServerSpeak] precedes every
    utterance in the same way), so [serverVoiceStop] is 1; the first
    utterance is a wake-up word.  The task put on the TTS queue has an
    empty text, which is not one of the configured replies, and nothing
    is synthesized; without the stop flag the reply is queued. *)
Lemma quick_reply_blank_after_stop :
  let h0 := @clientAbortChat utils providers fresh in
  let h1 := fst (@handleChatMessage utils providers 10 0%nat "hey miao" h0) in
  serverVoiceStop h0 = 1 /\ talkRound h0 = 0 /\
  QuickReply (config h0) = true /\ IsWakeUpWord (Utils := utils) "hey miao" = true /\
  snd (@handleChatMessage utils providers 10 0%nat "hey miao" h0) = None /\
  talkRound h1 = 1 /\
  ttsQueue h1 = [mkTTSTask "" 1 1] /\
  ~ In ""%string (QuickReplyWords (config h0)) /\
  Forall (fun e => is_synthesis e = false) (trace (@tts_worker utils providers h1)) /\
  ttsQueue (fst (@handleChatMessage utils providers 10 0%nat "hey miao" fresh)) = [mkTTSTask "I am here" 1 1].
Proof.
  vm_compute. repeat split; try reflexivity.
  - intros [H|[H|[]]]; discriminate H.
  - repeat constructor.
Qed.

(** Claim C8 at the failing input.  A segment of 86 characters in 256
    bytes is not passed through unchanged: it is cut to 255 bytes,
    inside its last character, and synthesized so. *)
Lemma truncation_splits_character :
  let t := "a" +:+ repeat_string 84 zhong +:+ bytes_string [228; 184]%N in
  rune_count long_text = 86%nat /\
  String.length long_text = 256%nat /\
  (tts_text <$> ttsQueue (fst (@SpeakAndPlay utils long_text 1 1 fresh))) = [t] /\
  t <> long_text /\
  String.length t = 255%nat /\
  trace (@tts_worker utils providers (fst (@SpeakAndPlay utils long_text 1 1 fresh)))
    = [EvToTTS t].
Proof.
  vm_compute. repeat split; try reflexivity. discriminate.
Qed.

End CoreFacts.

(** ** The UDP audio channel: packets, sessions, the server and the MQTT connection *)

Module UDPMoreFacts.
Import UDPCrypto UDP UDPMore CryptoFacts UDPFacts.

Lemma testbit_255 (n : N) : N.testbit 255 n = (n <? 8).
Proof.
  change 255 with (N.ones 8).
  destruct (N.ltb_spec n 8).
  - now apply N.ones_spec_low.
  - now apply N.ones_spec_high.
Qed.

Lemma be_put_uint32 (v : N) :
  Bytes.be_uint32 (Bytes.put_uint32 v) = v mod 2 ^ 32.
Proof.
  unfold Bytes.be_uint32, Bytes.put_uint32. cbn [nth].
  apply N.bits_inj. intros n.
  rewrite !N.lor_spec.
  destruct (N.ltb_spec n 32) as [Hn|Hn].
  - rewrite N.mod_pow2_bits_low by exact Hn.
    destruct (N.ltb_spec n 8) as [H8|H8].
    { rewrite !N.shiftl_spec_low by lia.
      rewrite N.land_spec, testbit_255.
      destruct (N.ltb_spec n 8); [|lia]. now rewrite andb_true_r, !orb_false_r. }
    destruct (N.ltb_spec n 16) as [H16|H16].
    { rewrite (N.shiftl_spec_high' _ 8 n) by lia.
      rewrite !N.shiftl_spec_low by lia.
      rewrite !N.land_spec, !testbit_255, N.shiftr_spec'.
      destruct (N.ltb_spec n 8); [lia|].
      destruct (N.ltb_spec (n - 8) 8); [|lia].
      rewrite andb_false_r, andb_true_r, !orb_false_r. simpl. f_equal. lia. }
    destruct (N.ltb_spec n 24) as [H24|H24].
    { rewrite (N.shiftl_spec_high' _ 8 n), (N.shiftl_spec_high' _ 16 n) by lia.
      rewrite !N.shiftl_spec_low by lia.
      rewrite !N.land_spec, !testbit_255, !N.shiftr_spec'.
      destruct (N.ltb_spec n 8); [lia|].
      destruct (N.ltb_spec (n - 8) 8); [lia|].
      destruct (N.ltb_spec (n - 16) 8); [|lia].
      rewrite !andb_false_r, andb_true_r, !orb_false_r. simpl. f_equal. lia. }
    rewrite (N.shiftl_spec_high' _ 8 n), (N.shiftl_spec_high' _ 16 n),
      (N.shiftl_spec_high' _ 24 n) by lia.
    rewrite !N.land_spec, !testbit_255, !N.shiftr_spec'.
    destruct (N.ltb_spec n 8); [lia|].
    destruct (N.ltb_spec (n - 8) 8); [lia|].
    destruct (N.ltb_spec (n - 16) 8); [lia|].
    destruct (N.ltb_spec (n - 24) 8); [|lia].
    rewrite !andb_false_r, andb_true_r. simpl. f_equal. lia.
  - rewrite N.mod_pow2_bits_high by exact Hn.
    rewrite (N.shiftl_spec_high' _ 8 n), (N.shiftl_spec_high' _ 16 n),
      (N.shiftl_spec_high' _ 24 n) by lia.
    rewrite !N.land_spec, !testbit_255.
    destruct (N.ltb_spec n 8); [lia|].
    destruct (N.ltb_spec (n - 8) 8); [lia|].
    destruct (N.ltb_spec (n - 16) 8); [lia|].
    destruct (N.ltb_spec (n - 24) 8); [lia|].
    now rewrite !andb_false_r.
Qed.

Lemma be_put_uint16 (v : N) :
  Bytes.be_uint16 (Bytes.put_uint16 v) = v mod 2 ^ 16.
Proof.
  unfold Bytes.be_uint16, Bytes.put_uint16. cbn [nth].
  apply N.bits_inj. intros n.
  rewrite !N.lor_spec.
  destruct (N.ltb_spec n 16) as [Hn|Hn].
  - rewrite N.mod_pow2_bits_low by exact Hn.
    destruct (N.ltb_spec n 8) as [H8|H8].
    { rewrite !N.shiftl_spec_low by lia.
      rewrite N.land_spec, testbit_255.
      destruct (N.ltb_spec n 8); [|lia]. now rewrite andb_true_r, !orb_false_r. }
    rewrite (N.shiftl_spec_high' _ 8 n) by lia.
    rewrite !N.land_spec, !testbit_255, N.shiftr_spec'.
    destruct (N.ltb_spec n 8); [lia|].
    destruct (N.ltb_spec (n - 8) 8); [|lia].
    rewrite andb_false_r, andb_true_r. simpl. f_equal. lia.
  - rewrite N.mod_pow2_bits_high by exact Hn.
    rewrite (N.shiftl_spec_high' _ 8 n) by lia.
    rewrite !N.land_spec, !testbit_255.
    destruct (N.ltb_spec n 8); [lia|].
    destruct (N.ltb_spec (n - 8) 8); [lia|].
    now rewrite !andb_false_r.
Qed.


Lemma BuildFullNonce_length tmpl dataLen seqno :
  length (BuildFullNonce tmpl dataLen seqno) = 16%nat.
Proof. reflexivity. Qed.

Lemma ExtractNonceInfo_built (tmpl : list N) (dataLen seqno : N) (c : list N) :
  ExtractNonceInfo (Bytes.slice 0 16 (BuildFullNonce tmpl dataLen seqno ++ c)) =
  Ok (map (fun i => nth i tmpl 0) (seq 0 4), seqno mod 2 ^ 32, dataLen mod 2 ^ 16).
Proof.
  unfold Bytes.slice. rewrite drop_0. simpl (16 - 0)%nat.
  rewrite take_app_le by (rewrite BuildFullNonce_length; lia).
  rewrite take_ge by (rewrite BuildFullNonce_length; lia).
  unfold ExtractNonceInfo. rewrite BuildFullNonce_length. simpl (_ <? _)%nat. cbv iota.
  rewrite <- be_put_uint32, <- be_put_uint16. reflexivity.
Qed.

(** Property X1.  Round trip of the packet nonce: [ExtractNonceInfo] of
    [BuildFullNonce] gives back the first four bytes of the template as
    connection id, the sequence number reduced to 32 bits and the
    payload length reduced to 16 bits. *)
Theorem nonce_roundtrip (tmpl : list N) (dataLen seqno : N) :
  ExtractNonceInfo (BuildFullNonce tmpl dataLen seqno) =
  Ok (map (fun i => nth i tmpl 0) (seq 0 4), seqno mod 2 ^ 32, dataLen mod 2 ^ 16).
Proof.
  unfold ExtractNonceInfo. rewrite BuildFullNonce_length. simpl (_ <? _)%nat. cbv iota.
  rewrite <- be_put_uint32, <- be_put_uint16. reflexivity.
Qed.

Lemma slice_nonce_app (nonce c : list N) :
  length nonce = 16%nat -> Bytes.slice 0 16 (nonce ++ c) = nonce.
Proof.
  intros H. unfold Bytes.slice. rewrite drop_0. simpl (16 - 0)%nat.
  rewrite take_app_le by lia. apply take_ge. lia.
Qed.

Lemma drop_nonce_app (nonce c : list N) :
  length nonce = 16%nat -> drop 16 (nonce ++ c) = c.
Proof. intros H. rewrite <- H. apply drop_app_length. Qed.

Lemma set_LocalSeq_fields v s :
  Status (set_LocalSeq v s) = Status s /\ AESKey (set_LocalSeq v s) = AESKey s /\
  Nonce (set_LocalSeq v s) = Nonce s /\ LocalSeq (set_LocalSeq v s) = v.
Proof. now destruct s. Qed.

(** What [Encrypt] returns for an active session with a 16-byte key. *)
Lemma Encrypt_ok (now : Z) (s : UDPSession) (data : list N) :
  Status s = "active"%string ->
  length (AESKey s) = 16%nat ->
  let nonce := BuildFullNonce (Nonce s) (N.of_nat (length data)) (uint32_succ (LocalSeq s)) in
  exists c,
    Encrypt now s data =
      (set_LastActive now (set_LocalSeq (uint32_succ (LocalSeq s)) s), Ok (nonce ++ c)) /\
    DecryptAESCTR nonce (AESKey s) c = Ok data /\
    length c = length data.
Proof.
  intros Hst Hk nonce.
  destruct (EncryptAESCTR_ok nonce (AESKey s) data) as (blk & Hb & E);
    [reflexivity | exact Hk |].
  exists (CTR.XORKeyStream blk nonce data). split; [|split].
  - unfold Encrypt. rewrite Hst. simpl (negb _). cbv iota.
    unfold generateNonce. destruct s; simpl in *. fold nonce. now rewrite E.
  - unfold DecryptAESCTR.
    destruct (EncryptAESCTR_ok nonce (AESKey s) (CTR.XORKeyStream blk nonce data))
      as (blk' & Hb' & E'); [reflexivity | exact Hk |].
    rewrite Hb in Hb'. injection Hb' as <-.
    now rewrite E', XORKeyStream_involutive.
  - apply XORKeyStream_length.
Qed.

Lemma uint32_succ_lt n : uint32_succ n < 2 ^ 32.
Proof. unfold uint32_succ. apply N.mod_lt. discriminate. Qed.

Lemma packet_seq_app nonce c :
  length nonce = 16%nat -> packet_seq (nonce ++ c) = Bytes.be_uint32 (Bytes.slice 12 16 nonce).
Proof.
  intros H. unfold packet_seq.
  rewrite <- (slice_of_nonce 12 16 (nonce ++ c)) by lia.
  now rewrite slice_nonce_app.
Qed.

Lemma packet_seq_built tmpl dataLen seqno c :
  packet_seq (BuildFullNonce tmpl dataLen seqno ++ c) = seqno mod 2 ^ 32.
Proof.
  rewrite packet_seq_app by reflexivity.
  pose proof (ExtractNonceInfo_built tmpl dataLen seqno []) as H.
  rewrite app_nil_r in H. unfold Bytes.slice at 1 in H.
  rewrite drop_0, take_ge in H by (rewrite BuildFullNonce_length; lia).
  unfold ExtractNonceInfo in H. rewrite BuildFullNonce_length in H.
  simpl (_ <? _)%nat in H. cbv iota in H. now injection H.
Qed.

(** How [Decrypt] treats a packet built as [nonce ++ c] by a peer. *)
Lemma Decrypt_built (now : Z) (r : UDPSession) tmpl dataLen seqno (c : list N) :
  Status r = "active"%string ->
  Decrypt now r (BuildFullNonce tmpl dataLen seqno ++ c) =
  let nonce := BuildFullNonce tmpl dataLen seqno in
  if negb (dataLen mod 2 ^ 16 =? N.of_nat (length c))
  then (r, Err (ErrLengthMismatch (dataLen mod 2 ^ 16) (length c)))
  else if (0 <? RemoteSeq r) && (seqno mod 2 ^ 32 <? RemoteSeq r)
  then (r, Err (ErrSeqInvalid (RemoteSeq r) (seqno mod 2 ^ 32)))
  else
    match DecryptAESCTR nonce (AESKey r) c with
    | Err e => (set_RemoteSeq (seqno mod 2 ^ 32) r, Err (ErrDecrypt e))
    | Ok d => (set_LastActive now (set_RemoteSeq (seqno mod 2 ^ 32) r), Ok d)
    end.
Proof.
  intros Hst. unfold Decrypt.
  rewrite length_app, BuildFullNonce_length.
  destruct (Nat.ltb_spec (16 + length c) 16); [lia|].
  rewrite Hst. simpl (negb _). cbv iota.
  rewrite ExtractNonceInfo_built.
  rewrite slice_nonce_app, drop_nonce_app by reflexivity.
  cbv zeta. reflexivity.
Qed.

(** Property X2.  Two sessions that share a 16-byte key, both active: a payload
    of fewer than 65536 bytes that one of them encrypts is a packet 16
    bytes longer, carrying the next local sequence number, and the other
    one decrypts it to the same payload and stores that sequence number,
    provided its stored number is 0 or not above it. *)
Theorem encrypt_decrypt_roundtrip (t1 t2 : Z) (s r : UDPSession) (data : list N) :
  Status s = "active"%string ->
  Status r = "active"%string ->
  AESKey r = AESKey s ->
  length (AESKey s) = 16%nat ->
  N.of_nat (length data) < 65536 ->
  RemoteSeq r = 0 \/ RemoteSeq r <= uint32_succ (LocalSeq s) ->
  exists s' packet,
    Encrypt t1 s data = (s', Ok packet) /\
    LocalSeq s' = uint32_succ (LocalSeq s) /\
    length packet = (16 + length data)%nat /\
    Decrypt t2 r packet =
      (set_LastActive t2 (set_RemoteSeq (LocalSeq s') r), Ok data).
Proof.
  intros Hs Hr Hk Hk16 Hlen Hseq.
  destruct (Encrypt_ok t1 s data Hs Hk16) as (c & E & D & L).
  eexists _, _. split; [exact E|].
  split; [now destruct s|].
  split; [now rewrite length_app, BuildFullNonce_length, L|].
  rewrite (Decrypt_built t2 r _ _ _ c Hr). cbv zeta.
  pose proof (uint32_succ_lt (LocalSeq s)) as Hlt.
  rewrite (N.mod_small (uint32_succ (LocalSeq s))) by exact Hlt.
  rewrite N.mod_small by (change (2 ^ 16) with 65536; lia).
  rewrite L, N.eqb_refl. simpl (negb _). cbv iota.
  assert ((0 <? RemoteSeq r) && (uint32_succ (LocalSeq s) <? RemoteSeq r) = false) as ->.
  { destruct (N.ltb_spec 0 (RemoteSeq r)); simpl; [|reflexivity].
    destruct (N.ltb_spec (uint32_succ (LocalSeq s)) (RemoteSeq r)); [lia | reflexivity]. }
  rewrite Hk, D. now destruct s.
Qed.

Lemma encrypt_decrypt_witness :
  exists s' packet,
    Encrypt 1 Samples.session0 Samples.payload = (s', Ok packet) /\
    LocalSeq s' = uint32_succ (LocalSeq Samples.session0) /\
    length packet = (16 + length Samples.payload)%nat /\
    Decrypt 2 Samples.session0 packet =
      (set_LastActive 2 (set_RemoteSeq (LocalSeq s') Samples.session0), Ok Samples.payload).
Proof.
  apply (encrypt_decrypt_roundtrip 1 2 Samples.session0 Samples.session0 Samples.payload).
  - reflexivity.
  - reflexivity.
  - reflexivity.
  - reflexivity.
  - reflexivity.
  - left. reflexivity.
Defined.

(** Property X3.  A payload of 65536 bytes or more is encrypted without an
    error, but its length does not fit the 16-bit field of the nonce:
    every active receiver refuses the packet with a length mismatch and
    stays as it was. *)
Theorem oversized_payload_rejected (t1 t2 : Z) (s r : UDPSession) (data : list N) :
  Status s = "active"%string ->
  Status r = "active"%string ->
  length (AESKey s) = 16%nat ->
  65536 <= N.of_nat (length data) ->
  exists s' packet e a,
    Encrypt t1 s data = (s', Ok packet) /\
    Decrypt t2 r packet = (r, Err (ErrLengthMismatch e a)).
Proof.
  intros Hs Hr Hk16 Hlen.
  destruct (Encrypt_ok t1 s data Hs Hk16) as (c & E & D & L).
  eexists _, _, _, _. split; [exact E|].
  rewrite (Decrypt_built t2 r _ _ _ c Hr). cbv zeta.
  destruct (N.eqb_spec (N.of_nat (length data) mod 2 ^ 16) (N.of_nat (length c))) as [Heq|Hne].
  - exfalso. pose proof (N.mod_lt (N.of_nat (length data)) (2 ^ 16)) as Hm.
    change (2 ^ 16) with 65536 in *. lia.
  - reflexivity.
Qed.

Lemma oversized_payload_witness :
  exists s' packet e a,
    Encrypt 1 Samples.session0 (repeat 0 (N.to_nat 65536)) = (s', Ok packet) /\
    Decrypt 2 Samples.session0 packet = (Samples.session0, Err (ErrLengthMismatch e a)).
Proof.
  apply (oversized_payload_rejected 1 2 Samples.session0 Samples.session0
           (repeat 0 (N.to_nat 65536))).
  - reflexivity.
  - reflexivity.
  - reflexivity.
  - vm_compute. discriminate.
Defined.

(** Property X4.  The local sequence number wraps around: after 2^32 - 1 the
    next packet carries sequence number 0, which a receiver that has
    already stored a positive number refuses as out of date. *)
Theorem sequence_wraps_to_zero (t1 t2 : Z) (s r : UDPSession) (data : list N) :
  Status s = "active"%string ->
  Status r = "active"%string ->
  length (AESKey s) = 16%nat ->
  N.of_nat (length data) < 65536 ->
  LocalSeq s = 2 ^ 32 - 1 ->
  0 < RemoteSeq r ->
  exists s' packet,
    Encrypt t1 s data = (s', Ok packet) /\
    LocalSeq s' = 0 /\ packet_seq packet = 0 /\
    Decrypt t2 r packet = (r, Err (ErrSeqInvalid (RemoteSeq r) 0)).
Proof.
  intros Hs Hr Hk16 Hlen Hmax Hpos.
  destruct (Encrypt_ok t1 s data Hs Hk16) as (c & E & D & L).
  assert (uint32_succ (LocalSeq s) = 0) as Hz by (rewrite Hmax; reflexivity).
  eexists _, _. split; [exact E|].
  split; [destruct s; simpl in *; exact Hz|].
  split; [rewrite packet_seq_built, Hz; reflexivity|].
  rewrite (Decrypt_built t2 r _ _ _ c Hr). cbv zeta. rewrite Hz.
  rewrite N.mod_small by (change (2 ^ 16) with 65536; lia).
  rewrite L, N.eqb_refl. simpl (negb _). cbv iota.
  change (0 mod 2 ^ 32) with 0.
  destruct (N.ltb_spec 0 (RemoteSeq r)); [|lia]. reflexivity.
Qed.


Lemma sequence_wraps_witness :
  exists s' packet,
    Encrypt 1 (set_LocalSeq (2 ^ 32 - 1) Samples.session0) Samples.payload = (s', Ok packet) /\
    LocalSeq s' = 0 /\ packet_seq packet = 0 /\
    Decrypt 2 (set_RemoteSeq 5 Samples.session0) packet =
      (set_RemoteSeq 5 Samples.session0,
       Err (ErrSeqInvalid (RemoteSeq (set_RemoteSeq 5 Samples.session0)) 0)).
Proof.
  apply (sequence_wraps_to_zero 1 2 (set_LocalSeq (2 ^ 32 - 1) Samples.session0)
           (set_RemoteSeq 5 Samples.session0) Samples.payload).
  - reflexivity.
  - reflexivity.
  - reflexivity.
  - reflexivity.
  - reflexivity.
  - reflexivity.
Defined.

Lemma Destroy_closed s : Status (Destroy s) = "closed"%string.
Proof.
  unfold Destroy. destruct (String.eqb_spec (Status s) "closed") as [E|E].
  - exact E.
  - now destruct s.
Qed.

(** Property X5.  A destroyed session is closed for good: destroying it again
    changes nothing, and [Encrypt], [Decrypt], [RecvData] and
    [SendAudioData] all return an error and leave it unchanged. *)
Theorem destroyed_session_refuses (now : Z) (s : UDPSession) (data packet : list N) :
  let d := Destroy s in
  Destroy d = d /\ IsActive d = false /\
  Encrypt now d data = (d, Err ErrSessionClosed) /\
  fst (Decrypt now d packet) = d /\ is_err (snd (Decrypt now d packet)) = true /\
  RecvData d data = (d, Err ErrSessionClosed) /\
  SendAudioData d data = (d, Err ErrSessionClosed).
Proof.
  intros d. pose proof (Destroy_closed s) as Hc. fold d in Hc.
  repeat split.
  - unfold Destroy at 1. now rewrite Hc.
  - unfold IsActive. now rewrite Hc.
  - unfold Encrypt. now rewrite Hc.
  - unfold Decrypt. rewrite Hc. now destruct (length packet <? 16)%nat.
  - unfold Decrypt. rewrite Hc. now destruct (length packet <? 16)%nat.
  - unfold RecvData. now rewrite Hc.
  - unfold SendAudioData. now rewrite Hc.
Qed.

Lemma EncryptAESCTR_length nonce k src d :
  EncryptAESCTR nonce k src = Ok d -> length d = length src.
Proof.
  unfold EncryptAESCTR.
  destruct (negb _); [discriminate|]. destruct (negb _); [discriminate|].
  destruct (AES.NewCipher k); [|discriminate].
  intros [= <-]. apply XORKeyStream_length.
Qed.

(** What an accepted packet looks like, and what comes out. *)
Lemma Decrypt_ok_inv (now : Z) (s s' : UDPSession) (packet d : list N) :
  Decrypt now s packet = (s', Ok d) ->
  (16 <= length packet)%nat /\ Status s = "active"%string /\
  Bytes.be_uint16 (Bytes.slice 2 4 packet) = N.of_nat (length d) /\
  (length d + 16 = length packet)%nat /\
  (RemoteSeq s = 0 \/ RemoteSeq s <= packet_seq packet) /\
  s' = set_LastActive now (set_RemoteSeq (packet_seq packet) s).
Proof.
  unfold Decrypt.
  destruct (Nat.ltb_spec (length packet) 16) as [|Hlen]; [discriminate|].
  destruct (String.eqb_spec (Status s) "active") as [Hst|]; [|discriminate].
  simpl (negb _). cbv iota.
  rewrite ExtractNonceInfo_packet by exact Hlen.
  destruct (N.eqb_spec (Bytes.be_uint16 (Bytes.slice 2 4 packet))
              (N.of_nat (length (drop 16 packet)))) as [Hl|]; [|discriminate].
  simpl (negb _). cbv iota.
  destruct ((0 <? RemoteSeq s) && (packet_seq packet <? RemoteSeq s)) eqn:Hseq;
    [discriminate|].
  cbv zeta. unfold DecryptAESCTR.
  destruct (EncryptAESCTR _ _ _) as [d'|] eqn:E; [|discriminate].
  intros [= <- <-]. apply EncryptAESCTR_length in E.
  rewrite length_drop in E, Hl.
  repeat split; try assumption; try lia.
  apply andb_false_iff in Hseq as [H|H].
  - left. apply N.ltb_ge in H. lia.
  - right. now apply N.ltb_ge in H.
Qed.

(** Property X6.  For a session with a 16-byte key [Decrypt] accepts a packet
    exactly when it has at least 16 bytes, the session is active, the
    length field of the nonce equals the number of bytes after the
    nonce, and the stored sequence number is 0 or not above the packet's.
    The content of the packet plays no part. *)
Theorem packet_acceptance_criterion (now : Z) (s : UDPSession) (packet : list N) :
  length (AESKey s) = 16%nat ->
  is_ok (snd (Decrypt now s packet)) = true <->
  (16 <= length packet)%nat /\ Status s = "active"%string /\
  Bytes.be_uint16 (Bytes.slice 2 4 packet) = N.of_nat (length packet - 16) /\
  (RemoteSeq s = 0 \/ RemoteSeq s <= packet_seq packet).
Proof.
  intros Hk. split.
  - destruct (Decrypt now s packet) as [s' [d|e]] eqn:E; [|discriminate].
    intros _. apply Decrypt_ok_inv in E as (H1 & H2 & H3 & H4 & H5 & _).
    repeat split; try assumption. rewrite H3. f_equal. lia.
  - intros (Hlen & Hst & Hl & Hseq). unfold Decrypt.
    destruct (Nat.ltb_spec (length packet) 16); [lia|].
    rewrite Hst. simpl (negb _). cbv iota.
    rewrite ExtractNonceInfo_packet by exact Hlen.
    rewrite Hl, length_drop, N.eqb_refl. simpl (negb _). cbv iota.
    assert ((0 <? RemoteSeq s) && (packet_seq packet <? RemoteSeq s) = false) as ->.
    { destruct (N.ltb_spec 0 (RemoteSeq s)); simpl; [|reflexivity].
      destruct (N.ltb_spec (packet_seq packet) (RemoteSeq s)); [lia | reflexivity]. }
    cbv zeta.
    destruct (EncryptAESCTR_ok (Bytes.slice 0 16 packet) (AESKey s) (drop 16 packet))
      as (c & _ & E); [now apply nonce_length | exact Hk |].
    unfold DecryptAESCTR.
    replace (AESKey (set_RemoteSeq (packet_seq packet) s)) with (AESKey s) by now destruct s.
    now rewrite E.
Qed.

Lemma packet_acceptance_witness :
  is_ok (snd (Decrypt 5 Samples.session0 (Samples.packet 1))) = true <->
  (16 <= length (Samples.packet 1))%nat /\ Status Samples.session0 = "active"%string /\
  Bytes.be_uint16 (Bytes.slice 2 4 (Samples.packet 1)) =
    N.of_nat (length (Samples.packet 1) - 16) /\
  (RemoteSeq Samples.session0 = 0 \/ RemoteSeq Samples.session0 <= packet_seq (Samples.packet 1)).
Proof. apply (packet_acceptance_criterion 5 Samples.session0 (Samples.packet 1)). reflexivity. Defined.

Lemma nth0_slice16 (data : list N) :
  (16 <= length data)%nat -> nth 0 (Bytes.slice 0 16 data) 0 = nth 0 data 0.
Proof. destruct data; simpl; [lia | reflexivity]. Qed.

(** Property X7.  The second length check of [processPacket], after [Decrypt]
    has succeeded, never fails: no packet is dropped for that reason. *)
Theorem length_recheck_never_fails (now : Z) (srv : UDPServer) (addr : string)
    (data : list N) :
  is_drop_length (snd (processPacket now srv addr data)) = false.
Proof.
  unfold processPacket.
  destruct (Nat.ltb_spec (length data) 16) as [|Hlen]; [reflexivity|].
  destruct (negb _).
  { destruct (isHealthCheckPacket data); reflexivity. }
  rewrite ExtractNonceInfo_packet by exact Hlen.
  destruct (nonce2Session srv !! _) as [s|]; [|reflexivity].
  destruct (learn_addr _ _ _ _) as [srv1 s1].
  destruct (Decrypt now s1 data) as [s2 [d|e]] eqn:E; [|reflexivity].
  apply Decrypt_ok_inv in E as (_ & _ & Hl & _).
  rewrite Hl, N.eqb_refl. simpl (negb _). cbv iota.
  destruct (RecvData _ _) as [s4 [u|e]]; reflexivity.
Qed.

Lemma RecvData_bounded s d :
  (length (RecvChannel s) <= chan_cap)%nat ->
  (length (RecvChannel (fst (RecvData s d))) <= chan_cap)%nat.
Proof.
  intros H. unfold RecvData. destruct (negb _); [exact H|].
  destruct (Nat.ltb_spec (length (RecvChannel s)) chan_cap); [|exact H].
  destruct s; simpl in *. rewrite length_app. simpl. lia.
Qed.

Lemma Decrypt_RecvChannel now s packet :
  RecvChannel (fst (Decrypt now s packet)) = RecvChannel s.
Proof.
  unfold Decrypt.
  destruct (length packet <? 16)%nat; [reflexivity|].
  destruct (negb _); [reflexivity|].
  destruct (ExtractNonceInfo _) as [[[c sq] dl]|e]; [|reflexivity].
  destruct (negb _); [reflexivity|].
  destruct (_ && _); [reflexivity|].
  cbv zeta. destruct (DecryptAESCTR _ _ _); now destruct s.
Qed.

Lemma Decrypt_RemoteAddr now s packet :
  RemoteAddr (fst (Decrypt now s packet)) = RemoteAddr s.
Proof.
  unfold Decrypt.
  destruct (length packet <? 16)%nat; [reflexivity|].
  destruct (negb _); [reflexivity|].
  destruct (ExtractNonceInfo _) as [[[c sq] dl]|e]; [|reflexivity].
  destruct (negb _); [reflexivity|].
  destruct (_ && _); [reflexivity|].
  cbv zeta. destruct (DecryptAESCTR _ _ _); now destruct s.
Qed.

Lemma RecvData_RemoteAddr s d : RemoteAddr (fst (RecvData s d)) = RemoteAddr s.
Proof.
  unfold RecvData. destruct (negb _); [reflexivity|].
  destruct (_ <? _)%nat; now destruct s.
Qed.

(** The shape of [processPacket] on a packet with a well-formed header
    that names a known session. *)
Lemma processPacket_known now srv addr data s :
  (16 <= length data)%nat ->
  nth 0 data 0 = 1 ->
  nonce2Session srv !! Bytes.hex_encode (Bytes.slice 4 8 data) = Some s ->
  let connID := Bytes.hex_encode (Bytes.slice 4 8 data) in
  let srv1 := fst (learn_addr srv connID addr s) in
  let s1 := snd (learn_addr srv connID addr s) in
  exists s',
    fst (processPacket now srv addr data) = store_session srv1 connID s' /\
    RemoteAddr s' = RemoteAddr s1 /\
    ((length (RecvChannel s1) <= chan_cap)%nat ->
     (length (RecvChannel s') <= chan_cap)%nat).
Proof.
  intros Hlen H1 Hs connID srv1 s1. subst connID srv1 s1. unfold processPacket.
  destruct (Nat.ltb_spec (length data) 16); [lia|].
  rewrite nth0_slice16, H1 by exact Hlen. simpl (negb _). cbv iota.
  rewrite ExtractNonceInfo_packet by exact Hlen. rewrite Hs.
  destruct (learn_addr srv _ addr s) as [srv1' s1'] eqn:El.
  simpl fst. simpl snd.
  pose proof (Decrypt_RecvChannel now s1' data) as Hrc.
  pose proof (Decrypt_RemoteAddr now s1' data) as Hra.
  destruct (Decrypt now s1' data) as [s2 [d|e]]; simpl in Hrc, Hra.
  - destruct (negb _).
    + exists s2. simpl. split; [reflexivity|]. split; [exact Hra | now rewrite Hrc].
    + cbv zeta.
      match goal with |- context [RecvData ?x ?y] =>
        pose proof (RecvData_bounded x y) as Hb;
        pose proof (RecvData_RemoteAddr x y) as Hr2;
        destruct (RecvData x y) as [s4 [u|e]] end;
      simpl in Hb, Hr2; exists s4; simpl;
      (split; [reflexivity|]); (split; [now rewrite Hr2 | intros Hc; apply Hb; now rewrite Hrc]).
  - exists s2. simpl. split; [reflexivity|]. split; [exact Hra | now rewrite Hrc].
Qed.

(** Everything else leaves the server as it was. *)
Lemma processPacket_unknown now srv addr data :
  (length data < 16)%nat \/ nth 0 data 0 <> 1 \/
  nonce2Session srv !! Bytes.hex_encode (Bytes.slice 4 8 data) = None ->
  fst (processPacket now srv addr data) = srv.
Proof.
  intros H. unfold processPacket.
  destruct (Nat.ltb_spec (length data) 16) as [|Hlen]; [reflexivity|].
  rewrite nth0_slice16 by exact Hlen.
  destruct (N.eqb_spec (nth 0 data 0) 1) as [H1|H1]; simpl (negb _); cbv iota.
  - rewrite ExtractNonceInfo_packet by exact Hlen.
    destruct H as [H|[H|H]]; [lia | congruence |]. now rewrite H.
  - now destruct (isHealthCheckPacket data).
Qed.

Lemma learn_addr_nonce2Session srv cid addr s :
  nonce2Session (fst (learn_addr srv cid addr s)) = nonce2Session srv.
Proof.
  unfold learn_addr. destruct (RemoteAddr s) as [old|]; [|reflexivity].
  now destruct (old =? addr)%string.
Qed.

Lemma processPacket_cases now srv addr data :
  fst (processPacket now srv addr data) = srv \/
  exists s,
    (16 <= length data)%nat /\ nth 0 data 0 = 1 /\
    nonce2Session srv !! Bytes.hex_encode (Bytes.slice 4 8 data) = Some s.
Proof.
  destruct (Nat.ltb_spec (length data) 16) as [|Hlen].
  { left. apply processPacket_unknown. now left. }
  destruct (N.eq_dec (nth 0 data 0) 1) as [H1|H1].
  2: { left. apply processPacket_unknown. right. now left. }
  destruct (nonce2Session srv !! Bytes.hex_encode (Bytes.slice 4 8 data)) as [s|] eqn:Hs.
  - right. eauto.
  - left. apply processPacket_unknown. right. now right.
Qed.

Lemma processPacket_bounded now srv addr data :
  channels_bounded srv -> channels_bounded (fst (processPacket now srv addr data)).
Proof.
  intros Hb. destruct (processPacket_cases now srv addr data) as [->|(s & Hlen & H1 & Hs)];
    [exact Hb|].
  destruct (processPacket_known now srv addr data s Hlen H1 Hs) as (s' & -> & _ & Hc).
  unfold channels_bounded, store_session. simpl.
  rewrite learn_addr_nonce2Session.
  apply map_Forall_insert_2; [|exact Hb].
  apply Hc.
  destruct (learn_addr_session srv (Bytes.hex_encode (Bytes.slice 4 8 data)) addr s)
    as (_ & -> & _).
  exact (Hb _ _ Hs).
Qed.

(** Property X8.  Whatever datagrams arrive, no receive channel ever holds
    more than its capacity of 100 buffers. *)
Theorem recv_channel_never_overflows (srv : UDPServer) (pkts : list (Z * string * list N)) :
  channels_bounded srv -> channels_bounded (handlePackets srv pkts).
Proof.
  unfold handlePackets. revert srv.
  induction pkts as [|p pkts IH]; intros srv Hb; simpl; [exact Hb|].
  apply IH. now apply processPacket_bounded.
Qed.

Lemma recv_channel_witness :
  channels_bounded (handlePackets Samples.server0 [(1%Z, "10.0.0.7:4000"%string, Samples.packet 1)]).
Proof.
  apply (recv_channel_never_overflows Samples.server0).
  unfold channels_bounded, Samples.server0. simpl.
  apply map_Forall_singleton. simpl. unfold chan_cap. lia.
Defined.

(** Property X9.  A datagram changes at most the session its nonce names:
    every other entry of [nonce2Session] is left as it was. *)
Theorem other_sessions_untouched (now : Z) (srv : UDPServer) (addr : string)
    (data : list N) (cid : string) :
  cid <> Bytes.hex_encode (Bytes.slice 4 8 data) ->
  nonce2Session (fst (processPacket now srv addr data)) !! cid = nonce2Session srv !! cid.
Proof.
  intros Hne. destruct (processPacket_cases now srv addr data) as [->|(s & Hlen & H1 & Hs)];
    [reflexivity|].
  destruct (processPacket_known now srv addr data s Hlen H1 Hs) as (s' & -> & _).
  unfold store_session. simpl.
  rewrite lookup_insert_ne by congruence.
  now rewrite learn_addr_nonce2Session.
Qed.

Lemma other_sessions_witness :
  nonce2Session (fst (processPacket 1 Samples.server0 "10.0.0.7:4000" (Samples.packet 1)))
    !! "0badcafe"%string = nonce2Session Samples.server0 !! "0badcafe"%string.
Proof.
  apply (other_sessions_untouched 1 Samples.server0 "10.0.0.7:4000" (Samples.packet 1)).
  vm_compute. discriminate.
Defined.

(** Property X10.  Every datagram with a well-formed header that names a
    known session rebinds the session to the sender's address before it
    is decrypted, and whether or not it is then accepted: afterwards the
    session's address is the sender's.  When the session had no address
    or another one, [addr2Session] gets the entry of the sender for this
    session and loses the entry of the older address.  When the session
    already had the sender's address, [addr2Session] is left as it is:
    it then maps the sender to this session only if it did so before. *)
Theorem address_follows_any_packet (now : Z) (srv : UDPServer) (addr : string)
    (data : list N) (s : UDPSession) :
  (16 <= length data)%nat ->
  nth 0 data 0 = 1 ->
  nonce2Session srv !! Bytes.hex_encode (Bytes.slice 4 8 data) = Some s ->
  let connID := Bytes.hex_encode (Bytes.slice 4 8 data) in
  let srv' := fst (processPacket now srv addr data) in
  exists s',
    nonce2Session srv' !! connID = Some s' /\
    RemoteAddr s' = Some addr /\
    addr2Session srv' =
      (if bool_decide (RemoteAddr s = Some addr) then addr2Session srv
       else <[addr := connID]>
              (match RemoteAddr s with
               | Some old => delete old (addr2Session srv)
               | None => addr2Session srv
               end)) /\
    (RemoteAddr s <> Some addr -> addr2Session srv' !! addr = Some connID) /\
    (forall old, RemoteAddr s = Some old -> old <> addr ->
                 addr2Session srv' !! old = None).
Proof.
  intros Hlen H1 Hs connID srv'.
  destruct (processPacket_known now srv addr data s Hlen H1 Hs) as (s' & E & Ha & _).
  fold connID in E, Ha. subst srv'. rewrite E. exists s'.
  unfold store_session. simpl.
  split; [apply lookup_insert_eq|].
  unfold learn_addr in *. destruct (RemoteAddr s) as [old|] eqn:Hold.
  - destruct (String.eqb_spec old addr) as [->|Hne]; cbn [fst snd addr2Session] in *.
    + case_bool_decide; [|congruence].
      split; [now rewrite Ha|]. split; [reflexivity|].
      split; [congruence|]. intros o [= <-] Ho. congruence.
    + case_bool_decide; [congruence|].
      split; [exact Ha|]. split; [reflexivity|].
      split; [intros _; apply lookup_insert_eq|].
      intros o [= <-] _. rewrite lookup_insert_ne by congruence. apply lookup_delete_eq.
  - cbn [fst snd addr2Session] in *. case_bool_decide; [congruence|].
    split; [exact Ha|]. split; [reflexivity|].
    split; [intros _; apply lookup_insert_eq | discriminate].
Qed.

Lemma address_follows_witness :
  let forged := [1; 0; 0; 0; 0xde; 0xad; 0xbe; 0xef; 0; 0; 0; 0; 0; 0; 0; 0] in
  let connID := Bytes.hex_encode (Bytes.slice 4 8 forged) in
  let srv' := fst (processPacket 1 Samples.server0 "203.0.113.9:9" forged) in
  exists s',
    nonce2Session srv' !! connID = Some s' /\
    RemoteAddr s' = Some "203.0.113.9:9"%string /\
    addr2Session srv' =
      (if bool_decide (RemoteAddr Samples.session0 = Some "203.0.113.9:9"%string)
       then addr2Session Samples.server0
       else <["203.0.113.9:9"%string := connID]>
              (match RemoteAddr Samples.session0 with
               | Some old => delete old (addr2Session Samples.server0)
               | None => addr2Session Samples.server0
               end)) /\
    (RemoteAddr Samples.session0 <> Some "203.0.113.9:9"%string ->
     addr2Session srv' !! "203.0.113.9:9"%string = Some connID) /\
    (forall old, RemoteAddr Samples.session0 = Some old -> old <> "203.0.113.9:9"%string ->
                 addr2Session srv' !! old = None).
Proof.
  apply (address_follows_any_packet 1 Samples.server0 "203.0.113.9:9" _ Samples.session0).
  - simpl. lia.
  - reflexivity.
  - reflexivity.
Defined.

(** Two sessions behind one address: A and B both send from X, B moves
    to Y, which deletes the entry of X; A sends from X again.  A still
    has address X, and [addr2Session] has no entry for X. *)
Example shared_address_entry_lost :
  let tmplB := [0x0b; 0xad; 0xca; 0xfe; 0x65; 0x43; 0x21; 0x00] in
  let sessionB :=
    mkUDPSession "watch:s2" "0badcafe" "watch" "s2" Samples.key tmplB None 0 0 [] [] 0 0
      "active" in
  let srv0 := mkUDPServer {[ "deadbeef"%string := Samples.session0;
                             "0badcafe"%string := sessionB ]} ∅ in
  let pktA n := client_packet Samples.key Samples.tmpl n Samples.payload in
  let pktB n := client_packet Samples.key tmplB n Samples.payload in
  let srv := handlePackets srv0
               [(1%Z, "X"%string, pktA 1); (2%Z, "X"%string, pktB 1);
                (3%Z, "Y"%string, pktB 2); (4%Z, "X"%string, pktA 2)] in
  (RemoteAddr <$> nonce2Session srv !! "deadbeef"%string) = Some (Some "X"%string) /\
  (length <$> (RecvChannel <$> nonce2Session srv !! "deadbeef"%string)) = Some 2%nat /\
  addr2Session srv !! "X"%string = None /\
  addr2Session srv !! "Y"%string = Some "0badcafe"%string.
Proof. vm_compute. repeat split; reflexivity. Qed.

Lemma EncryptAESCTR_inverse nonce key data :
  length nonce = 16%nat -> length key = 16%nat ->
  exists c, EncryptAESCTR nonce key data = Ok c /\
            DecryptAESCTR nonce key c = Ok data /\
            length c = length data.
Proof.
  intros Hn Hk.
  destruct (EncryptAESCTR_ok nonce key data Hn Hk) as (blk & Hb & E).
  exists (CTR.XORKeyStream blk nonce data). split; [exact E|]. split.
  - unfold DecryptAESCTR.
    destruct (EncryptAESCTR_ok nonce key (CTR.XORKeyStream blk nonce data) Hn Hk)
      as (blk' & Hb' & E').
    rewrite Hb in Hb'. injection Hb' as <-.
    now rewrite E', XORKeyStream_involutive.
  - apply XORKeyStream_length.
Qed.

Lemma client_packet_shape key tmpl seqno payload :
  length key = 16%nat ->
  exists c,
    client_packet key tmpl seqno payload =
      BuildFullNonce tmpl (N.of_nat (length payload)) seqno ++ c /\
    DecryptAESCTR (BuildFullNonce tmpl (N.of_nat (length payload)) seqno) key c = Ok payload /\
    length c = length payload.
Proof.
  intros Hk.
  destruct (EncryptAESCTR_inverse (BuildFullNonce tmpl (N.of_nat (length payload)) seqno)
              key payload) as (c & E & D & L); [reflexivity | exact Hk |].
  exists c. unfold client_packet. now rewrite E.
Qed.

Lemma slice_4_8_built tmpl dataLen seqno c :
  Bytes.slice 4 8 (BuildFullNonce tmpl dataLen seqno ++ c) =
  map (fun i => nth i tmpl 0) (seq 0 4).
Proof.
  rewrite <- (slice_of_nonce 4 8) by lia. now rewrite slice_nonce_app.
Qed.

(** A packet of the device for a session that can take it. *)
Lemma processPacket_delivers (t : Z) (srv : UDPServer) (addr : string)
    (s : UDPSession) (seqno : N) (payload : list N) :
  let connID := Bytes.hex_encode (map (fun i => nth i (Nonce s) 0) (seq 0 4)) in
  let audio := if (16 <=? length payload)%nat && (nth 0 payload 0 =? 1)
               then drop 16 payload else payload in
  nonce2Session srv !! connID = Some s ->
  Status s = "active"%string ->
  length (AESKey s) = 16%nat ->
  N.of_nat (length payload) < 65536 ->
  RemoteSeq s = 0 \/ RemoteSeq s <= seqno mod 2 ^ 32 ->
  (length (RecvChannel s) < chan_cap)%nat ->
  exists s',
    processPacket t srv addr (client_packet (AESKey s) (Nonce s) seqno payload) =
      (store_session (fst (learn_addr srv connID addr s)) connID s', Delivered audio) /\
    RecvChannel s' = RecvChannel s ++ [audio] /\
    RemoteSeq s' = seqno mod 2 ^ 32 /\
    LastActive s' = t.
Proof.
  intros connID audio Hs Hst Hk Hlen Hseq Hroom.
  destruct (client_packet_shape (AESKey s) (Nonce s) seqno payload Hk) as (c & -> & D & L).
  unfold processPacket.
  rewrite length_app, BuildFullNonce_length.
  destruct (Nat.ltb_spec (16 + length c) 16); [lia|].
  rewrite ExtractNonceInfo_built.
  rewrite slice_nonce_app by reflexivity.
  change (nth 0 (BuildFullNonce _ _ _) 0) with 1. simpl (negb _). cbv iota.
  fold connID. rewrite Hs.
  destruct (learn_addr srv connID addr s) as [srv1 s1] eqn:El.
  pose proof (learn_addr_session srv connID addr s) as Hl.
  rewrite El in Hl. simpl in Hl. destruct Hl as (Hr & Hc & Hk1 & Hst1 & _).
  rewrite Hst in Hst1.
  rewrite (Decrypt_built t s1 _ _ _ c Hst1). cbv zeta.
  rewrite N.mod_small by (change (2 ^ 16) with 65536; lia).
  rewrite L, N.eqb_refl. simpl (negb _). cbv iota.
  assert ((0 <? RemoteSeq s1) && (seqno mod 2 ^ 32 <? RemoteSeq s1) = false) as ->.
  { rewrite Hr. destruct (N.ltb_spec 0 (RemoteSeq s)); simpl; [|reflexivity].
    destruct (N.ltb_spec (seqno mod 2 ^ 32) (RemoteSeq s)); [lia | reflexivity]. }
  rewrite Hk1, D, N.eqb_refl. simpl (negb _). cbv iota.
  fold audio. unfold RecvData.
  replace (Status (set_LastActive t (set_LastActive t (set_RemoteSeq (seqno mod 2 ^ 32) s1))))
    with (Status s1) by now destruct s1.
  rewrite Hst1. simpl (negb _). cbv iota.
  replace (RecvChannel (set_LastActive t (set_LastActive t (set_RemoteSeq (seqno mod 2 ^ 32) s1))))
    with (RecvChannel s) by (rewrite <- Hc; now destruct s1).
  destruct (Nat.ltb_spec (length (RecvChannel s)) chan_cap); [|lia].
  eexists. split; [reflexivity|]. simpl. auto.
Qed.

(** Property X11.  End to end: a packet the device builds under the key and
    nonce template of an active session, with a sequence number that is
    not out of date and a payload of fewer than 65536 bytes, is
    delivered when the receive channel has room, and the session is
    bound to the sender's address.  What is delivered is the payload,
    less its first 16 bytes when it is at least 16 bytes long and starts
    with 0x01. *)
Theorem client_packet_delivered (t : Z) (srv : UDPServer) (addr : string)
    (s : UDPSession) (seqno : N) (payload : list N) :
  let connID := Bytes.hex_encode (map (fun i => nth i (Nonce s) 0) (seq 0 4)) in
  let audio := if (16 <=? length payload)%nat && (nth 0 payload 0 =? 1)
               then drop 16 payload else payload in
  nonce2Session srv !! connID = Some s ->
  Status s = "active"%string ->
  length (AESKey s) = 16%nat ->
  N.of_nat (length payload) < 65536 ->
  RemoteSeq s = 0 \/ RemoteSeq s <= seqno mod 2 ^ 32 ->
  (length (RecvChannel s) < chan_cap)%nat ->
  let r := processPacket t srv addr (client_packet (AESKey s) (Nonce s) seqno payload) in
  snd r = Delivered audio /\
  exists s',
    nonce2Session (fst r) !! connID = Some s' /\
    RecvChannel s' = RecvChannel s ++ [audio] /\
    RemoteSeq s' = seqno mod 2 ^ 32 /\
    LastActive s' = t /\
    RemoteAddr s' = Some addr.
Proof.
  intros connID audio Hs Hst Hk Hlen Hseq Hroom r. subst r.
  destruct (processPacket_delivers t srv addr s seqno payload Hs Hst Hk Hlen Hseq Hroom)
    as (s' & E & Hc & Hr & Hl).
  fold connID audio in E.
  assert (16 <= length (client_packet (AESKey s) (Nonce s) seqno payload))%nat as Hp16.
  { destruct (client_packet_shape (AESKey s) (Nonce s) seqno payload Hk) as (c & -> & _).
    rewrite length_app, BuildFullNonce_length. lia. }
  assert (Bytes.hex_encode
            (Bytes.slice 4 8 (client_packet (AESKey s) (Nonce s) seqno payload)) = connID)
    as Hid.
  { destruct (client_packet_shape (AESKey s) (Nonce s) seqno payload Hk) as (c & -> & _).
    now rewrite slice_4_8_built. }
  assert (nth 0 (client_packet (AESKey s) (Nonce s) seqno payload) 0 = 1) as H1.
  { destruct (client_packet_shape (AESKey s) (Nonce s) seqno payload Hk) as (c & -> & _).
    reflexivity. }
  destruct (processPacket_known t srv addr _ s Hp16 H1) as (s2 & E2 & Ha & _).
  { now rewrite Hid. }
  rewrite Hid in E2, Ha.
  rewrite E in *. simpl fst in *. simpl snd.
  split; [reflexivity|]. exists s'.
  split; [apply lookup_insert_eq|]. repeat split; try assumption.
  assert (s2 = s') as <-.
  { apply (f_equal (fun x => nonce2Session x !! connID)) in E2.
    simpl in E2. rewrite !lookup_insert_eq in E2. congruence. }
  rewrite Ha. unfold learn_addr. destruct (RemoteAddr s) as [old|] eqn:Ho.
  - destruct (String.eqb_spec old addr) as [->|]; simpl; [exact Ho | reflexivity].
  - reflexivity.
Qed.

Lemma client_packet_delivered_witness :
  let r := processPacket 9 Samples.server0 "10.0.0.7:4000"
             (client_packet (AESKey Samples.session0) (Nonce Samples.session0) 3
                Samples.payload) in
  snd r = Delivered Samples.payload /\
  exists s',
    nonce2Session (fst r) !! "deadbeef"%string = Some s' /\
    RecvChannel s' = RecvChannel Samples.session0 ++ [Samples.payload] /\
    RemoteSeq s' = 3 mod 2 ^ 32 /\
    LastActive s' = 9%Z /\
    RemoteAddr s' = Some "10.0.0.7:4000"%string.
Proof.
  apply (client_packet_delivered 9 Samples.server0 "10.0.0.7:4000" Samples.session0 3
           Samples.payload).
  - reflexivity.
  - reflexivity.
  - reflexivity.
  - reflexivity.
  - left. reflexivity.
  - vm_compute. lia.
Defined.

Lemma key16_length (key : list N) : length (map (fun i => nth i key 0) (seq 0 16)) = 16%nat.
Proof. now rewrite length_map, length_seq. Qed.

(** Property X12.  Given the random key and connection id, [CreateSession]
    succeeds and registers the new session under its connection id; the
    address map is untouched.  The
    first packet of the device, whatever its sequence number, is then
    delivered and binds the sender's address to the session. *)
Theorem created_session_receives (now unix t : Z) (aesKey connIDBytes : list N)
    (deviceID sessionID addr : string) (srv : UDPServer) (seqno : N) (payload : list N) :
  N.of_nat (length payload) < 65536 ->
  exists srv' s srv'',
    CreateSession now unix aesKey connIDBytes deviceID sessionID srv = (srv', Ok s) /\
    nonce2Session srv' !! ConnID s = Some s /\
    addr2Session srv' = addr2Session srv /\
    processPacket t srv' addr (client_packet (AESKey s) (Nonce s) seqno payload) =
      (srv'',
       Delivered (if (16 <=? length payload)%nat && (nth 0 payload 0 =? 1)
                  then drop 16 payload else payload)) /\
    addr2Session srv'' !! addr = Some (ConnID s).
Proof.
  intros Hlen. unfold CreateSession.
  set (key16 := map (fun i => nth i aesKey 0) (seq 0 16)).
  set (cid4 := map (fun i => nth i connIDBytes 0) (seq 0 4)).
  unfold NewUDPSession.
  destruct (NewCipher_16 key16 (key16_length aesKey)) as [blk ->].
  set (s := mkUDPSession _ _ _ _ _ _ _ _ _ _ _ _ _ _).
  assert (Bytes.hex_encode (map (fun i => nth i (Nonce s) 0) (seq 0 4)) = ConnID s) as Hcid
    by reflexivity.
  destruct (processPacket_delivers t (store_session srv (ConnID s) s) addr s seqno payload)
    as (s' & E & _).
  - rewrite Hcid. apply lookup_insert_eq.
  - reflexivity.
  - apply key16_length.
  - exact Hlen.
  - left. reflexivity.
  - unfold chan_cap. simpl. lia.
  - eexists _, s, _. split; [reflexivity|].
    split; [apply lookup_insert_eq|]. split; [reflexivity|].
    split; [exact E|].
    rewrite Hcid. simpl. apply lookup_insert_eq.
Qed.

Lemma created_session_witness :
  exists srv' s srv'',
    CreateSession 0 1700000000 Samples.key [0xde; 0xad; 0xbe; 0xef] "glasses" "s1"
      (mkUDPServer ∅ ∅) = (srv', Ok s) /\
    nonce2Session srv' !! ConnID s = Some s /\
    addr2Session srv' = addr2Session (mkUDPServer ∅ ∅) /\
    processPacket 4 srv' "10.0.0.7:4000"
      (client_packet (AESKey s) (Nonce s) 1 Samples.payload) =
      (srv'',
       Delivered (if (16 <=? length Samples.payload)%nat && (nth 0 Samples.payload 0 =? 1)
                  then drop 16 Samples.payload else Samples.payload)) /\
    addr2Session srv'' !! "10.0.0.7:4000"%string = Some (ConnID s).
Proof.
  apply (created_session_receives 0 1700000000 4 Samples.key [0xde; 0xad; 0xbe; 0xef]
           "glasses" "s1" "10.0.0.7:4000" (mkUDPServer ∅ ∅) 1 Samples.payload).
  reflexivity.
Defined.

(** Property X13.  After [CloseSession] the session is destroyed, its
    connection id and its address are forgotten, the other sessions are
    untouched, and a later packet for that connection id leaves the
    server unchanged and is dropped as belonging to no session. *)
Theorem closed_session_unreachable (t : Z) (srv : UDPServer) (connID addr : string)
    (s : UDPSession) (packet : list N) :
  nonce2Session srv !! connID = Some s ->
  Bytes.hex_encode (Bytes.slice 4 8 packet) = connID ->
  let srv' := fst (CloseSession connID srv) in
  snd (CloseSession connID srv) = Some (Destroy s) /\
  nonce2Session srv' !! connID = None /\
  (forall a, RemoteAddr s = Some a -> addr2Session srv' !! a = None) /\
  (forall cid, cid <> connID -> nonce2Session srv' !! cid = nonce2Session srv !! cid) /\
  fst (processPacket t srv' addr packet) = srv' /\
  ((16 <= length packet)%nat -> nth 0 packet 0 = 1 ->
   snd (processPacket t srv' addr packet) = DropNoSession connID).
Proof.
  intros Hs Hp srv'. subst srv'. unfold CloseSession. rewrite Hs. simpl.
  split; [reflexivity|]. split; [apply lookup_delete_eq|].
  split.
  { intros a ->. apply lookup_delete_eq. }
  split.
  { intros cid Hne. now apply lookup_delete_ne. }
  split.
  - apply processPacket_unknown. right. right. simpl. rewrite Hp. apply lookup_delete_eq.
  - intros Hlen H1. unfold processPacket.
    destruct (Nat.ltb_spec (length packet) 16); [lia|].
    rewrite nth0_slice16, H1 by exact Hlen. simpl (negb _). cbv iota.
    rewrite ExtractNonceInfo_packet by exact Hlen. rewrite Hp. simpl.
    now rewrite lookup_delete_eq.
Qed.

Lemma closed_session_witness :
  let srv' := fst (CloseSession "deadbeef" Samples.server0) in
  snd (CloseSession "deadbeef" Samples.server0) = Some (Destroy Samples.session0) /\
  nonce2Session srv' !! "deadbeef"%string = None /\
  (forall a, RemoteAddr Samples.session0 = Some a -> addr2Session srv' !! a = None) /\
  (forall cid, cid <> "deadbeef"%string ->
     nonce2Session srv' !! cid = nonce2Session Samples.server0 !! cid) /\
  fst (processPacket 2 srv' "10.0.0.7:4000" (Samples.packet 1)) = srv' /\
  ((16 <= length (Samples.packet 1))%nat -> nth 0 (Samples.packet 1) 0 = 1 ->
   snd (processPacket 2 srv' "10.0.0.7:4000" (Samples.packet 1)) = DropNoSession "deadbeef").
Proof.
  apply (closed_session_unreachable 2 Samples.server0 "deadbeef" "10.0.0.7:4000"
           Samples.session0 (Samples.packet 1)).
  - reflexivity.
  - reflexivity.
Defined.


(** Property X14.  On the MQTT path a binary message with the UDP header that
    the session refuses (out of date, wrong length, ...) is not dropped:
    its bytes after the 16-byte header are queued as an incoming binary
    message, and nothing is put on the receive channel. *)
Theorem refused_packet_continues_on_mqtt (now : Z) (c : MQTTConnection)
    (s : UDPSession) (payload : list N) (e : SessionError) :
  conn_closed c = false ->
  udpSession c = Some s ->
  IsActive s = true ->
  (16 < length payload)%nat ->
  nth 0 payload 0 = 1 ->
  snd (Decrypt now s payload) = Err e ->
  (length (incoming c) < incoming_cap)%nat ->
  let c' := PushIncoming now 2 payload c in
  incoming c' = incoming c ++ [(2%Z, drop 16 payload)] /\
  option_map RecvChannel (udpSession c') = Some (RecvChannel s).
Proof.
  intros Hcl Hu Ha Hlen H1 He Hroom c'. subst c'.
  unfold PushIncoming. rewrite Hcl. simpl (2 =? 2)%Z. cbv iota.
  unfold handleIncomingUDPPacket.
  destruct (Nat.ltb_spec (length payload) 16); [lia|].
  rewrite H1. simpl (_ || _). cbv iota. rewrite Hu, Ha. simpl (negb _). cbv iota.
  pose proof (Decrypt_RecvChannel now s payload) as Hrc.
  destruct (Decrypt now s payload) as [s' [d|e']]; [discriminate|].
  simpl in Hrc.
  destruct (Nat.ltb_spec 16 (length payload)); [|lia].
  simpl. destruct (Nat.ltb_spec (length (incoming c)) incoming_cap); [|lia].
  simpl. now rewrite Hrc.
Qed.

Lemma refused_packet_witness :
  let s := set_RemoteSeq 5 Samples.session0 in
  let payload := client_packet Samples.key Samples.tmpl 2 (map N.of_nat (seq 0 20)) in
  let c := mkMQTTConnection false (Some s) [] [] in
  let c' := PushIncoming 1 2 payload c in
  incoming c' = incoming c ++ [(2%Z, drop 16 payload)] /\
  option_map RecvChannel (udpSession c') = Some (RecvChannel s).
Proof.
  apply (refused_packet_continues_on_mqtt 1 (mkMQTTConnection false (Some (set_RemoteSeq 5 Samples.session0)) [] [])
           (set_RemoteSeq 5 Samples.session0)
           (client_packet Samples.key Samples.tmpl 2 (map N.of_nat (seq 0 20)))
           (ErrSeqInvalid 5 2)).
  - reflexivity.
  - reflexivity.
  - reflexivity.
  - vm_compute. lia.
  - reflexivity.
  - vm_compute. reflexivity.
  - vm_compute. lia.
Defined.

(** Property X15.  On the MQTT path a binary message the session accepts goes
    to the receive channel of the session and not to the incoming queue;
    only when that channel is full is the decrypted payload queued
    instead. *)
Theorem accepted_packet_bypasses_mqtt_queue (now : Z) (c : MQTTConnection)
    (s s' : UDPSession) (payload d : list N) :
  conn_closed c = false ->
  udpSession c = Some s ->
  nth 0 payload 0 = 1 ->
  Decrypt now s payload = (s', Ok d) ->
  let c' := PushIncoming now 2 payload c in
  if (length (RecvChannel s) <? chan_cap)%nat
  then incoming c' = incoming c /\
       udpSession c' = Some (set_RecvChannel (RecvChannel s ++ [d]) s')
  else udpSession c' = Some s' /\
       incoming c' = if (length (incoming c) <? incoming_cap)%nat
                     then incoming c ++ [(2%Z, d)] else incoming c.
Proof.
  intros Hcl Hu H1 Hd c'. subst c'.
  destruct (Decrypt_ok_inv now s s' payload d Hd) as (Hlen & Hst & _).
  pose proof (Decrypt_RecvChannel now s payload) as Hrc. rewrite Hd in Hrc. simpl in Hrc.
  assert (Status s' = "active"%string) as Hst'.
  { apply Decrypt_accepts in Hd as (_ & _ & _ & -> & _). exact Hst. }
  unfold PushIncoming. rewrite Hcl. simpl (2 =? 2)%Z. cbv iota.
  unfold handleIncomingUDPPacket.
  destruct (Nat.ltb_spec (length payload) 16); [lia|].
  rewrite H1. simpl (_ || _). cbv iota. rewrite Hu.
  unfold IsActive. rewrite Hst. simpl (negb _). cbv iota.
  rewrite Hd. unfold RecvData. rewrite Hst', Hrc. simpl (negb _). cbv iota.
  destruct (length (RecvChannel s) <? chan_cap)%nat; simpl.
  - split; reflexivity.
  - destruct (length (incoming c) <? incoming_cap)%nat; split; reflexivity.
Qed.

Lemma accepted_packet_witness :
  let c := mkMQTTConnection false (Some Samples.session0) [] [] in
  let s' := fst (Decrypt 1 Samples.session0 (Samples.packet 1)) in
  let c' := PushIncoming 1 2 (Samples.packet 1) c in
  if (length (RecvChannel Samples.session0) <? chan_cap)%nat
  then incoming c' = incoming c /\
       udpSession c' =
         Some (set_RecvChannel (RecvChannel Samples.session0 ++ [Samples.payload]) s')
  else udpSession c' = Some s' /\
       incoming c' = if (length (incoming c) <? incoming_cap)%nat
                     then incoming c ++ [(2%Z, Samples.payload)] else incoming c.
Proof.
  apply (accepted_packet_bypasses_mqtt_queue 1
           (mkMQTTConnection false (Some Samples.session0) [] [])
           Samples.session0 (fst (Decrypt 1 Samples.session0 (Samples.packet 1)))
           (Samples.packet 1) Samples.payload).
  - reflexivity.
  - reflexivity.
  - reflexivity.
  - vm_compute. reflexivity.
Defined.

(** Property X16.  Routing of [WriteMessage]: a closed connection returns an
    error and sends nothing; audio goes to the send channel of the UDP
    session, and is not published, when that session is active and has
    room; everything else is published over MQTT.  The incoming queue
    is never touched. *)
Theorem WriteMessage_routing (publish_ok : bool) (messageType : Z) (data : list N)
    (c : MQTTConnection) :
  let r := WriteMessage publish_ok messageType data c in
  let udp_ready :=
    match udpSession c with
    | Some s => IsActive s && (length (SendChannel s) <? chan_cap)%nat
    | None => false
    end in
  incoming (fst r) = incoming c /\ conn_closed (fst r) = conn_closed c /\
  (conn_closed c = true -> r = (c, Some ErrConnClosed)) /\
  (conn_closed c = false -> (messageType =? 2)%Z && udp_ready = true ->
   snd r = None /\ published (fst r) = published c /\
   option_map SendChannel (udpSession (fst r)) =
     option_map (fun s => SendChannel s ++ [data]) (udpSession c)) /\
  (conn_closed c = false -> (messageType =? 2)%Z && udp_ready = false ->
   udpSession (fst r) = udpSession c /\
   if publish_ok then snd r = None /\ published (fst r) = published c ++ [data]
   else snd r = Some ErrPublish /\ published (fst r) = published c).
Proof.
  intros r udp_ready. subst r udp_ready. unfold WriteMessage.
  destruct (conn_closed c) eqn:Hcl.
  { simpl. repeat split; auto; discriminate. }
  destruct (messageType =? 2)%Z; simpl (_ && _).
  - destruct (udpSession c) as [s|] eqn:Hu.
    + unfold IsActive, SendAudioData.
      destruct (String.eqb (Status s) "active") eqn:Hst; simpl (negb _); simpl (_ && _); cbv iota.
      * destruct (length (SendChannel s) <? chan_cap)%nat; simpl.
        -- repeat split; auto; try discriminate.
        -- destruct publish_ok; simpl; repeat split; auto; discriminate.
      * destruct publish_ok; simpl; repeat split; auto; discriminate.
    + destruct publish_ok; simpl; repeat split; auto; discriminate.
  - destruct publish_ok; simpl; repeat split; auto; discriminate.
Qed.

(** Property X17.  One datum of the send loop of an active session: without a
    known device address it is discarded and no sequence number is used;
    with one, exactly one sequence number is used whether the write
    succeeds at the first, second or third attempt, fails three times,
    or meets a closed socket. *)
Theorem handleSend_sequence_numbers (write : nat -> WriteResult) (now : Z)
    (s : UDPSession) (data : list N) :
  Status s = "active"%string ->
  length (AESKey s) = 16%nat ->
  let r := handleSend_step write now s data in
  match RemoteAddr s with
  | None => r = (s, NoAddress)
  | Some _ =>
      LocalSeq (fst r) = uint32_succ (LocalSeq s) /\
      exists packet,
        fst (Encrypt now s data) = fst r /\
        snd (Encrypt now s data) = Ok packet /\
        packet_seq packet = uint32_succ (LocalSeq s) /\
        snd r = match write 0%nat, write 1%nat, write 2%nat with
                | WriteOk, _, _ => Written packet 1
                | WriteClosed, _, _ => Stopped packet
                | WriteErr, WriteOk, _ => Written packet 2
                | WriteErr, WriteClosed, _ => Stopped packet
                | WriteErr, WriteErr, WriteOk => Written packet 3
                | WriteErr, WriteErr, WriteClosed => Stopped packet
                | WriteErr, WriteErr, WriteErr => WriteFailed packet
                end
  end.
Proof.
  intros Hst Hk r. subst r. unfold handleSend_step.
  destruct (RemoteAddr s) as [a|]; [|reflexivity].
  destruct (Encrypt_ok now s data Hst Hk) as (c & E & _ & _).
  rewrite E. simpl write_retry.
  assert (LocalSeq (set_LastActive now (set_LocalSeq (uint32_succ (LocalSeq s)) s)) =
          uint32_succ (LocalSeq s)) as Hl by now destruct s.
  assert (packet_seq (BuildFullNonce (Nonce s) (N.of_nat (length data))
                        (uint32_succ (LocalSeq s)) ++ c) = uint32_succ (LocalSeq s)) as Hp.
  { rewrite packet_seq_built. apply N.mod_small, uint32_succ_lt. }
  destruct (write 0%nat); [| |destruct (write 1%nat); [| |destruct (write 2%nat)]];
    simpl; (split; [exact Hl|]); eexists; repeat split; exact Hp.
Qed.

Lemma handleSend_witness :
  let s := set_RemoteAddr (Some "10.0.0.7:4000"%string) Samples.session0 in
  let write := fun n : nat => if (n <? 2)%nat then WriteErr else WriteOk in
  let r := handleSend_step write 3 s Samples.payload in
  match RemoteAddr s with
  | None => r = (s, NoAddress)
  | Some _ =>
      LocalSeq (fst r) = uint32_succ (LocalSeq s) /\
      exists packet,
        fst (Encrypt 3 s Samples.payload) = fst r /\
        snd (Encrypt 3 s Samples.payload) = Ok packet /\
        packet_seq packet = uint32_succ (LocalSeq s) /\
        snd r = match write 0%nat, write 1%nat, write 2%nat with
                | WriteOk, _, _ => Written packet 1
                | WriteClosed, _, _ => Stopped packet
                | WriteErr, WriteOk, _ => Written packet 2
                | WriteErr, WriteClosed, _ => Stopped packet
                | WriteErr, WriteErr, WriteOk => Written packet 3
                | WriteErr, WriteErr, WriteClosed => Stopped packet
                | WriteErr, WriteErr, WriteErr => WriteFailed packet
                end
  end.
Proof.
  apply (handleSend_sequence_numbers
           (fun n : nat => if (n <? 2)%nat then WriteErr else WriteOk) 3
           (set_RemoteAddr (Some "10.0.0.7:4000"%string) Samples.session0) Samples.payload).
  - reflexivity.
  - reflexivity.
Defined.

End UDPMoreFacts.

(** ** The session shared by the UDP server and the MQTT connection *)

Module UDPLinkFacts.
Import UDPCrypto UDP UDPMore CryptoFacts UDPFacts UDPMoreFacts.

Lemma RecvData_fields s d :
  RemoteSeq (fst (RecvData s d)) = RemoteSeq s /\
  AESKey (fst (RecvData s d)) = AESKey s /\
  Status (fst (RecvData s d)) = Status s.
Proof.
  unfold RecvData. destruct (negb _); [auto|].
  destruct (_ <? _)%nat; destruct s; auto.
Qed.

(** What one call of [Decrypt] does to the stored sequence number of a
    session with a 16-byte key. *)
Lemma Decrypt_seq now s packet :
  length (AESKey s) = 16%nat ->
  let s' := fst (Decrypt now s packet) in
  AESKey s' = AESKey s /\ Status s' = Status s /\
  if is_ok (snd (Decrypt now s packet))
  then RemoteSeq s' = packet_seq packet /\ RemoteSeq s <= packet_seq packet
  else s' = s.
Proof.
  intros Hk. destruct (Decrypt now s packet) as [s' [d|e]] eqn:E; simpl.
  - destruct (Decrypt_accepts _ _ _ _ _ E) as (H1 & H2 & H3 & H4 & _). auto.
  - rewrite (Decrypt_refuses _ _ _ _ _ Hk E). auto.
Qed.

(** The session [cid] across one datagram. *)
Lemma processPacket_seq now srv addr data cid s :
  nonce2Session srv !! cid = Some s ->
  length (AESKey s) = 16%nat ->
  let r := processPacket now srv addr data in
  exists s',
    nonce2Session (fst r) !! cid = Some s' /\
    AESKey s' = AESKey s /\ Status s' = Status s /\
    if decrypted_ok (snd r) && String.eqb (Bytes.hex_encode (Bytes.slice 4 8 data)) cid
    then RemoteSeq s' = packet_seq data /\ RemoteSeq s <= packet_seq data
    else RemoteSeq s' = RemoteSeq s.
Proof.
  intros Hs Hk r. subst r. unfold processPacket.
  destruct (Nat.ltb_spec (length data) 16) as [|Hlen].
  { exists s. simpl. auto. }
  rewrite nth0_slice16 by exact Hlen.
  destruct (negb (nth 0 data 0 =? 1)).
  { exists s. destruct (isHealthCheckPacket data); simpl; auto. }
  rewrite ExtractNonceInfo_packet by exact Hlen.
  set (connID := Bytes.hex_encode (Bytes.slice 4 8 data)).
  destruct (nonce2Session srv !! connID) as [sc|] eqn:Hsc.
  2: { exists s. simpl. auto. }
  destruct (learn_addr srv connID addr sc) as [srv1 s1] eqn:El.
  pose proof (learn_addr_session srv connID addr sc) as Hl.
  pose proof (learn_addr_nonce2Session srv connID addr sc) as Hn.
  rewrite El in Hl, Hn. simpl in Hl, Hn. destruct Hl as (Hr1 & _ & Hk1 & Hst1 & _).
  destruct (String.eqb_spec connID cid) as [Heq|Hne].
  - assert (sc = s) as -> by congruence.
    assert (forall s' o,
              AESKey s' = AESKey s -> Status s' = Status s ->
              (if decrypted_ok o
               then RemoteSeq s' = packet_seq data /\ RemoteSeq s <= packet_seq data
               else RemoteSeq s' = RemoteSeq s) ->
              exists s'',
                nonce2Session (fst (store_session srv1 connID s', o)) !! cid = Some s'' /\
                AESKey s'' = AESKey s /\ Status s'' = Status s /\
                if decrypted_ok (snd (store_session srv1 connID s', o)) && true
                then RemoteSeq s'' = packet_seq data /\ RemoteSeq s <= packet_seq data
                else RemoteSeq s'' = RemoteSeq s) as Hstore.
    { intros s' o H1 H2 H3. exists s'. simpl. rewrite Heq, lookup_insert_eq.
      rewrite andb_true_r. auto. }
    pose proof (Decrypt_seq now s1 data ltac:(congruence)) as Hd.
    destruct (Decrypt now s1 data) as [s2 [d|e]]; simpl in Hd;
      destruct Hd as (Hk2 & Hst2 & Hq).
    + destruct (negb _).
      * apply Hstore; [congruence | congruence |]. simpl. split; [tauto | lia].
      * cbv zeta.
        match goal with |- context [RecvData ?x ?y] =>
          pose proof (RecvData_fields x y) as (Hr4 & Hk4 & Hst4);
          destruct (RecvData x y) as [s4 [u|e]] end; simpl in Hr4, Hk4, Hst4;
          (apply Hstore; [congruence | congruence |]); simpl; split;
          try (rewrite Hr4; tauto); lia.
    + apply Hstore; [congruence | congruence |]. simpl. subst s2. exact Hr1.
  - assert (forall s' o,
              exists s'',
                nonce2Session (fst (store_session srv1 connID s', o)) !! cid = Some s'' /\
                AESKey s'' = AESKey s /\ Status s'' = Status s /\
                if decrypted_ok (snd (store_session srv1 connID s', o)) && false
                then RemoteSeq s'' = packet_seq data /\ RemoteSeq s <= packet_seq data
                else RemoteSeq s'' = RemoteSeq s) as Hstore.
    { intros s' o. exists s. simpl. rewrite lookup_insert_ne by exact Hne.
      rewrite Hn, andb_false_r. auto. }
    destruct (Decrypt now s1 data) as [s2 [d|e]]; [|apply Hstore].
    destruct (negb _); [apply Hstore|]. cbv zeta.
    destruct (RecvData _ _) as [s4 [u|e]]; apply Hstore.
Qed.

(** The session of a connection across one binary MQTT message. *)
Lemma PushIncoming_seq now data s inc pub :
  length (AESKey s) = 16%nat ->
  let c := PushIncoming now 2 data (mkMQTTConnection false (Some s) inc pub) in
  exists s',
    udpSession c = Some s' /\
    AESKey s' = AESKey s /\ Status s' = Status s /\
    if mqtt_decrypted now s data
    then RemoteSeq s' = packet_seq data /\ RemoteSeq s <= packet_seq data
    else s' = s.
Proof.
  intros Hk c. subst c. unfold PushIncoming, mqtt_decrypted. simpl conn_closed.
  cbv iota. simpl (2 =? 2)%Z. cbv iota. unfold handleIncomingUDPPacket.
  simpl udpSession.
  assert (forall (c : MQTTConnection) (d : list N) s',
            udpSession c = Some s' ->
            udpSession
              (if (length (incoming c) <? incoming_cap)%nat
               then mkMQTTConnection (conn_closed c) (udpSession c)
                      (incoming c ++ [(2%Z, d)]) (published c)
               else c) = Some s') as Hq.
  { intros c d s' H. now destruct (_ <? _)%nat. }
  destruct (Nat.ltb_spec (length data) 16) as [Hlt|Hlen].
  { simpl orb. cbv iota.
    destruct (Nat.leb_spec 16 (length data)); [lia|]. simpl andb.
    exists s. split; [now apply Hq | auto]. }
  destruct (Nat.leb_spec 16 (length data)); [|lia].
  destruct (nth 0 data 0 =? 1); simpl orb; simpl andb; cbv iota.
  2: { exists s. split; [now apply Hq | auto]. }
  destruct (IsActive s) eqn:Ha; simpl negb; simpl andb; cbv iota.
  2: { exists s. split; [now apply Hq | auto]. }
  pose proof (Decrypt_seq now s data Hk) as Hd.
  destruct (Decrypt now s data) as [s2 [d|e]]; simpl in Hd;
    destruct Hd as (Hk2 & Hst2 & Hs2); simpl is_ok; cbv iota.
  - pose proof (RecvData_fields s2 d) as (Hr4 & Hk4 & Hst4).
    destruct (RecvData s2 d) as [s4 [u|e]]; simpl in Hr4, Hk4, Hst4.
    + destruct Hs2 as (Hs2a & Hs2b).
      exists s4. simpl. repeat split; congruence || lia.
    + destruct Hs2 as (Hs2a & Hs2b).
      exists s4. split; [now apply Hq|]. repeat split; congruence || lia.
  - subst s2. exists s. split; [now apply Hq | auto].
Qed.

(** The invariant of the shared session. *)
Lemma arrive_inv cid l a s :
  nonce2Session (link_server l) !! cid = Some s ->
  length (AESKey s) = 16%nat ->
  Status s = "active"%string ->
  RemoteSeq s = highest (link_accepted l) ->
  exists s',
    nonce2Session (link_server (arrive cid l a)) !! cid = Some s' /\
    length (AESKey s') = 16%nat /\ Status s' = "active"%string /\
    RemoteSeq s' = highest (link_accepted (arrive cid l a)) /\
    RemoteSeq s <= RemoteSeq s'.
Proof.
  intros Hs Hk Hst Hr. destruct a as [now addr data | now data]; unfold arrive.
  - destruct (processPacket_seq now (link_server l) addr data cid s Hs Hk)
      as (s' & Hs' & Hk' & Hst' & Hq).
    destruct (processPacket now (link_server l) addr data) as [srv' out].
    simpl in *. exists s'. split; [exact Hs'|].
    split; [congruence|]. split; [congruence|].
    destruct (decrypted_ok out && _).
    + destruct Hq as (Hq1 & Hq2). rewrite highest_snoc by lia. split; lia.
    + split; lia.
  - rewrite Hs.
    destruct (PushIncoming_seq now data s (link_incoming l) [] Hk)
      as (s' & Hu & Hk' & Hst' & Hq).
    cbv zeta in Hu. rewrite Hu. simpl. exists s'.
    split; [apply lookup_insert_eq|].
    split; [congruence|]. split; [congruence|].
    destruct (mqtt_decrypted now s data).
    + destruct Hq as (Hq1 & Hq2). rewrite highest_snoc by lia. split; lia.
    + subst s'. split; lia.
Qed.

Lemma arrivals_inv cid l h s :
  nonce2Session (link_server l) !! cid = Some s ->
  length (AESKey s) = 16%nat ->
  Status s = "active"%string ->
  RemoteSeq s = highest (link_accepted l) ->
  exists s',
    nonce2Session (link_server (arrivals cid l h)) !! cid = Some s' /\
    length (AESKey s') = 16%nat /\ Status s' = "active"%string /\
    RemoteSeq s' = highest (link_accepted (arrivals cid l h)).
Proof.
  unfold arrivals. revert l s. induction h as [|a h IH]; intros l s Hs Hk Hst Hr.
  - exists s. auto.
  - simpl. destruct (arrive_inv cid l a s Hs Hk Hst Hr) as (s1 & H1 & H2 & H3 & H4 & _).
    exact (IH _ s1 H1 H2 H3 H4).
Qed.

(** A refused packet longer than its header, on the MQTT path. *)
Lemma PushIncoming_refused now s e packet inc pub :
  IsActive s = true ->
  (16 < length packet)%nat ->
  nth 0 packet 0 = 1 ->
  Decrypt now s packet = (s, Err e) ->
  (length inc < incoming_cap)%nat ->
  PushIncoming now 2 packet (mkMQTTConnection false (Some s) inc pub) =
  mkMQTTConnection false (Some s) (inc ++ [(2%Z, drop 16 packet)]) pub.
Proof.
  intros Ha Hlen H1 Hd Hroom. unfold PushIncoming. simpl conn_closed. cbv iota.
  simpl (2 =? 2)%Z. cbv iota. unfold handleIncomingUDPPacket. simpl udpSession.
  destruct (Nat.ltb_spec (length packet) 16); [lia|].
  rewrite H1. simpl orb. cbv iota. rewrite Ha. simpl negb. cbv iota. rewrite Hd.
  destruct (Nat.ltb_spec 16 (length packet)); [|lia]. simpl.
  destruct (Nat.ltb_spec (length inc) incoming_cap); [reflexivity | lia].
Qed.

(** Claim C3, as amended.  A session created by [NewUDPSession] and
    registered with the server receives any history of datagrams and of
    binary MQTT messages.  Its stored remote sequence number is then the
    highest sequence number [Decrypt] has accepted for it, and no
    further arrival lowers it.  A further packet whose sequence number
    is below that highest accepted number is refused by [Decrypt] with
    an error and the session is unchanged.  As a datagram it is dropped
    by the server: nothing is put on the receive channel that feeds the
    recognizer, nothing is queued.  As a binary MQTT message it is
    refused in the same way, but its bytes after the 16-byte header are
    queued as an incoming binary message all the same. *)
Theorem remote_seq_highest_stale_refused
    (t0 : Z) (dev sess : string) (key tmpl : list N) (cid : string)
    (s0 : UDPSession) (srv0 : UDPServer) (inc0 : list (Z * list N))
    (h : list Arrival) :
  length key = 16%nat ->
  NewUDPSession t0 dev sess key tmpl cid = Ok s0 ->
  nonce2Session srv0 !! cid = Some s0 ->
  let l := arrivals cid (mkLink srv0 inc0 []) h in
  let top := highest (link_accepted l) in
  exists s,
    nonce2Session (link_server l) !! cid = Some s /\
    RemoteSeq s = top /\
    (forall a, exists s',
        nonce2Session (link_server (arrive cid l a)) !! cid = Some s' /\
        RemoteSeq s <= RemoteSeq s') /\
    (forall now packet,
        (16 <= length packet)%nat -> packet_seq packet < top ->
        exists e, Decrypt now s packet = (s, Err e)) /\
    (forall now addr packet,
        (16 <= length packet)%nat -> nth 0 packet 0 = 1 ->
        Bytes.hex_encode (Bytes.slice 4 8 packet) = cid ->
        packet_seq packet < top ->
        let l' := arrive cid l (ByUDP now addr packet) in
        exists e s',
          snd (processPacket now (link_server l) addr packet) = DropDecrypt e /\
          nonce2Session (link_server l') !! cid = Some s' /\
          RecvChannel s' = RecvChannel s /\ RemoteSeq s' = RemoteSeq s /\
          link_incoming l' = link_incoming l /\
          link_accepted l' = link_accepted l) /\
    (forall now packet,
        (16 < length packet)%nat -> nth 0 packet 0 = 1 ->
        packet_seq packet < top ->
        (length (link_incoming l) < incoming_cap)%nat ->
        let l' := arrive cid l (ByMQTT now packet) in
        link_incoming l' = link_incoming l ++ [(2%Z, drop 16 packet)] /\
        nonce2Session (link_server l') !! cid = Some s /\
        link_accepted l' = link_accepted l).
Proof.
  intros Hk Hnew Hs0 l top.
  destruct (NewUDPSession_fresh _ _ _ _ _ _ _ Hnew) as (Hkey & H0 & Hact & _).
  destruct (arrivals_inv cid (mkLink srv0 inc0 []) h s0 Hs0) as (s & Hs & Hk16 & Hst & Hr);
    [congruence | exact Hact | exact H0 |].
  fold l in Hs, Hr. fold top in Hr.
  exists s. split; [exact Hs|]. split; [exact Hr|].
  split.
  { intros a. destruct (arrive_inv cid l a s Hs Hk16 Hst Hr) as (s' & H1 & _ & _ & _ & H5).
    exists s'. auto. }
  split.
  { intros now packet Hlen Hlt. apply Decrypt_stale; [exact Hlen | lia | lia]. }
  split.
  - intros now addr packet Hlen H1 Hcid Hlt l'.
    destruct (processPacket_stale now (link_server l) addr packet s Hlen H1)
      as (e & s' & Ho & Hs' & Hc & Hq); [now rewrite Hcid | lia | lia |].
    exists e, s'. subst l'. unfold arrive.
    destruct (processPacket now (link_server l) addr packet) as [srv' out].
    simpl in *. rewrite Hcid in Hs'. subst out. simpl. repeat split; assumption.
  - intros now packet Hlen H1 Hlt Hroom l'.
    destruct (Decrypt_stale now s packet) as [e He]; [lia | lia | lia |].
    assert (mqtt_decrypted now s packet = false) as Hm.
    { unfold mqtt_decrypted. rewrite He. simpl. now rewrite andb_false_r. }
    subst l'. unfold arrive. rewrite Hs, Hm.
    rewrite (PushIncoming_refused now s e packet (link_incoming l) []); try assumption.
    + simpl. split; [reflexivity|]. split; [apply lookup_insert_eq | reflexivity].
    + unfold IsActive. now rewrite Hst.
Qed.

Lemma remote_seq_witness :
  let l := arrivals Samples.connID (mkLink Samples.server0 [] [])
             [ByUDP 1 "10.0.0.7:4000" (Samples.packet 5); ByMQTT 2 (Samples.packet 7)] in
  exists s,
    nonce2Session (link_server l) !! Samples.connID = Some s /\
    RemoteSeq s = highest (link_accepted l) /\
    (exists e, Decrypt 9 s (Samples.packet 3) = (s, Err e)) /\
    link_incoming (arrive Samples.connID l (ByMQTT 9 (Samples.packet 3))) =
      link_incoming l ++ [(2%Z, drop 16 (Samples.packet 3))].
Proof.
  destruct (remote_seq_highest_stale_refused 0 "glasses" "s1" Samples.key Samples.tmpl
              Samples.connID Samples.session0 Samples.server0 []
              [ByUDP 1 "10.0.0.7:4000" (Samples.packet 5); ByMQTT 2 (Samples.packet 7)])
    as (s & Hs & Hr & _ & Hd & _ & Hm).
  - reflexivity.
  - reflexivity.
  - reflexivity.
  - exists s. split; [exact Hs|]. split; [exact Hr|]. split.
    + apply Hd; [vm_compute; lia | vm_compute; reflexivity].
    + apply Hm; [vm_compute; lia | reflexivity | vm_compute; reflexivity | vm_compute; lia].
Defined.

(** Claim C3 as stated fails on the MQTT path: the session has accepted
    sequence number 5; a packet with sequence number 3 arrives as a
    binary MQTT message.  [Decrypt] refuses it and the stored sequence
    number stays 5, and yet its bytes after the header are queued for
    the handler as audio. *)
Lemma stale_packet_queued_on_mqtt :
  let l := arrivals Samples.connID (mkLink Samples.server0 [] [])
             [ByUDP 1 "10.0.0.7:4000" (Samples.packet 5)] in
  let l' := arrive Samples.connID l (ByMQTT 2 (Samples.packet 3)) in
  link_accepted l = [5] /\
  packet_seq (Samples.packet 3) = 3 /\
  (RemoteSeq <$> nonce2Session (link_server l) !! Samples.connID) = Some 5 /\
  ((fun s => is_err (snd (Decrypt 2 s (Samples.packet 3))))
     <$> nonce2Session (link_server l) !! Samples.connID) = Some true /\
  (RemoteSeq <$> nonce2Session (link_server l') !! Samples.connID) = Some 5 /\
  link_incoming l = [] /\
  link_incoming l' = [(2%Z, drop 16 (Samples.packet 3))] /\
  length (drop 16 (Samples.packet 3)) = 4%nat.
Proof. vm_compute. repeat split; reflexivity. Qed.

End UDPLinkFacts.

(** ** Voice activity detection in front of the recognizer *)

Module VADMoreFacts.
Import VAD VADMore VADFacts.
Local Open Scope Z_scope.

Lemma set_frameSize_same v : set_frameSize (frameSize v) v = v.
Proof. now destruct v. Qed.

(** The branch [processAudioWithVAD] takes on a non-empty chunk. *)
Lemma processAudioWithVAD_decision vad now sr fd audioData v :
  (0 < length audioData)%nat ->
  let len := Z.of_nat (length audioData) in
  let v1 := AddAudioData audioData (SetVADCheckFrames 1 (set_frameSize len v)) in
  let all := (audioBuffer v ++ audioData)%list in
  processAudioWithVAD vad now sr fd audioData v =
  if heard vad sr fd audioData v && negb (haveVoice v) then
    Some (ResetIdleDuration
            (SetHaveVoiceLastTime now (SetHaveVoice true (set_audioBuffer [] v1))),
          [all])
  else if haveVoice v then
    let v2 := set_audioBuffer [] v1 in
    let v3 := if heard vad sr fd audioData v
              then ResetIdleDuration (SetHaveVoiceLastTime now v2)
              else AddIdleDuration (frame_ms fd) v2 in
    Some (if IsSilence v3 (idleDuration v3) then SetVoiceStop true v3 else v3, [all])
  else
    let v2 := AddIdleDuration (frame_ms fd) v1 in
    if 3 <? GetBufferedFrameCount v2 then
      match RemoveOldFrames (maxBufferFrames v2) v2 with
      | None => None
      | Some v' => Some (v', [])
      end
    else Some (v2, []).
Proof.
  intros Hpos len v1 all. unfold processAudioWithVAD. fold len.
  assert (0 < len) as Hlen by (unfold len; lia).
  assert ((if (0 <? len) && negb (len =? frameSize v) then set_frameSize len v else v)
          = set_frameSize len v) as ->.
  { destruct (Z.ltb_spec 0 len); [|lia].
    destruct (Z.eqb_spec len (frameSize v)) as [->|]; simpl; [|reflexivity].
    now rewrite set_frameSize_same. }
  fold v1.
  assert (buffered v1 = buffered v + len) as Hb1.
  { unfold v1. rewrite AddAudioData_buffered. reflexivity. }
  assert (0 <= buffered v) as Hbv by (unfold buffered; lia).
  unfold HasEnoughDataForVAD.
  change (vadCheckFrames v1) with 1. change (frameSize v1) with len. rewrite Hb1.
  destruct (Z.leb_spec (1 * len) (buffered v + len)); [|lia]. simpl negb. cbv iota.
  unfold GetBufferedData. change (frameSize v1) with len. rewrite Hb1.
  destruct (Z.ltb_spec (buffered v + len) (1 * len)); [lia|].
  destruct (Z.ltb_spec (1 * len) 0); [lia|].
  replace (Z.to_nat (1 * len)) with (length audioData) by (unfold len; lia).
  change (audioBuffer v1) with all.
  change (haveVoice v1) with (haveVoice v).
  change (match vad (take (length audioData) all) (if sr <=? 0 then 16000 else sr) _ with
          | Ok b => b | Err _ => true end) with (heard vad sr fd audioData v).
  change (if fd <=? 0 then 20 else fd) with (frame_ms fd).
  destruct (heard vad sr fd audioData v), (haveVoice v); cbn [andb negb];
    cbn [GetAndClearAllData]; change (audioBuffer v1) with all; try reflexivity.
  - assert ((0 <? length all)%nat = true) as ->; [|reflexivity].
    apply Nat.ltb_lt. unfold all. rewrite length_app. lia.
  - assert ((0 <? length all)%nat = true) as ->; [|reflexivity].
    apply Nat.ltb_lt. unfold all. rewrite length_app. lia.
Qed.


(** Property X18.  When a voice is first heard (or the detector fails), the
    recognizer is given the whole buffer, older audio first and the new
    chunk last; the buffer is emptied, the voice flag is set, the idle
    time is reset and the time of the voice is recorded. *)
Theorem first_voice_flushes_buffer vad now sr fd (audioData : list N) (v : VADState) :
  (0 < length audioData)%nat ->
  haveVoice v = false ->
  heard vad sr fd audioData v = true ->
  exists v',
    processAudioWithVAD vad now sr fd audioData v =
      Some (v', [(audioBuffer v ++ audioData)%list]) /\
    haveVoice v' = true /\ audioBuffer v' = [] /\
    idleDuration v' = 0 /\ haveVoiceLastTime v' = now /\
    voiceStop v' = voiceStop v.
Proof.
  intros Hpos Hv Hh.
  rewrite processAudioWithVAD_decision by exact Hpos. cbv zeta.
  rewrite Hh, Hv. cbn [andb negb].
  eexists. split; [reflexivity|]. simpl. auto.
Qed.

Lemma first_voice_witness :
  exists v',
    processAudioWithVAD (fun _ _ _ => Err tt) 7 16000 20 [1%N; 2%N]
      (set_audioBuffer [9%N; 9%N] (NewVADState 2 300)) =
      Some (v', [([9%N; 9%N] ++ [1%N; 2%N])%list]) /\
    haveVoice v' = true /\ audioBuffer v' = [] /\
    idleDuration v' = 0 /\ haveVoiceLastTime v' = 7 /\
    voiceStop v' = false.
Proof.
  apply (first_voice_flushes_buffer (fun _ _ _ => Err tt) 7 16000 20 [1%N; 2%N]
           (set_audioBuffer [9%N; 9%N] (NewVADState 2 300))).
  - simpl. lia.
  - reflexivity.
  - reflexivity.
Defined.

Lemma speaking_step vad now sr fd (audioData : list N) (v : VADState) :
  (0 < length audioData)%nat ->
  haveVoice v = true ->
  exists v',
    processAudioWithVAD vad now sr fd audioData v =
      Some (v', [(audioBuffer v ++ audioData)%list]) /\
    haveVoice v' = true /\ audioBuffer v' = [].
Proof.
  intros Hpos Hv.
  rewrite processAudioWithVAD_decision by exact Hpos. cbv zeta.
  rewrite Hv, andb_false_r.
  eexists. split; [reflexivity|].
  destruct (heard vad sr fd audioData v); destruct (IsSilence _ _); simpl; auto.
Qed.

(** Property X19.  Once the voice flag is set, the recognizer receives the
    audio stream unchanged: whatever the detector says, the buffers
    handed over, concatenated, are the bytes that were buffered followed
    by all chunks in order; one buffer per chunk, and nothing stays
    behind. *)
Theorem speaking_stream_unchanged vad sr fd (queue : list (Z * list N)) (v : VADState) :
  haveVoice v = true ->
  Forall (fun c => (0 < length (snd c))%nat) queue ->
  exists v' sent,
    processClientAudioMessages vad sr fd queue v = Some (v', sent) /\
    (concat sent ++ audioBuffer v' = audioBuffer v ++ concat (map snd queue))%list /\
    length sent = length queue /\
    haveVoice v' = true /\
    (queue <> [] -> audioBuffer v' = []).
Proof.
  intros Hv Hq. revert v Hv.
  induction Hq as [|[now audioData] rest Hpos _ IH]; intros v Hv.
  - exists v, []. simpl. rewrite app_nil_r. repeat split; auto. congruence.
  - simpl in Hpos.
    destruct (speaking_step vad now sr fd audioData v Hpos Hv) as (v1 & E & Hv1 & Hb1).
    destruct (IH v1 Hv1) as (v2 & sent & E2 & Hc & Hl & Hv2 & Hb2).
    exists v2, ((audioBuffer v ++ audioData)%list :: sent).
    simpl. rewrite E, E2. split; [reflexivity|].
    rewrite Hb1 in Hc. simpl in Hc.
    split; [now rewrite <- !app_assoc, Hc|].
    split; [now rewrite Hl|]. split; [exact Hv2|].
    intros _. destruct rest as [|c rest].
    + simpl in E2. injection E2 as <- _. exact Hb1.
    + apply Hb2. discriminate.
Qed.

Lemma speaking_stream_witness :
  exists v' sent,
    processClientAudioMessages Samples.silent 16000 20 [(1, [1%N; 2%N]); (2, [3%N])]
      (SetHaveVoice true (NewVADState 2 300)) = Some (v', sent) /\
    (concat sent ++ audioBuffer v' =
     audioBuffer (SetHaveVoice true (NewVADState 2 300))
       ++ concat (map snd [(1, [1%N; 2%N]); (2, [3%N])]))%list /\
    length sent = length [(1, [1%N; 2%N]); (2, [3%N])] /\
    haveVoice v' = true /\
    ([(1, [1%N; 2%N]); (2, [3%N])] <> [] -> audioBuffer v' = []).
Proof.
  apply (speaking_stream_unchanged Samples.silent 16000 20 [(1, [1%N; 2%N]); (2, [3%N])]
           (SetHaveVoice true (NewVADState 2 300))).
  - reflexivity.
  - repeat constructor.
Defined.

(** Property X20.  The detector is asked about the oldest frame of the buffer,
    not about the chunk that has just arrived: while no voice has been
    heard and the head of the buffer is judged silent, nothing reaches
    the recognizer and the voice flag stays off, whatever the new chunk
    contains. *)
Theorem stale_frame_masks_voice vad now sr fd (audioData : list N) (v : VADState) :
  (0 < length audioData)%nat ->
  (length audioData <= length (audioBuffer v))%nat ->
  haveVoice v = false ->
  0 <= maxBufferFrames v ->
  vad (take (length audioData) (audioBuffer v)) (sample_rate sr)
      (actual_frame_ms sr fd audioData) = Ok false ->
  exists v',
    processAudioWithVAD vad now sr fd audioData v = Some (v', []) /\
    haveVoice v' = false.
Proof.
  intros Hpos Hle Hv Hmax Hsil.
  assert (heard vad sr fd audioData v = false) as Hh.
  { unfold heard, check_window. rewrite take_app_le by exact Hle. now rewrite Hsil. }
  rewrite processAudioWithVAD_decision by exact Hpos. cbv zeta.
  rewrite Hh, Hv. cbn [andb negb].
  match goal with |- context [RemoveOldFrames ?k ?w] =>
    destruct (RemoveOldFrames_spec k w) as (v' & E & _);
      [simpl; lia | simpl; exact Hmax |]; rewrite E;
    assert (haveVoice v' = false) as Hv'
  end.
  { revert E. unfold RemoveOldFrames.
    repeat match goal with |- context [if ?b then _ else _] => destruct b end;
      try discriminate; intros [= <-]; simpl; exact Hv. }
  destruct (3 <? _); eexists; (split; [reflexivity|]); [exact Hv' | simpl; exact Hv].
Qed.

Lemma stale_frame_witness :
  exists v',
    processAudioWithVAD
      (fun w _ _ => Ok (negb (forallb (N.eqb 0) w))) 5 16000 20 [7%N; 7%N]
      (set_audioBuffer [0%N; 0%N] (NewVADState 2 300)) = Some (v', []) /\
    haveVoice v' = false.
Proof.
  apply (stale_frame_masks_voice
           (fun w _ _ => Ok (negb (forallb (N.eqb 0) w))) 5 16000 20 [7%N; 7%N]
           (set_audioBuffer [0%N; 0%N] (NewVADState 2 300))).
  - simpl. lia.
  - simpl. lia.
  - reflexivity.
  - simpl. lia.
  - reflexivity.
Defined.

Lemma silent_step vad now sr fd (audioData : list N) (v : VADState) :
  let n := Z.of_nat (length audioData) in
  let bound := Z.max 3 (maxBufferFrames v) * n in
  (0 < length audioData)%nat ->
  (n | buffered v) ->
  buffered v <= bound ->
  0 <= maxBufferFrames v ->
  haveVoice v = false ->
  heard vad sr fd audioData v = false ->
  exists v',
    processAudioWithVAD vad now sr fd audioData v = Some (v', []) /\
    haveVoice v' = false /\ maxBufferFrames v' = maxBufferFrames v /\
    (n | buffered v') /\ buffered v' <= bound.
Proof.
  intros n bound Hpos [k Hk] Hb Hmax Hv Hh. subst bound.
  assert (0 < n) as Hn by (unfold n; lia).
  assert (0 <= buffered v) as Hbv by (unfold buffered; lia).
  assert (0 <= k) as Hk0 by nia.
  rewrite processAudioWithVAD_decision by exact Hpos. cbv zeta.
  rewrite Hh, Hv. cbn [andb negb]. fold n.
  set (v1 := AddAudioData audioData (SetVADCheckFrames 1 (set_frameSize n v))).
  set (v2 := AddIdleDuration (frame_ms fd) v1).
  assert (buffered v2 = (k + 1) * n) as Hb2.
  { change (buffered v2) with (buffered v1). unfold v1.
    rewrite AddAudioData_buffered.
    change (buffered (SetVADCheckFrames 1 (set_frameSize n v))) with (buffered v).
    fold n. lia. }
  assert (frameSize v2 = n) as Hf2 by reflexivity.
  assert (maxBufferFrames v2 = maxBufferFrames v) as Hm2 by reflexivity.
  assert (haveVoice v2 = haveVoice v) as Hv2 by reflexivity.
  unfold GetBufferedFrameCount. rewrite Hf2, Hb2.
  destruct (Z.leb_spec n 0); [lia|].
  rewrite Z.quot_mul by lia.
  destruct (Z.ltb_spec 3 (k + 1)).
  - unfold RemoveOldFrames. rewrite Hf2, Hb2, Hm2.
    destruct (Z.eqb_spec n 0); [lia|].
    rewrite Z.quot_mul by lia.
    destruct (Z.ltb_spec (maxBufferFrames v) (k + 1)).
    + destruct (Z.ltb_spec ((k + 1 - maxBufferFrames v) * n) 0); [nia|].
      destruct (Z.ltb_spec ((k + 1) * n) ((k + 1 - maxBufferFrames v) * n)); [nia|].
      simpl orb. cbv iota. eexists. split; [reflexivity|].
      rewrite buffered_set_audioBuffer, length_drop.
      assert (Z.of_nat (length (audioBuffer v2)) = (k + 1) * n) as Hl by exact Hb2.
      replace (Z.of_nat (length (audioBuffer v2)
                         - Z.to_nat ((k + 1 - maxBufferFrames v) * n)))
        with (maxBufferFrames v * n) by nia.
      split; [exact Hv|]. split; [reflexivity|].
      split; [apply Z.divide_factor_r | nia].
    + exists v2. split; [reflexivity|]. rewrite Hb2.
      split; [exact Hv|]. split; [reflexivity|].
      split; [apply Z.divide_factor_r | nia].
  - exists v2. split; [reflexivity|]. rewrite Hb2.
    split; [exact Hv|]. split; [reflexivity|].
    split; [apply Z.divide_factor_r | nia].
Qed.

(** Property X21.  While the detector hears nothing, chunks of one length
    never let the buffer grow beyond max(3, maxBufferFrames) frames, and
    nothing reaches the recognizer. *)
Theorem silence_buffer_bounded vad sr fd (n : nat) (queue : list (Z * list N))
    (v : VADState) :
  (0 < n)%nat ->
  Forall (fun c => length (snd c) = n) queue ->
  (forall w r m, vad w r m = Ok false) ->
  haveVoice v = false ->
  0 <= maxBufferFrames v ->
  (Z.of_nat n | buffered v) ->
  buffered v <= Z.max 3 (maxBufferFrames v) * Z.of_nat n ->
  exists v',
    processClientAudioMessages vad sr fd queue v = Some (v', []) /\
    haveVoice v' = false /\
    buffered v' <= Z.max 3 (maxBufferFrames v) * Z.of_nat n.
Proof.
  intros Hn Hq Hvad. revert v.
  induction Hq as [|[now audioData] rest Hlen _ IH]; intros v Hv Hmax Hdiv Hb.
  - exists v. auto.
  - simpl in Hlen.
    destruct (silent_step vad now sr fd audioData v) as (v1 & E & Hv1 & Hm1 & Hd1 & Hb1);
      try (rewrite Hlen; assumption); try assumption.
    { unfold heard. now rewrite Hvad. }
    rewrite Hlen in Hd1, Hb1.
    destruct (IH v1) as (v2 & E2 & Hv2 & Hb2); try assumption.
    { now rewrite Hm1. } { now rewrite Hm1. }
    exists v2. simpl. rewrite E, E2. rewrite Hm1 in Hb2. auto.
Qed.

Lemma silence_buffer_witness :
  exists v',
    processClientAudioMessages Samples.silent 16000 20
      (map (fun i => (Z.of_nat i, [0%N; 0%N])) (seq 0 12)) (NewVADState 2 300)
      = Some (v', []) /\
    haveVoice v' = false /\
    buffered v' <= Z.max 3 (maxBufferFrames (NewVADState 2 300)) * Z.of_nat 2.
Proof.
  apply (silence_buffer_bounded Samples.silent 16000 20 2
           (map (fun i => (Z.of_nat i, [0%N; 0%N])) (seq 0 12)) (NewVADState 2 300)).
  - lia.
  - repeat constructor.
  - reflexivity.
  - reflexivity.
  - simpl. lia.
  - exists 0. reflexivity.
  - vm_compute. discriminate.
Defined.

End VADMoreFacts.

(** ** Trimming the dialogue, the system message, the Redis store *)

Module ChatMoreFacts.
Import Chat ChatMore ChatFacts.

Lemma recent_length (maxMessages : Z) (d : list Message) :
  (0 < maxMessages < Z.of_nat (length d))%Z ->
  length (recent maxMessages d) = Z.to_nat maxMessages.
Proof. intros H. unfold recent. rewrite length_drop. lia. Qed.

Lemma recent_cons (maxMessages : Z) (m0 : Message) (d : list Message) :
  (0 < maxMessages < Z.of_nat (length (m0 :: d)))%Z ->
  recent maxMessages (m0 :: d) = drop (length d - Z.to_nat maxMessages) d.
Proof.
  intros H. unfold recent. simpl length in *.
  replace (Z.to_nat (Z.of_nat (S (length d)) - maxMessages))
    with (S (length d - Z.to_nat maxMessages)) by lia.
  reflexivity.
Qed.

Lemma RemoveSecond_sublist dm :
  sublist (dialogue (RemoveSecondMessageForToolType dm)) (dialogue dm) /\
  head (dialogue (RemoveSecondMessageForToolType dm)) = head (dialogue dm) /\
  (length (dialogue (RemoveSecondMessageForToolType dm)) <= length (dialogue dm))%nat /\
  memory (RemoveSecondMessageForToolType dm) = memory dm.
Proof.
  unfold RemoveSecondMessageForToolType.
  destruct (dialogue dm) as [|m0 [|m1 rest]] eqn:E; try (rewrite E; auto).
  destruct (Role m1 =? "tool")%string; simpl; [|rewrite E; auto].
  repeat split; auto. apply sublist_skip, sublist_cons. reflexivity.
Qed.

(** Property X22.  [KeepRecentMessages] with a positive bound: the stored
    history is not touched; the dialogue becomes a subsequence of the
    old one with at most [maxMessages] messages, or one more when a
    system message heads it, which is kept; without a system message
    exactly the last [maxMessages] messages remain. *)
Theorem KeepRecentMessages_bound (maxMessages : Z) (dm : DialogueManager) :
  (0 < maxMessages)%Z ->
  let d := dialogue dm in
  let d' := dialogue (KeepRecentMessages maxMessages dm) in
  memory (KeepRecentMessages maxMessages dm) = memory dm /\
  sublist d' d /\
  (Z.of_nat (length d') <= if is_system_head d then maxMessages + 1 else maxMessages)%Z /\
  (is_system_head d = true -> head d' = head d) /\
  (is_system_head d = false -> d' = drop (length d - Z.to_nat maxMessages) d).
Proof.
  intros Hmax d d'. subst d'. unfold KeepRecentMessages. fold d.
  destruct (Z.leb_spec maxMessages 0); [lia|]. simpl orb.
  destruct (Z.leb_spec (Z.of_nat (length d)) maxMessages) as [Hle|Hgt].
  { fold d. repeat split; auto.
    - destruct (is_system_head d); lia.
    - intros _. replace (length d - Z.to_nat maxMessages)%nat with 0%nat by lia.
      reflexivity. }
  destruct d as [|m0 tl] eqn:Ed; [simpl in Hgt; lia|].
  simpl is_system_head.
  destruct (Role m0 =? "system")%string.
  - set (dm1 := mkDialogueManager (m0 :: recent maxMessages (m0 :: tl)) (memory dm)).
    destruct (RemoveSecond_sublist dm1) as (Hs & Hh & Hl & Hm).
    split; [exact Hm|]. split.
    { etransitivity; [exact Hs|]. simpl. apply sublist_skip.
      rewrite recent_cons by lia. apply sublist_drop. }
    split.
    { simpl in Hl. rewrite recent_length in Hl by lia. lia. }
    split; [intros _; exact Hh | discriminate].
  - simpl. split; [reflexivity|]. split; [apply sublist_drop|].
    split; [rewrite recent_length by lia; lia|].
    split; [discriminate|]. intros _. unfold recent. f_equal. simpl length. lia.
Qed.

Lemma KeepRecentMessages_witness :
  let dm := mkDialogueManager
              [mkMessage "system" "be brief" "" []; mkMessage "user" "a" "" [];
               mkMessage "tool" "r" "t1" []; mkMessage "assistant" "b" "" []] None in
  let d := dialogue dm in
  let d' := dialogue (KeepRecentMessages 2 dm) in
  memory (KeepRecentMessages 2 dm) = memory dm /\
  sublist d' d /\
  (Z.of_nat (length d') <= if is_system_head d then 2 + 1 else 2)%Z /\
  (is_system_head d = true -> head d' = head d) /\
  (is_system_head d = false -> d' = drop (length d - Z.to_nat 2) d).
Proof.
  apply (KeepRecentMessages_bound 2
           (mkDialogueManager
              [mkMessage "system" "be brief" "" []; mkMessage "user" "a" "" [];
               mkMessage "tool" "r" "t1" []; mkMessage "assistant" "b" "" []] None)).
  lia.
Defined.

(** Property X23.  [GetRecentMessages] does not honour its bound without a
    system message at the head: a dialogue longer than [maxMessages] is
    then returned whole, where [KeepRecentMessages] would cut it; with a
    system message the two agree up to the removal of a tool message in
    second place. *)
Theorem GetRecentMessages_not_bounded (maxMessages : Z) (dm : DialogueManager) :
  (0 < maxMessages < Z.of_nat (length (dialogue dm)))%Z ->
  if is_system_head (dialogue dm)
  then dialogue (RemoveSecondMessageForToolType
                   (mkDialogueManager (GetRecentMessages maxMessages dm) (memory dm)))
       = dialogue (KeepRecentMessages maxMessages dm)
  else GetRecentMessages maxMessages dm = dialogue dm /\
       (length (dialogue (KeepRecentMessages maxMessages dm))
        < length (GetRecentMessages maxMessages dm))%nat.
Proof.
  intros H. unfold GetRecentMessages, KeepRecentMessages.
  destruct (Z.leb_spec maxMessages 0); [lia|]. simpl orb.
  destruct (Z.leb_spec (Z.of_nat (length (dialogue dm))) maxMessages); [lia|].
  destruct (dialogue dm) as [|m0 tl] eqn:Ed; [simpl in H; lia|].
  simpl is_system_head.
  destruct (Role m0 =? "system")%string; [reflexivity|].
  split; [reflexivity|]. simpl dialogue. rewrite recent_length by lia. simpl in *. lia.
Qed.

Lemma GetRecentMessages_witness :
  let dm := mkDialogueManager
              [mkMessage "user" "a" "" []; mkMessage "assistant" "b" "" [];
               mkMessage "user" "c" "" []] None in
  if is_system_head (dialogue dm)
  then dialogue (RemoveSecondMessageForToolType
                   (mkDialogueManager (GetRecentMessages 1 dm) (memory dm)))
       = dialogue (KeepRecentMessages 1 dm)
  else GetRecentMessages 1 dm = dialogue dm /\
       (length (dialogue (KeepRecentMessages 1 dm)) < length (GetRecentMessages 1 dm))%nat.
Proof.
  apply (GetRecentMessages_not_bounded 1
           (mkDialogueManager
              [mkMessage "user" "a" "" []; mkMessage "assistant" "b" "" [];
               mkMessage "user" "c" "" []] None)).
  simpl. lia.
Defined.

(** Property X24.  The system message is unique and the last one set wins:
    setting it twice is setting the last; afterwards the dialogue starts
    with a system message of that content, the other messages are as
    before, and nothing is persisted. *)
Theorem SetSystemMessage_last_wins (s1 s2 : string) (dm : DialogueManager) :
  s2 <> ""%string ->
  SetSystemMessage s2 (SetSystemMessage s1 dm) = SetSystemMessage s2 dm /\
  is_system_head (dialogue (SetSystemMessage s2 dm)) = true /\
  option_map Content (head (dialogue (SetSystemMessage s2 dm))) = Some s2 /\
  tail (dialogue (SetSystemMessage s2 dm)) =
    (if is_system_head (dialogue dm) then tail (dialogue dm) else dialogue dm) /\
  memory (SetSystemMessage s2 dm) = memory dm.
Proof.
  intros H2. apply String.eqb_neq in H2.
  unfold SetSystemMessage. rewrite H2.
  destruct (s1 =? "")%string.
  - destruct (dialogue dm) as [|m0 tl] eqn:Ed; simpl; [auto|].
    destruct (Role m0 =? "system")%string eqn:Er; simpl; rewrite ?Er; auto.
  - destruct (dialogue dm) as [|m0 tl] eqn:Ed; simpl; [auto|].
    destruct (Role m0 =? "system")%string eqn:Er; simpl; rewrite ?Er; auto.
Qed.

Lemma SetSystemMessage_witness :
  SetSystemMessage "v2" (SetSystemMessage "v1" Samples.dm0) = SetSystemMessage "v2" Samples.dm0 /\
  is_system_head (dialogue (SetSystemMessage "v2" Samples.dm0)) = true /\
  option_map Content (head (dialogue (SetSystemMessage "v2" Samples.dm0))) = Some "v2"%string /\
  tail (dialogue (SetSystemMessage "v2" Samples.dm0)) =
    (if is_system_head (dialogue Samples.dm0) then tail (dialogue Samples.dm0)
     else dialogue Samples.dm0) /\
  memory (SetSystemMessage "v2" Samples.dm0) = memory Samples.dm0.
Proof. apply (SetSystemMessage_last_wins "v1" "v2" Samples.dm0). discriminate. Defined.

Lemma Put_on_redis (msg : Message) (dm : DialogueManager) :
  on_redis dm ->
  on_redis (Put msg dm) /\
  stored (Put msg dm) = (if persistable msg then Some [msg] else stored dm).
Proof.
  intros (rm & Hm & Hr). unfold Put, stored, on_redis. rewrite Hm.
  destruct (persistable msg); simpl.
  - unfold RedisSaveMemory. rewrite Hr. simpl.
    split; [eexists; split; reflexivity|].
    apply lookup_insert_eq.
  - split; [exists rm; auto | reflexivity].
Qed.

(** Property X25.  With the Redis back end the stored value is overwritten at
    every save: after any sequence of [Put]s the dialogue in memory has
    grown by all of them, while the store holds only the last message
    that qualified for persistence. *)
Theorem redis_keeps_last_message_only (msgs : list Message) (dm : DialogueManager) :
  on_redis dm ->
  let dm' := fold_left (fun dm m => Put m dm) msgs dm in
  dialogue dm' = dialogue dm ++ msgs /\
  stored dm' = match last (List.filter persistable msgs) with
               | Some m => Some [m]
               | None => stored dm
               end.
Proof.
  revert dm. induction msgs as [|m rest IH]; intros dm Hr; simpl.
  - now rewrite app_nil_r.
  - destruct (Put_on_redis m dm Hr) as (Hr1 & Hs1).
    destruct (IH (Put m dm) Hr1) as (Hd & Hs). simpl in Hd, Hs.
    split.
    + rewrite Hd, Put_dialogue, <- app_assoc. reflexivity.
    + rewrite Hs, Hs1. destruct (persistable m); [|reflexivity].
      simpl. destruct (List.filter persistable rest) as [|x l] eqn:Ef; [reflexivity|].
      simpl. change (last (x :: l)) with (last (x :: l)).
      destruct (last (x :: l)) eqn:El; [reflexivity|].
      apply last_None in El. discriminate.
Qed.

Lemma redis_keeps_last_witness :
  let dm := NewDialogueManager (Some (MemRedis (mkRedisMemory ∅ "u42" false))) in
  let msgs := [mkMessage "user" "hello" "" []; mkMessage "assistant" "hi" "" [];
               mkMessage "tool" "r" "t1" []] in
  let dm' := fold_left (fun dm m => Put m dm) msgs dm in
  dialogue dm' = dialogue dm ++ msgs /\
  stored dm' = match last (List.filter persistable msgs) with
               | Some m => Some [m]
               | None => stored dm
               end.
Proof.
  apply (redis_keeps_last_message_only
           [mkMessage "user" "hello" "" []; mkMessage "assistant" "hi" "" [];
            mkMessage "tool" "r" "t1" []]
           (NewDialogueManager (Some (MemRedis (mkRedisMemory ∅ "u42" false))))).
  eexists. split; reflexivity.
Defined.

End ChatMoreFacts.

(** ** Token verification and the WebSocket gate *)

Module WSMoreFacts.
Import WS.

Lemma substring_all (s : string) : String.substring 0 (String.length s) s = s.
Proof. induction s as [|b s IH]; simpl; [reflexivity | now rewrite IH]. Qed.

Lemma prefix_substring (p s : string) :
  String.prefix p s = true ->
  s = (p +:+ String.substring (String.length p) (String.length s - String.length p) s)%string.
Proof.
  revert s. induction p as [|a p IH]; intros s Hp.
  - change (String.length "") with 0%nat. rewrite Nat.sub_0_r, substring_all. reflexivity.
  - destruct s as [|b s]; simpl in Hp; [discriminate|].
    destruct (Ascii.ascii_dec a b) as [->|]; [|discriminate].
    transitivity (String b (p +:+ String.substring (String.length p)
                                   (String.length s - String.length p) s))%string;
      [f_equal; now apply IH | reflexivity].
Qed.

Section Gate.
Context {J : JWT} {S : Server}.

(** Property X26.  [VerifyToken] answers consistently: it reports a valid
    token exactly when it returns no error; on failure the device id is
    empty and the user id 0; on success the parser produced a token
    whose claims hold that device id (a string) and that user id (a
    number), and, unless expiry is ignored, the parser reported no error
    and the token is marked valid. *)
Theorem VerifyToken_sound (at_ : option AuthToken) (tokenString : string)
    (ignoreExpiry : list bool) (ok : bool) (dev : string) (uid : N)
    (err : option VerifyError) :
  VerifyToken at_ tokenString ignoreExpiry = (ok, dev, uid, err) ->
  let skip := match ignoreExpiry with b :: _ => b | [] => false end in
  (ok = true <-> err = None) /\
  (ok = false -> dev = ""%string /\ uid = 0) /\
  (ok = true ->
   exists a secret token claims u,
     at_ = Some a /\ secretKey a = Some secret /\
     fst (jwt_Parse skip secret tokenString) = Some token /\
     Claims token = Some claims /\
     claims !! "device_id"%string = Some (JString dev) /\
     claims !! "user_id"%string = Some (JNumber u) /\
     uid = uint_of u /\
     (skip = false ->
      snd (jwt_Parse skip secret tokenString) = false /\ Valid token = true)).
Proof.
  intros H skip. unfold VerifyToken in H.
  assert (forall e, (false, ""%string, 0, Some e) = (ok, dev, uid, err) ->
          (ok = true <-> err = None) /\ (ok = false -> dev = ""%string /\ uid = 0) /\
          (ok = true -> exists a secret token claims u,
             at_ = Some a /\ secretKey a = Some secret /\
             fst (jwt_Parse skip secret tokenString) = Some token /\
             Claims token = Some claims /\
             claims !! "device_id"%string = Some (JString dev) /\
             claims !! "user_id"%string = Some (JNumber u) /\
             uid = uint_of u /\
             (skip = false ->
              snd (jwt_Parse skip secret tokenString) = false /\ Valid token = true)))
    as Hfail.
  { intros e [= <- <- <- <-]. split; [split; discriminate|]. split; [auto | discriminate]. }
  destruct at_ as [a|]; [|eauto].
  destruct (secretKey a) as [secret|] eqn:Hsec; [|eauto].
  fold skip in H.
  destruct (jwt_Parse skip secret tokenString) as [token perr] eqn:Hparse.
  destruct (perr && negb skip) eqn:Hpe; [eauto|].
  destruct token as [tok|]; [|eauto].
  destruct (negb skip && negb (Valid tok)) eqn:Hv; [eauto|].
  destruct (Claims tok) as [claims|] eqn:Hc; [|eauto].
  destruct (claims !! "device_id"%string) as [[d| |]|] eqn:Hd; eauto.
  destruct (claims !! "user_id"%string) as [[|u|]|] eqn:Hu; eauto.
  injection H as <- <- <- <-.
  split; [tauto|]. split; [discriminate|]. intros _.
  exists a, secret, tok, claims, u. rewrite Hparse. simpl.
  do 7 (split; [auto|]). intros Hs. split.
  - rewrite Hs in Hpe. simpl in Hpe. now rewrite andb_true_r in Hpe.
  - rewrite Hs in Hv. simpl in Hv. now apply negb_false_iff in Hv.
Qed.

Lemma HeaderSet_other k v k' r :
  k' <> k -> Get (Header (HeaderSet k v r)) k' = Get (Header r) k'.
Proof. intros Hne. unfold Get, HeaderSet. simpl. now rewrite lookup_insert_ne. Qed.

(** Property X27.  A connection handler is only ever created for a verified
    device: whenever [handleWebSocket] calls the factory, the request
    carries a bearer token that [VerifyToken] accepts, the Device-Id
    header handed to the factory is the device id of that token, and the
    only user id ever bound to a handler is the token's.  It is bound
    exactly when the factory returns a handler and that handler is a
    [ConnectionContextAdapter]; a handler of another type gets no user
    id. *)
Theorem handler_only_for_verified_device (t : WebSocketTransport) (r r' : Request)
    (created : bool) :
  In (CreateHandler r' created) (handleWebSocket t r) ->
  exists tok dev uid,
    Get (Header (inject_query t r)) "Authorization" = ("Bearer " +:+ tok)%string /\
    VerifyToken (authToken t) tok [] = (true, dev, uid, None) /\
    Get (Header r') "Device-Id" = dev /\
    (forall u, In (SetUserID u) (handleWebSocket t r) -> u = uid) /\
    (In (SetUserID uid) (handleWebSocket t r) <->
     created = true /\ is_adapter r' = true).
Proof.
  unfold handleWebSocket. set (r0 := inject_query t r).
  unfold verifyJWTAuth.
  destruct (String.prefix "Bearer " (Get (Header r0) "Authorization")) eqn:Hp;
    simpl negb; cbv iota.
  2: { simpl. intros [H|[]]. discriminate. }
  set (tok := String.substring 7 _ _).
  destruct (VerifyToken (authToken t) tok []) as [[[ok dev] uid] err] eqn:Hv.
  destruct err as [e|]; simpl orb; cbv iota.
  { simpl. intros [H|[]]. discriminate. }
  destruct ok; simpl negb; cbv iota.
  2: { simpl. intros [H|[]]. discriminate. }
  destruct (String.eqb_spec (Get (Header r0) "Device-Id") dev) as [Hd|Hd]; simpl negb; cbv iota.
  2: { simpl. intros [H|[]]. discriminate. }
  destruct (upgrade r0) as [clientID|].
  2: { simpl. intros [H|[]]. discriminate. }
  set (r1 := if (Get (Header r0) "Session-Id" =? "")%string then _ else r0).
  assert (Get (Header r1) "Device-Id" = dev) as Hd1.
  { unfold r1. destruct (_ =? "")%string; [|exact Hd].
    rewrite HeaderSet_other by discriminate. exact Hd. }
  destruct (connHandler t); simpl negb; cbv iota.
  2: { simpl. intros [H|[H|[]]]; discriminate. }
  assert (Get (Header r0) "Authorization" = ("Bearer " +:+ tok)%string) as Ha.
  { apply (prefix_substring "Bearer "). exact Hp. }
  destruct (create_handler r1); simpl negb; cbv iota.
  - destruct (is_adapter r1) eqn:Had; simpl app; simpl In; intros Hin.
    + destruct Hin as [H|[H|[H|[H|[H|[H|[]]]]]]]; try discriminate.
      injection H as <- <-.
      exists tok, dev, uid. do 3 (split; [assumption|]). split.
      * intros u [H|[H|[H|[H|[H|[H|[]]]]]]]; try discriminate. now injection H.
      * split; [auto | intros _; right; right; left; reflexivity].
    + destruct Hin as [H|[H|[H|[H|[H|[]]]]]]; try discriminate.
      injection H as <- <-.
      exists tok, dev, uid. do 3 (split; [assumption|]). split.
      * intros u [H|[H|[H|[H|[H|[]]]]]]; discriminate.
      * split.
        -- intros [H|[H|[H|[H|[H|[]]]]]]; discriminate.
        -- intros [_ H]. rewrite Had in H. discriminate.
  - simpl In. intros Hin.
    destruct Hin as [H|[H|[H|[]]]]; try discriminate.
    injection H as <- <-.
    exists tok, dev, uid. do 3 (split; [assumption|]). split.
    + intros u [H|[H|[H|[]]]]; discriminate.
    + split.
      * intros [H|[H|[H|[]]]]; discriminate.
      * intros [H _]. discriminate.
Qed.

End Gate.

Lemma VerifyToken_sound_witness :
  let skip := false in
  (true = true <-> @None VerifyError = None) /\
  (true = false -> "dev-A"%string = ""%string /\ 7 = 0) /\
  (true = true ->
   exists a secret token claims u,
     Some (NewAuthToken "s3cret") = Some a /\ secretKey a = Some secret /\
     fst (@jwt_Parse Samples.toy_jwt skip secret "tokenA") = Some token /\
     Claims token = Some claims /\
     claims !! "device_id"%string = Some (JString "dev-A") /\
     claims !! "user_id"%string = Some (JNumber u) /\
     7 = uint_of u /\
     (skip = false ->
      snd (@jwt_Parse Samples.toy_jwt skip secret "tokenA") = false /\ Valid token = true)).
Proof.
  apply (@VerifyToken_sound Samples.toy_jwt (Some (NewAuthToken "s3cret")) "tokenA" []
           true "dev-A" 7 None).
  vm_compute. reflexivity.
Defined.

Lemma handler_only_witness :
  exists tok dev uid,
    Get (Header (inject_query Samples.transport (Samples.request "dev-A"))) "Authorization" =
      ("Bearer " +:+ tok)%string /\
    @VerifyToken Samples.toy_jwt (authToken Samples.transport) tok [] = (true, dev, uid, None) /\
    Get (Header (HeaderSet "Session-Id" "0xc000123" (Samples.request "dev-A"))) "Device-Id" = dev /\
    (forall u, In (SetUserID u)
                 (@handleWebSocket Samples.toy_jwt Samples.toy_server Samples.transport
                    (Samples.request "dev-A")) -> u = uid) /\
    (In (SetUserID uid)
        (@handleWebSocket Samples.toy_jwt Samples.toy_server Samples.transport
           (Samples.request "dev-A")) <->
     true = true /\
     @is_adapter Samples.toy_server
       (HeaderSet "Session-Id" "0xc000123" (Samples.request "dev-A")) = true).
Proof.
  apply (@handler_only_for_verified_device Samples.toy_jwt Samples.toy_server
           Samples.transport (Samples.request "dev-A")
           (HeaderSet "Session-Id" "0xc000123" (Samples.request "dev-A")) true).
  vm_compute. right. left. reflexivity.
Defined.

(** A factory whose handler is of another type: the session is served
    and no user id is bound. *)
Example other_handler_type_gets_no_user_id :
  @handleWebSocket Samples.toy_jwt
    {| upgrade := fun _ => Some "0xc000123"%string; create_handler := fun _ => true;
       is_adapter := fun _ => false |}
    Samples.transport (Samples.request "dev-A") =
  [Upgrade true;
   CreateHandler (HeaderSet "Session-Id" "0xc000123" (Samples.request "dev-A")) true;
   StoreActive "0xc000123"; SessionOnline "dev-A" "0xc000123"; Handle].
Proof. vm_compute. reflexivity. Qed.

End WSMoreFacts.

(** ** Clean-up, closing and the TTS stage *)

Module CoreMoreFacts.
Import Chat Core CoreMore CoreFacts.
Local Open Scope Z_scope.

Section Facts.
Context {U : Utils} {P : Providers}.

(** Property X28.  [cleanTTSAndAudioQueue] empties both queues and removes
    exactly the files of the dropped audio tasks that deletion is
    configured for: non-empty paths that are neither cached quick
    replies nor music, in queue order, and only when [DeleteAudio] is
    set.  Round, stop flag and dialogue are unchanged. *)
Theorem cleanup_removes_exactly (h : Handler) :
  let h' := cleanTTSAndAudioQueue h in
  trace h' = trace h ++ map EvRemoveFile
                          (List.filter (removable (config h))
                             (map au_filepath (audioMessagesQueue h))) /\
  ttsQueue h' = [] /\ audioMessagesQueue h' = [] /\
  same_session h h' /\ closed h' = closed h /\
  tts_last_text_index h' = tts_last_text_index h.
Proof.
  destruct (cleanTTSAndAudioQueue_spec h) as (_ & S & C & Q1 & Q2 & I).
  split; [|auto]. apply cleanTTSAndAudioQueue_trace.
Qed.

(** Property X29.  [Close] runs once: closing a closed session does nothing,
    so the stop channel is closed exactly once, and after the first
    close both queues are empty. *)
Theorem Close_runs_once (h : Handler) :
  Close (Close h) = Close h /\
  closed (Close h) = true /\
  (closed h = false ->
   ttsQueue (Close h) = [] /\ audioMessagesQueue (Close h) = [] /\
   length (List.filter is_stop (trace (Close (Close h)))) =
   S (length (List.filter is_stop (trace h)))).
Proof.
  destruct (Close_spec h) as (_ & _ & Hc & _).
  assert (Close (Close h) = Close h) as Hi.
  { unfold Close at 1. now rewrite Hc. }
  split; [exact Hi|]. split; [exact Hc|]. intros Hn. rewrite Hi.
  unfold Close. rewrite Hn.
  match goal with |- context [cleanTTSAndAudioQueue ?x] =>
    pose proof (cleanTTSAndAudioQueue_trace x) as T;
    destruct (cleanTTSAndAudioQueue_spec x) as (_ & _ & _ & Q1 & Q2 & _) end.
  split; [exact Q1|]. split; [exact Q2|].
  rewrite T. simpl trace. rewrite !List.filter_app, !length_app. simpl.
  match goal with |- context [List.filter is_stop (map EvRemoveFile ?l)] =>
    assert (List.filter is_stop (map EvRemoveFile l) = []) as ->
      by (induction l; simpl; auto) end.
  simpl. lia.
Qed.

Lemma processTTSQueue_step (n : nat) (h : Handler) :
  processTTSQueue (S n) h = tts_worker (processTTSQueue n h).
Proof. reflexivity. Qed.

Lemma processTTSQueue_shift (n : nat) (h : Handler) :
  processTTSQueue (S n) h = processTTSQueue n (tts_worker h).
Proof.
  unfold processTTSQueue. induction n as [|n IH]; [reflexivity|].
  simpl in *. now rewrite IH.
Qed.

Lemma tts_worker_spec (h : Handler) (task : TTSTask) (rest : list TTSTask) :
  ttsQueue h = task :: rest ->
  exists fp text',
    ttsQueue (tts_worker h) = rest /\
    audioMessagesQueue (tts_worker h) =
      audioMessagesQueue h ++ [mkAudioTask fp text' (tts_round task) (tts_textIndex task)] /\
    talkRound (tts_worker h) = talkRound h /\
    adds not_audio h (tts_worker h).
Proof.
  intros Hq. unfold tts_worker. rewrite Hq.
  destruct (processTTSTask_spec (tts_text task) (tts_textIndex task) (tts_round task)
              (set_ttsQueue rest h)) as (fp & text' & Q & T & R & A).
  exists fp, text'. repeat split; assumption.
Qed.

(** Property X30.  The TTS stage keeps order: working off the queue yields one
    audio task per TTS task, in the same order and with the same round
    and text index, without writing any audio to the transport and
    without changing the round. *)
Theorem tts_stage_preserves_order (h : Handler) :
  let h' := processTTSQueue (length (ttsQueue h)) h in
  exists tasks,
    audioMessagesQueue h' = audioMessagesQueue h ++ tasks /\
    map (fun t => (au_round t, au_textIndex t)) tasks =
      map (fun t => (tts_round t, tts_textIndex t)) (ttsQueue h) /\
    ttsQueue h' = [] /\
    talkRound h' = talkRound h /\
    adds not_audio h h'.
Proof.
  remember (ttsQueue h) as q eqn:Hq. revert h Hq.
  induction q as [|task rest IH]; intros h Hq; cbv zeta.
  - exists []. simpl. rewrite app_nil_r. repeat split; auto. apply adds_refl.
  - change (length (task :: rest)) with (S (length rest)).
    rewrite processTTSQueue_shift.
    destruct (tts_worker_spec h task rest (eq_sym Hq)) as (fp & text' & Q & A & T & D).
    destruct (IH (tts_worker h) (eq_sym Q)) as (tasks & A' & M & Q' & T' & D').
    exists (mkAudioTask fp text' (tts_round task) (tts_textIndex task) :: tasks).
    split; [rewrite A', A, <- app_assoc; reflexivity|].
    split; [simpl; now rewrite M|].
    split; [exact Q'|]. split; [congruence|].
    eapply adds_trans; eassumption.
Qed.

End Facts.

Lemma Close_runs_once_witness :
  closed Samples.stale = false /\
  length (List.filter is_stop
            (trace (@Close Samples.utils Samples.providers
                      (@Close Samples.utils Samples.providers Samples.stale)))) = 1%nat.
Proof.
  split; [reflexivity|].
  apply (@Close_runs_once Samples.utils Samples.providers Samples.stale). reflexivity.
Defined.

End CoreMoreFacts.
